(** * The Zero-Config Personal Finance Dashboard: ingestion and aggregation

    A shallow embedding of the spreadsheet ingestion pipeline
    ([utils/excelParser.js], [components/FileUpload.js]), of the
    aggregation functions ([utils/calculations.js]) and of the filter
    pipeline ([app.js]), with the properties the specification states
    about them.

    Conventions of the model.
    - A JavaScript string is a [string] of ASCII characters; [toLowerCase]
      and [trim] act on the ASCII letters and white space.
    - A JavaScript number is an exact rational ([Q]) where a property
      depends neither on rounding nor on overflow; where the source can
      produce NaN ([parseFloat]) the model then returns an [option].  The
      savings rate, which divides two totals that can overflow, is embedded
      on IEEE 754 binary64 numbers with their infinities and NaN (module
      [Double]).
    - [undefined] is [None]; an array with holes is a list of options.
    - The built-in [Date] and the number-to-string conversion belong to the
      host, not to the repository: they are the operations of the class
      [Host]. *)

From Stdlib Require Import String Ascii List ZArith QArith Qabs Qminmax Bool Lia.
From Stdlib Require Import Sorted Permutation SpecFloat.
Import ListNotations.

Local Open Scope string_scope.
Local Open Scope Z_scope.

(** ** JavaScript string primitives *)

Module JS.

(** [c.toLowerCase()] on one ASCII character. *)
Definition lowerChar (c : ascii) : ascii :=
  let n := nat_of_ascii c in
  if ((65 <=? n) && (n <=? 90))%nat then ascii_of_nat (n + 32) else c.

(** [s.toLowerCase()] *)
Fixpoint toLowerCase (s : string) : string :=
  match s with
  | EmptyString => EmptyString
  | String c rest => String (lowerChar c) (toLowerCase rest)
  end.

(** White space as [String.prototype.trim] sees it (ASCII part):
    TAB, LF, VT, FF, CR and SPACE. *)
Definition isWhiteSpace (c : ascii) : bool :=
  let n := nat_of_ascii c in
  ((9 <=? n) && (n <=? 13) || (n =? 32))%nat.

Fixpoint trimStart (s : string) : string :=
  match s with
  | EmptyString => EmptyString
  | String c rest => if isWhiteSpace c then trimStart rest else s
  end.

Fixpoint trimEnd (s : string) : string :=
  match s with
  | EmptyString => EmptyString
  | String c rest =>
      match trimEnd rest with
      | EmptyString => if isWhiteSpace c then EmptyString else String c EmptyString
      | rest' => String c rest'
      end
  end.

(** [s.trim()] *)
Definition trim (s : string) : string := trimEnd (trimStart s).

(** [s.includes(sub)]: [sub] occurs in [s] as a contiguous substring. *)
Fixpoint includes (s sub : string) : bool :=
  String.prefix sub s
  || match s with
     | EmptyString => false
     | String _ rest => includes rest sub
     end.

(** Truthiness of a string: only the empty string is falsy. *)
Definition truthy (s : string) : bool :=
  match s with EmptyString => false | _ => true end.

(** [a || b] on strings. *)
Definition orElse (a b : string) : string := if truthy a then a else b.

(** [\d] of a regular expression. *)
Definition isDigit (c : ascii) : bool :=
  let n := nat_of_ascii c in ((48 <=? n) && (n <=? 57))%nat.

Definition digitValue (c : ascii) : Z := Z.of_nat (nat_of_ascii c) - 48.

Fixpoint allDigits (s : string) : bool :=
  match s with
  | EmptyString => true
  | String c rest => isDigit c && allDigits rest
  end.

Fixpoint digitsValueFrom (acc : Z) (s : string) : Z :=
  match s with
  | EmptyString => acc
  | String c rest => digitsValueFrom (10 * acc + digitValue c) rest
  end.

(** [parseInt(s)] on a string of decimal digits. *)
Definition parseInt (s : string) : Z := digitsValueFrom 0 s.

(** Some character of [s] is a digit. *)
Fixpoint hasDigit (s : string) : bool :=
  match s with
  | EmptyString => false
  | String c rest => isDigit c || hasDigit rest
  end.

(** The longest prefix of decimal digits, and what follows it. *)
Fixpoint spanDigits (s : string) : string * string :=
  match s with
  | EmptyString => (EmptyString, EmptyString)
  | String c rest =>
      if isDigit c then let (ds, tl) := spanDigits rest in (String c ds, tl)
      else (EmptyString, s)
  end.

(** [parseFloat(s)] on a string made of digits, [.], [-] and [+] only (no
    white space, no exponent letter, no [Infinity]): an optional sign, then
    the longest [digits [. digits]] or [. digits] prefix.  [None] is NaN:
    there is no digit to read. *)
Definition parseFloat (s : string) : option Q :=
  let (negative, body) :=
    match s with
    | String "-"%char rest => (true, rest)
    | String "+"%char rest => (false, rest)
    | _ => (false, s)
    end in
  let (intPart, afterInt) := spanDigits body in
  let fracPart :=
    match afterInt with
    | String "."%char rest => fst (spanDigits rest)
    | _ => EmptyString
    end in
  match intPart, fracPart with
  | EmptyString, EmptyString => None
  | _, _ =>
      let scale := 10 ^ Z.of_nat (String.length fracPart) in
      let magnitude := Qmake (parseInt intPart * scale + parseInt fracPart) (Z.to_pos scale) in
      Some (if negative then Qopp magnitude else magnitude)
  end.

(** [s.replace(/[^0-9.\-+]/g, '')] *)
Fixpoint keepAmountChars (s : string) : string :=
  match s with
  | EmptyString => EmptyString
  | String c rest =>
      if isDigit c || Ascii.eqb c "."%char || Ascii.eqb c "-"%char || Ascii.eqb c "+"%char
      then String c (keepAmountChars rest)
      else keepAmountChars rest
  end.

(** [s.split(sep)] for a one-character separator. *)
Fixpoint splitOn (sep : ascii) (s : string) : list string :=
  match s with
  | EmptyString => [EmptyString]
  | String c rest =>
      if Ascii.eqb c sep then EmptyString :: splitOn sep rest
      else match splitOn sep rest with
           | [] => [String c EmptyString]
           | first :: others => String c first :: others
           end
  end.

Definition digitChar (d : Z) : ascii := ascii_of_nat (Z.to_nat (48 + d)).

Fixpoint digitsOf (fuel : nat) (n : Z) (acc : string) : string :=
  match fuel with
  | O => acc
  | S fuel' =>
      let acc' := String (digitChar (n mod 10)) acc in
      if n <? 10 then acc' else digitsOf fuel' (n / 10) acc'
  end.

(** [String(n)] for an integer [n] (below the size where JavaScript
    switches to exponent notation). *)
Definition intToString (n : Z) : string :=
  let digits := digitsOf (S (Z.to_nat (Z.log2 (Z.abs n)))) (Z.abs n) EmptyString in
  if n <? 0 then String "-"%char digits else digits.

(** [String(x)] for a number that may be NaN. *)
Definition numToString (x : option Z) : string :=
  match x with Some n => intToString n | None => "NaN" end.

Fixpoint repeatChar (n : nat) (c : ascii) : string :=
  match n with O => EmptyString | S n' => String c (repeatChar n' c) end.

(** [s.padStart(width, c)] *)
Definition padStart (width : nat) (c : ascii) (s : string) : string :=
  repeatChar (width - String.length s) c ++ s.

Fixpoint lastIndexOfFrom (c : ascii) (s : string) (i found : Z) : Z :=
  match s with
  | EmptyString => found
  | String d rest => lastIndexOfFrom c rest (i + 1) (if Ascii.eqb d c then i else found)
  end.

(** [s.lastIndexOf(c)]: [-1] when [c] does not occur. *)
Definition lastIndexOf (c : ascii) (s : string) : Z := lastIndexOfFrom c s 0 (-1).

Fixpoint dropChars (n : nat) (s : string) : string :=
  match n, s with
  | O, _ => s
  | S n', String _ rest => dropChars n' rest
  | S _, EmptyString => EmptyString
  end.

(** [s.slice(start)]: a negative [start] counts from the end. *)
Definition slice (start : Z) (s : string) : string :=
  let len := Z.of_nat (String.length s) in
  let from := if start <? 0 then Z.max (len + start) 0 else start in
  dropChars (Z.to_nat from) s.

End JS.

(** ** Column mapper ([excelParser.js], [COLUMN_MAPPINGS] and [mapColumns]) *)

(** The canonical fields: the keys of [COLUMN_MAPPINGS] and of the column
    map. *)
Inductive Field : Type := FDate | FDescription | FCategory | FAmount | FType.

Definition Field_eqb (f g : Field) : bool :=
  match f, g with
  | FDate, FDate | FDescription, FDescription | FCategory, FCategory
  | FAmount, FAmount | FType, FType => true
  | _, _ => false
  end.

(** The object [{ date, description, category, amount, type }] of column
    indices; [-1] means "no column". *)
Module ColumnMap.

Record t : Type := Build
  { date : Z; description : Z; category : Z; amount : Z; type : Z }.

Definition get (f : Field) (m : t) : Z :=
  match f with
  | FDate => date m
  | FDescription => description m
  | FCategory => category m
  | FAmount => amount m
  | FType => type m
  end.

Definition set (f : Field) (i : Z) (m : t) : t :=
  match f with
  | FDate => Build i (description m) (category m) (amount m) (type m)
  | FDescription => Build (date m) i (category m) (amount m) (type m)
  | FCategory => Build (date m) (description m) i (amount m) (type m)
  | FAmount => Build (date m) (description m) (category m) i (type m)
  | FType => Build (date m) (description m) (category m) (amount m) i
  end.

End ColumnMap.

(** The alias table, in the order [Object.entries] enumerates it. *)
Definition COLUMN_MAPPINGS : list (Field * list string) :=
  [ (FDate, ["date"; "transaction date"; "trans date"; "posting date"]);
    (FDescription, ["description"; "desc"; "memo"; "narrative"; "details"; "transaction"]);
    (FCategory, ["category"; "type"; "transaction type"; "group"]);
    (FAmount, ["amount"; "value"; "sum"; "total"; "debit"; "credit"]);
    (FType, ["income/expense"; "transaction kind"; "in/out"; "direction"]) ].

(** [aliases.some(alias => lowerHeader.includes(alias))] *)
Definition someAlias (lowerHeader : string) (aliases : list string) : bool :=
  existsb (fun alias => JS.includes lowerHeader alias) aliases.

(** The body of the [for (const [field, aliases] of ...)] loop. *)
Definition mapEntry (lowerHeader : string) (index : Z)
    (map : ColumnMap.t) (entry : Field * list string) : ColumnMap.t :=
  let (field, aliases) := entry in
  if someAlias lowerHeader aliases then
    if ColumnMap.get field map =? -1 then ColumnMap.set field index map else map
  else map.

(** The callback of [headers.forEach((header, index) => ...)]. *)
Definition mapHeader (map : ColumnMap.t) (header : string) (index : Z) : ColumnMap.t :=
  let lowerHeader := JS.toLowerCase header in
  fold_left (mapEntry lowerHeader index) COLUMN_MAPPINGS map.

Fixpoint forEachHeader (headers : list string) (index : Z) (map : ColumnMap.t)
  : ColumnMap.t :=
  match headers with
  | [] => map
  | header :: rest => forEachHeader rest (index + 1) (mapHeader map header index)
  end.

Definition unmapped : ColumnMap.t := ColumnMap.Build (-1) (-1) (-1) (-1) (-1).

Definition mapColumns (headers : list string) : ColumnMap.t :=
  forEachHeader headers 0 unmapped.

(** The aliases of one field. *)
Definition aliasesOf (f : Field) : list string :=
  match find (fun e => Field_eqb (fst e) f) COLUMN_MAPPINGS with
  | Some e => snd e
  | None => []
  end.

(** A header satisfies a field when it contains one of its aliases. *)
Definition headerMatches (f : Field) (header : string) : bool :=
  someAlias (JS.toLowerCase header) (aliasesOf f).

(** Index of the leftmost header that satisfies [f], counting from
    [index]; [-1] when there is none. *)
Fixpoint firstMatchFrom (f : Field) (headers : list string) (index : Z) : Z :=
  match headers with
  | [] => -1
  | header :: rest =>
      if headerMatches f header then index else firstMatchFrom f rest (index + 1)
  end.

(** ** The host: dates and number formatting *)

(** A [Date] object holds a time value, in milliseconds since the epoch, or
    NaN ([None]) when it is an "Invalid Date". *)
Record Date : Type := mkDate { getTime : option Z }.

(** [!isNaN(date.getTime())] *)
Definition isValidDate (d : Date) : bool :=
  match getTime d with Some _ => true | None => false end.

(** [a <= b] on dates compares the time values; a comparison with NaN is
    false. *)
Definition Date_leb (a b : Date) : bool :=
  match getTime a, getTime b with
  | Some x, Some y => x <=? y
  | _, _ => false
  end.

(** What the JavaScript engine, its locale and its time zone decide. *)
Class Host : Type :=
  { (** [new Date(s)] for a string [s] *)
    Date_ofString : string -> Date;
    (** [new Date(year, monthIndex, day)], in local time *)
    Date_ofFields : Z -> Z -> Z -> Date;
    (** [d.getFullYear()], NaN for an invalid date *)
    getFullYear : Date -> option Z;
    (** [d.getMonth()], NaN for an invalid date *)
    getMonth : Date -> option Z;
    (** [String(d)] for a date [d] *)
    Date_toString : Date -> string;
    (** [String(x)] for a number [x] *)
    Number_toString : Q -> string }.

(** ** Cells, rows and transactions *)

(** A cell as the spreadsheet decoder delivers it: a string, a number or a
    native date. *)
Inductive Cell : Type :=
| CText (s : string)
| CNumber (x : Q)
| CDate (d : Date).

(** A raw row: an array that may have holes. *)
Definition Row : Type := list (option Cell).

(** [row[index]]; [None] is [undefined]. *)
Definition cellAt (row : Row) (index : Z) : option Cell :=
  if index <? 0 then None
  else match nth_error row (Z.to_nat index) with
       | Some cell => cell
       | None => None
       end.

Definition Qlt_bool (a b : Q) : bool := negb (Qle_bool b a).

(** [x || 0] on a number that may be NaN. *)
Definition orZero (x : option Q) : Q :=
  match x with
  | Some q => if Qeq_bool q 0 then 0%Q else q
  | None => 0%Q
  end.

(** A transaction object.  [id] is absent until [parseSheetData] sets it;
    [type] is a string, as the calculations compare it with literals. *)
Module Transaction.

Record t : Type := Build
  { id : option Z;
    date : Date;
    description : string;
    category : string;
    amount : Q;
    type : string }.

Definition withId (i : Z) (tr : t) : t :=
  Build (Some i) (date tr) (description tr) (category tr) (amount tr) (type tr).

End Transaction.

(** ** Row normalizer and ingestion ([excelParser.js]) *)

(** A capture group of the date patterns: [\d{1,2}] or [\d{4}]. *)
Inductive Width : Type := OneOrTwo | Four.

Definition fits (w : Width) (s : string) : bool :=
  JS.allDigits s
  && match w with
     | OneOrTwo => ((1 <=? String.length s) && (String.length s <=? 2))%nat
     | Four => (String.length s =? 4)%nat
     end.

(** A pattern [^(a)sep(b)sep(c)$]. *)
Record Format : Type := mkFormat
  { separator : ascii; first : Width; second : Width; third : Width }.

(** The array [formats] of [parseDate], in its order. *)
Definition formats : list Format :=
  [ mkFormat "/" OneOrTwo OneOrTwo Four;   (* MM/DD/YYYY *)
    mkFormat "-" OneOrTwo OneOrTwo Four;   (* MM-DD-YYYY *)
    mkFormat "/" Four OneOrTwo OneOrTwo;   (* YYYY/MM/DD *)
    mkFormat "-" Four OneOrTwo OneOrTwo ]. (* YYYY-MM-DD *)

(** [dateStr.match(format)]: the three captured groups. *)
Definition matchFormat (format : Format) (dateStr : string)
  : option (string * string * string) :=
  match JS.splitOn (separator format) dateStr with
  | [a; b; c] =>
      if fits (first format) a && fits (second format) b && fits (third format) c
      then Some (a, b, c) else None
  | _ => None
  end.

Section Ingestion.

Context {host : Host}.

(** [String(v)] for a cell value. *)
Definition stringOf (v : Cell) : string :=
  match v with
  | CText s => s
  | CNumber x => Number_toString x
  | CDate d => Date_toString d
  end.

(** The loop [for (const format of formats)] of [parseDate]. *)
Fixpoint tryFormats (fs : list Format) (dateStr : string) : option Date :=
  match fs with
  | [] => None
  | format :: rest =>
      match matchFormat format dateStr with
      | Some (a, b, c) =>
          let date :=
            if (String.length a =? 4)%nat
            then Date_ofFields (JS.parseInt a) (JS.parseInt b - 1) (JS.parseInt c)
            else Date_ofFields (JS.parseInt c) (JS.parseInt a - 1) (JS.parseInt b) in
          if isValidDate date then Some date else tryFormats rest dateStr
      | None => tryFormats rest dateStr
      end
  end.

(** [parseDate(dateStr)]; [None] is [null]. *)
Definition parseDate (dateStr : string) : option Date :=
  if negb (JS.truthy dateStr) then None
  else
    let date := Date_ofString dateStr in
    if isValidDate date then Some date else tryFormats formats dateStr.

(** The guard [columnMap.f !== -1 && row[columnMap.f] !== undefined]: the
    cell when the guard holds. *)
Definition mappedCell (row : Row) (index : Z) : option Cell :=
  if index =? -1 then None else cellAt row index.

(** [parseRow], "Get date". *)
Definition rowDate (row : Row) (columnMap : ColumnMap.t) : option Date :=
  match mappedCell row (ColumnMap.date columnMap) with
  | Some (CDate d) => Some d
  | Some dateVal => parseDate (stringOf dateVal)
  | None => None
  end.

(** [parseRow], "Get description". *)
Definition rowDescription (row : Row) (columnMap : ColumnMap.t) : string :=
  match mappedCell row (ColumnMap.description columnMap) with
  | Some v => JS.trim (stringOf v)
  | None => ""
  end.

(** [parseRow], "Get category". *)
Definition rowCategory (row : Row) (columnMap : ColumnMap.t) : string :=
  match mappedCell row (ColumnMap.category columnMap) with
  | Some v => JS.orElse (JS.trim (stringOf v)) "Uncategorized"
  | None => "Uncategorized"
  end.

(** [parseRow], "Get amount": the signed amount, before [Math.abs]. *)
Definition rowAmount (row : Row) (columnMap : ColumnMap.t) : Q :=
  match mappedCell row (ColumnMap.amount columnMap) with
  | Some (CNumber x) => x
  | Some amountVal =>
      let cleaned := JS.keepAmountChars (stringOf amountVal) in
      orZero (JS.parseFloat cleaned)
  | None => 0%Q
  end.

(** The test on the text of the type cell. *)
Definition saysIncome (typeVal : string) : bool :=
  JS.includes typeVal "income" || JS.includes typeVal "in" || JS.includes typeVal "credit".

(** [parseRow], "Determine type". *)
Definition rowType (row : Row) (columnMap : ColumnMap.t) (amount : Q) : string :=
  match mappedCell row (ColumnMap.type columnMap) with
  | Some v =>
      let typeVal := JS.toLowerCase (stringOf v) in
      if saysIncome typeVal then "Income" else "Expense"
  | None =>
      if Qlt_bool 0 amount then "Income" else "Expense"
  end.

(** [parseRow(row, columnMap, headers)]; [None] is [null], the row is
    rejected. *)
Definition parseRow (row : Row) (columnMap : ColumnMap.t) (headers : list string)
  : option Transaction.t :=
  match rowDate row columnMap with
  | None => None
  | Some date =>
      let description := rowDescription row columnMap in
      let category := rowCategory row columnMap in
      let amount := rowAmount row columnMap in
      if Qeq_bool amount 0 then None
      else
        let type := rowType row columnMap amount in
        Some (Transaction.Build None date description category (Qabs amount) type)
  end.

(** [String(h || '').toLowerCase().trim()] for a header cell.  A hole of the
    header row is skipped by [map] and by [forEach]; here it becomes the
    empty header, which contains no alias. *)
Definition headerOf (h : option Cell) : string :=
  let text :=
    match h with
    | None => ""
    | Some (CText s) => s
    | Some (CNumber x) => if Qeq_bool x 0 then "" else Number_toString x
    | Some (CDate d) => Date_toString d
    end in
  JS.trim (JS.toLowerCase text).

(** The loop [for (let i = 1; i < rawData.length; i++)]. *)
Fixpoint parseRows (rows : list Row) (i : Z) (columnMap : ColumnMap.t)
    (headers : list string) : list Transaction.t :=
  match rows with
  | [] => []
  | row :: rest =>
      match row with
      | [] => parseRows rest (i + 1) columnMap headers
      | _ =>
          match parseRow row columnMap headers with
          | Some transaction =>
              Transaction.withId i transaction :: parseRows rest (i + 1) columnMap headers
          | None => parseRows rest (i + 1) columnMap headers
          end
      end
  end.

Record SheetData : Type := mkSheetData
  { transactions : list Transaction.t; columns : list Field }.

(** [Object.keys(columnMap).filter(k => columnMap[k] !== -1)] *)
Definition detectedColumns (columnMap : ColumnMap.t) : list Field :=
  filter (fun k => negb (ColumnMap.get k columnMap =? -1))
         [FDate; FDescription; FCategory; FAmount; FType].

(** [parseSheetData(rawData)]; [None] is the TypeError of [rawData[0].map]
    on a sheet without rows. *)
Definition parseSheetData (rawData : list Row) : option SheetData :=
  match rawData with
  | [] => None
  | headerRow :: dataRows =>
      let headers := map headerOf headerRow in
      let columnMap := mapColumns headers in
      Some (mkSheetData (parseRows dataRows 1 columnMap headers)
                        (detectedColumns columnMap))
  end.

End Ingestion.

(** ** Reading a file ([excelParser.js], [FileUpload.js]) *)

(** What reading and decoding the bytes of a file gives: the reader fails
    ([reader.onerror]), the decoder throws an error with a message, or the
    first sheet is delivered with its name and its rows
    ([sheet_to_json(worksheet, { header: 1 })]). *)
Inductive FileContent : Type :=
| Unreadable
| Undecodable (message : string)
| Workbook (sheetName : string) (rawData : list Row).

(** A [File]: its name, its MIME type and what its bytes hold. *)
Module File.

Record t : Type := Build { name : string; type : string; content : FileContent }.

End File.

(** The object [parseExcelFile] resolves with. *)
Record ParseResult : Type := mkParseResult
  { result_transactions : list Transaction.t;
    fileName : string;
    sheetName : string;
    totalRows : Z;
    parsedRows : Z;
    result_columns : list Field }.

Definition validTypes : list string :=
  [ "application/vnd.openxmlformats-officedocument.spreadsheetml.sheet";
    "application/vnd.ms-excel";
    "application/excel";
    "application/x-excel" ].

Definition validExtensions : list string := [".xlsx"; ".xls"; ".xlsm"].

(** [list.includes(s)] on an array of strings. *)
Definition arrayIncludes (l : list string) (s : string) : bool :=
  existsb (String.eqb s) l.

(** [isValidExcelFile(file)] *)
Definition isValidExcelFile (file : File.t) : bool :=
  let extension :=
    JS.slice (JS.lastIndexOf "." (File.name file)) (JS.toLowerCase (File.name file)) in
  arrayIncludes validTypes (File.type file) || arrayIncludes validExtensions extension.

Definition emptySheetMessage : string :=
  "File appears to be empty or has no data rows".

Definition noTransactionsMessage : string :=
  "No valid transactions found in the file. Please check the file format.".

Definition invalidTypeMessage : string :=
  "Invalid file type. Please upload an Excel file (.xlsx or .xls)".

Definition unreadableMessage : string := "Failed to read file".

(** The message of the TypeError raised by [rawData[0].map] when there is
    no row 0. *)
Definition noHeaderRowMessage : string :=
  "Cannot read properties of undefined (reading 'map')".

(** What the user interface observes of one call of [handleFile]. *)
Inductive Effect : Type :=
| ShowProcessing (fileName : string)   (* the spinner replaces the upload zone *)
| ReadFile (fileName : string)         (* [parseExcelFile] starts a read *)
| RestoreUploadZone                    (* the original content is put back *)
| OnFileLoaded (result : ParseResult)  (* [onFileLoaded(result)] *)
| OnError (message : string)           (* [onError(error.message)] *)
| Alert (message : string).            (* [alert(...)] *)

Section Upload.

Context {host : Host}.

(** [parseExcelFile(file)]: the promise rejects with an [Error] carrying a
    message ([inl]) or resolves with a result ([inr]). *)
Definition parseExcelFile (file : File.t) : string + ParseResult :=
  match File.content file with
  | Unreadable => inl unreadableMessage
  | Undecodable message => inl ("Failed to parse Excel file: " ++ message)
  | Workbook sheet rawData =>
      if Z.of_nat (length rawData) <? 2 then inl emptySheetMessage
      else
        match parseSheetData rawData with
        | None => inl ("Failed to parse Excel file: " ++ noHeaderRowMessage)
        | Some result =>
            inr (mkParseResult (transactions result) (File.name file) sheet
                   (Z.of_nat (length rawData) - 1)
                   (Z.of_nat (length (transactions result)))
                   (columns result))
        end
  end.

(** The [try] block of [handleFile]: the error thrown ([inl]) or the result
    handed to [onFileLoaded] ([inr]), with the effects on the way. *)
Definition tryHandleFile (file : File.t) : list Effect * (string + ParseResult) :=
  if negb (isValidExcelFile file) then ([], inl invalidTypeMessage)
  else
    match parseExcelFile file with
    | inl message => ([ReadFile (File.name file)], inl message)
    | inr result =>
        if (length (result_transactions result) =? 0)%nat
        then ([ReadFile (File.name file)], inl noTransactionsMessage)
        else ([ReadFile (File.name file)], inr result)
    end.

(** [handleFile(file, onFileLoaded, onError)]; the booleans say whether the
    callbacks were supplied. *)
Definition handleFile (file : File.t) (onFileLoaded onError : bool) : list Effect :=
  let (effects, outcome) := tryHandleFile file in
  ShowProcessing (File.name file) :: effects ++
  match outcome with
  | inr result => if onFileLoaded then [OnFileLoaded result] else []
  | inl message =>
      RestoreUploadZone ::
      (if onError then [OnError message] else [Alert ("Error: " ++ message)])
  end.

End Upload.

(** ** Aggregation ([calculations.js]) *)

Definition isIncomeLiteral (t : Transaction.t) : bool :=
  String.eqb (Transaction.type t) "income" || String.eqb (Transaction.type t) "Income".

Definition isExpenseLiteral (t : Transaction.t) : bool :=
  String.eqb (Transaction.type t) "expense" || String.eqb (Transaction.type t) "Expense".

(** [list.reduce((sum, t) => sum + Math.abs(t.amount), 0)] *)
Definition sumAbs (l : list Transaction.t) : Q :=
  fold_left (fun sum t => (sum + Qabs (Transaction.amount t))%Q) l 0%Q.

Definition calculateTotalIncome (transactions : list Transaction.t) : Q :=
  sumAbs (filter isIncomeLiteral transactions).

Definition calculateTotalExpenses (transactions : list Transaction.t) : Q :=
  sumAbs (filter isExpenseLiteral transactions).

Definition calculateBalance (transactions : list Transaction.t) : Q :=
  let income := calculateTotalIncome transactions in
  let expenses := calculateTotalExpenses transactions in
  (income - expenses)%Q.

(** *** The totals and the savings rate on IEEE 754 doubles

    A JavaScript number is a binary64 floating-point number: a sum of
    finite amounts can overflow to [Infinity], and [Infinity / Infinity]
    is NaN.  The functions below are the same four functions of
    [calculations.js], on amounts that are binary64 numbers. *)
Module Double.

Definition prec : Z := 53.
Definition emax : Z := 1024.

(** The literal [0]. *)
Definition zero : spec_float := S754_zero false.

(** The double [n * 2^e], rounded to nearest. *)
Definition timesPow2 (n e : Z) : spec_float := binary_normalize prec emax n e false.

(** The double of an integer literal. *)
Definition ofInt (n : Z) : spec_float := timesPow2 n 0.

Definition add : spec_float -> spec_float -> spec_float := SFadd prec emax.
Definition sub : spec_float -> spec_float -> spec_float := SFsub prec emax.
Definition div : spec_float -> spec_float -> spec_float := SFdiv prec emax.

(** [Number.isNaN(x)] *)
Definition isNaN (x : spec_float) : bool :=
  match x with S754_nan => true | _ => false end.

(** [Number.isFinite(x)] *)
Definition isFinite (x : spec_float) : bool :=
  match x with S754_zero _ | S754_finite _ _ _ => true | _ => false end.

(** [a === b] on numbers: false for NaN, true for [0] and [-0]. *)
Definition strictEquals : spec_float -> spec_float -> bool := SFeqb.

(** [a < b] on numbers: false as soon as one is NaN. *)
Definition lessThan : spec_float -> spec_float -> bool := SFltb.

Definition Math_abs : spec_float -> spec_float := SFabs.

(** [Math.max(a, b)]: NaN when one argument is NaN; [-0] is below [0]. *)
Definition Math_max (a b : spec_float) : spec_float :=
  match SFcompare a b with
  | None => S754_nan
  | Some Lt => b
  | Some Gt => a
  | Some Eq => match a with S754_zero true => b | _ => a end
  end.

(** A transaction as far as the totals read it: [type] and [amount]. *)
Record Transaction : Type := mkTransaction { type : string; amount : spec_float }.

(** [list.reduce((sum, t) => sum + Math.abs(t.amount), 0)] *)
Definition sumAbs (l : list Transaction) : spec_float :=
  fold_left (fun sum t => add sum (Math_abs (amount t))) l zero.

Definition calculateTotalIncome (transactions : list Transaction) : spec_float :=
  sumAbs (filter (fun t => String.eqb (type t) "income" || String.eqb (type t) "Income")
                 transactions).

Definition calculateTotalExpenses (transactions : list Transaction) : spec_float :=
  sumAbs (filter (fun t => String.eqb (type t) "expense" || String.eqb (type t) "Expense")
                 transactions).

Definition calculateBalance (transactions : list Transaction) : spec_float :=
  let income := calculateTotalIncome transactions in
  let expenses := calculateTotalExpenses transactions in
  sub income expenses.

Definition calculateSavingsRate (transactions : list Transaction) : spec_float :=
  let income := calculateTotalIncome transactions in
  if strictEquals income zero then zero
  else
    let balance := calculateBalance transactions in
    Math_max zero (div balance income).

End Double.

(** An entry of [monthlyData]: [{ income, expenses, month }]. *)
Record MonthTotal : Type := mkMonthTotal
  { income : Q; expenses : Q; month : string }.

(** [monthlyData] is an object whose keys contain a [-], so its values come
    out in insertion order: a list of entries, each under its [month]. *)
Definition MonthlyData : Type := list MonthTotal.

(** [monthlyData[key]] *)
Fixpoint lookupMonth (key : string) (data : MonthlyData) : option MonthTotal :=
  match data with
  | [] => None
  | entry :: rest => if String.eqb (month entry) key then Some entry else lookupMonth key rest
  end.

(** [if (!monthlyData[key]) monthlyData[key] = { income: 0, expenses: 0, month: key }] *)
Definition ensureMonth (key : string) (data : MonthlyData) : MonthlyData :=
  match lookupMonth key data with
  | Some _ => data
  | None => (data ++ [mkMonthTotal 0 0 key])%list
  end.

(** An update in place of [monthlyData[key]]. *)
Fixpoint adjustMonth (key : string) (f : MonthTotal -> MonthTotal) (data : MonthlyData)
  : MonthlyData :=
  match data with
  | [] => []
  | entry :: rest =>
      if String.eqb (month entry) key then f entry :: rest
      else entry :: adjustMonth key f rest
  end.

Definition addIncome (x : Q) (e : MonthTotal) : MonthTotal :=
  mkMonthTotal (income e + x) (expenses e) (month e).

Definition addExpenses (x : Q) (e : MonthTotal) : MonthTotal :=
  mkMonthTotal (income e) (expenses e + x) (month e).

(** [a.localeCompare(b)] on month keys.  The keys are made of digits, [-]
    and the letters of [NaN]; on them the collation order is the
    lexicographic order of the characters. *)
Definition localeCompare (a b : string) : Z :=
  match String.compare a b with
  | Lt => -1
  | Eq => 0
  | Gt => 1
  end.

(** [Array.prototype.sort(compare)] is a stable sort: an insertion sort
    that puts an element before the first one it does not follow. *)
Fixpoint insertBy {A : Type} (compare : A -> A -> Z) (x : A) (l : list A) : list A :=
  match l with
  | [] => [x]
  | y :: rest => if compare x y <=? 0 then x :: l else y :: insertBy compare x rest
  end.

Definition sortBy {A : Type} (compare : A -> A -> Z) (l : list A) : list A :=
  fold_right (insertBy compare) [] l.

Section ByMonth.

Context {host : Host}.

(** The template literal that builds [monthKey]. *)
Definition monthKeyOf (date : Date) : string :=
  JS.numToString (getFullYear date) ++ "-" ++
  JS.padStart 2 "0" (JS.numToString (option_map (fun m => m + 1) (getMonth date))).

(** The callback of [transactions.forEach] in [calculateByMonth];
    [new Date(t.date)] copies the date. *)
Definition addToMonth (monthlyData : MonthlyData) (t : Transaction.t) : MonthlyData :=
  let date := Transaction.date t in
  let monthKey := monthKeyOf date in
  let monthlyData := ensureMonth monthKey monthlyData in
  if String.eqb (JS.toLowerCase (Transaction.type t)) "income"
  then adjustMonth monthKey (addIncome (Qabs (Transaction.amount t))) monthlyData
  else adjustMonth monthKey (addExpenses (Qabs (Transaction.amount t))) monthlyData.

Definition calculateByMonth (transactions : list Transaction.t) : list MonthTotal :=
  let monthlyData := fold_left addToMonth transactions [] in
  sortBy (fun a b => localeCompare (month a) (month b)) monthlyData.

End ByMonth.

(** ** Filters ([calculations.js], [app.js]) *)

Definition filterByDateRange (transactions : list Transaction.t) (startDate endDate : Date)
  : list Transaction.t :=
  filter (fun t =>
            let date := Transaction.date t in
            Date_leb startDate date && Date_leb date endDate)
         transactions.

Definition filterByCategory (transactions : list Transaction.t) (category : string)
  : list Transaction.t :=
  if negb (JS.truthy category) || String.eqb category "all" then transactions
  else filter (fun t => String.eqb (Transaction.category t) category) transactions.

Definition filterByType (transactions : list Transaction.t) (type : string)
  : list Transaction.t :=
  if negb (JS.truthy type) || String.eqb type "all" then transactions
  else filter (fun t => String.eqb (JS.toLowerCase (Transaction.type t)) (JS.toLowerCase type))
              transactions.

Definition searchTransactions (transactions : list Transaction.t) (query : string)
  : list Transaction.t :=
  if negb (JS.truthy query) then transactions
  else
    let lowerQuery := JS.toLowerCase query in
    filter (fun t =>
              JS.includes (JS.toLowerCase (Transaction.description t)) lowerQuery
              || JS.includes (JS.toLowerCase (Transaction.category t)) lowerQuery)
           transactions.

(** [state.filters] *)
Module Filters.

Record t : Type := Build
  { search : string; category : string; type : string;
    dateFrom : string; dateTo : string }.

End Filters.

(** The application state of [app.js]. *)
Module State.

Record t : Type := Build
  { transactions : list Transaction.t;
    filteredTransactions : list Transaction.t;
    filters : Filters.t;
    isLoaded : bool }.

End State.

(** The filters of the initial state and of [handleClearData]: nothing is
    constrained. *)
Definition noFilters : Filters.t := Filters.Build "" "all" "all" "" "".

Section Filtering.

Context {host : Host}.

(** The record list [applyFilters] stores in [state.filteredTransactions]. *)
Definition filtered (state : State.t) : list Transaction.t :=
  let f := State.filters state in
  let filtered := State.transactions state in
  let filtered :=
    if JS.truthy (Filters.search f)
    then searchTransactions filtered (Filters.search f) else filtered in
  let filtered :=
    if JS.truthy (Filters.category f) && negb (String.eqb (Filters.category f) "all")
    then filterByCategory filtered (Filters.category f) else filtered in
  let filtered :=
    if JS.truthy (Filters.type f) && negb (String.eqb (Filters.type f) "all")
    then filterByType filtered (Filters.type f) else filtered in
  if JS.truthy (Filters.dateFrom f) || JS.truthy (Filters.dateTo f) then
    let startDate :=
      if JS.truthy (Filters.dateFrom f)
      then Date_ofString (Filters.dateFrom f) else mkDate (Some 0) in
    let endDate :=
      if JS.truthy (Filters.dateTo f)
      then Date_ofString (Filters.dateTo f) else mkDate (Some 8640000000000000) in
    filterByDateRange filtered startDate endDate
  else filtered.

(** [applyFilters()]: the state after the call (the views are redrawn from
    [filteredTransactions]). *)
Definition applyFilters (state : State.t) : State.t :=
  State.Build (State.transactions state) (filtered state)
              (State.filters state) (State.isLoaded state).

End Filtering.

(** ** A reference host

    One host on which the model runs: local time is UTC, [new Date(s)]
    reads the ISO form [YYYY-MM-DD] only, and numbers print in positional
    decimal notation.  It serves to evaluate the definitions on concrete
    sheets; the general theorems hold for every host. *)
Module UTC.

Definition msPerDay : Z := 86400000.

(** Days from the epoch to the civil day [y]-[m]-[d], [m] in 1..12. *)
Definition daysFromCivil (y m d : Z) : Z :=
  let y' := if m <=? 2 then y - 1 else y in
  let era := y' / 400 in
  let yoe := y' - era * 400 in
  let mp := if m <=? 2 then m + 9 else m - 3 in
  let doy := (153 * mp + 2) / 5 + d - 1 in
  let doe := yoe * 365 + yoe / 4 - yoe / 100 + doy in
  era * 146097 + doe - 719468.

(** The civil day (year, month in 1..12, day) of a day number. *)
Definition civilFromDays (days : Z) : Z * Z * Z :=
  let z := days + 719468 in
  let era := z / 146097 in
  let doe := z - era * 146097 in
  let yoe := (doe - doe / 1460 + doe / 36524 - doe / 146096) / 365 in
  let doy := doe - (365 * yoe + yoe / 4 - yoe / 100) in
  let mp := (5 * doy + 2) / 153 in
  let d := doy - (153 * mp + 2) / 5 + 1 in
  let m := if mp <? 10 then mp + 3 else mp - 9 in
  let y := yoe + era * 400 in
  (if m <=? 2 then y + 1 else y, m, d).

Definition maxTime : Z := 8640000000000000.

Definition ofTime (t : Z) : Date :=
  if Z.abs t <=? maxTime then mkDate (Some t) else mkDate None.

(** [new Date(year, monthIndex, day)]: months and days out of range roll
    over, and a year from 0 to 99 means 1900 + year. *)
Definition ofFields (year monthIndex day : Z) : Date :=
  let year := if (0 <=? year) && (year <=? 99) then 1900 + year else year in
  let y := year + monthIndex / 12 in
  let m := monthIndex mod 12 + 1 in
  ofTime ((daysFromCivil y m 1 + day - 1) * msPerDay).

(** [new Date(s)]: the form [YYYY-MM-DD] of an existing day, at midnight
    UTC; every other string is an invalid date. *)
Definition ofString (s : string) : Date :=
  match JS.splitOn "-" s with
  | [a; b; c] =>
      let y := JS.parseInt a in
      let m := JS.parseInt b in
      let d := JS.parseInt c in
      let days := daysFromCivil y m d in
      if JS.allDigits a && JS.allDigits b && JS.allDigits c
         && (String.length a =? 4)%nat && (String.length b =? 2)%nat
         && (String.length c =? 2)%nat
         && (1 <=? m) && (m <=? 12) && (1 <=? d)
         && (let '(y', m', d') := civilFromDays days in (y' =? y) && (m' =? m) && (d' =? d))
      then ofTime (days * msPerDay)
      else mkDate None
  | _ => mkDate None
  end.

Definition fullYear (d : Date) : option Z :=
  option_map (fun t => fst (fst (civilFromDays (t / msPerDay)))) (getTime d).

Definition monthIndex (d : Date) : option Z :=
  option_map (fun t => snd (fst (civilFromDays (t / msPerDay))) - 1) (getTime d).

Definition dayNames : list string := ["Sun"; "Mon"; "Tue"; "Wed"; "Thu"; "Fri"; "Sat"].

Definition monthNames : list string :=
  ["Jan"; "Feb"; "Mar"; "Apr"; "May"; "Jun"; "Jul"; "Aug"; "Sep"; "Oct"; "Nov"; "Dec"].

Definition twoDigits (n : Z) : string := JS.padStart 2 "0" (JS.intToString n).

Definition yearDigits (y : Z) : string :=
  if y <? 0 then "-" ++ JS.padStart 6 "0" (JS.intToString (- y))
  else JS.padStart 4 "0" (JS.intToString y).

(** [String(d)] *)
Definition dateToString (d : Date) : string :=
  match getTime d with
  | None => "Invalid Date"
  | Some t =>
      let days := t / msPerDay in
      let ms := t mod msPerDay in
      let '(y, m, dd) := civilFromDays days in
      nth (Z.to_nat ((days + 4) mod 7)) dayNames "" ++ " " ++
      nth (Z.to_nat (m - 1)) monthNames "" ++ " " ++
      twoDigits dd ++ " " ++ yearDigits y ++ " " ++
      twoDigits (ms / 3600000) ++ ":" ++ twoDigits (ms / 60000 mod 60) ++ ":" ++
      twoDigits (ms / 1000 mod 60) ++ " GMT+0000 (Coordinated Universal Time)"
  end.

Fixpoint fractionDigits (places : nat) (r d : Z) : string :=
  match places with
  | O => EmptyString
  | S places' =>
      if r =? 0 then EmptyString
      else String (JS.digitChar (10 * r / d)) (fractionDigits places' (10 * r mod d) d)
  end.

(** [String(x)]: the integer part and, when there is one, the fraction,
    cut after 17 places. *)
Definition numberToString (x : Q) : string :=
  let d := Z.pos (Qden x) in
  let a := Z.abs (Qnum x) in
  let sign := if Qnum x <? 0 then "-" else "" in
  if a mod d =? 0 then sign ++ JS.intToString (a / d)
  else sign ++ JS.intToString (a / d) ++ "." ++ fractionDigits 17 (a mod d) d.

Definition host : Host :=
  {| Date_ofString := ofString;
     Date_ofFields := ofFields;
     getFullYear := fullYear;
     getMonth := monthIndex;
     Date_toString := dateToString;
     Number_toString := numberToString |}.

End UTC.

(** ** The sample template ([excelParser.js], [getSampleTemplateData]) *)

Definition text (s : string) : option Cell := Some (CText s).

Definition number (n : Z) : option Cell := Some (CNumber (inject_Z n)).

Definition templateHeader : Row :=
  [text "Date"; text "Description"; text "Category"; text "Amount"; text "Type"].

Definition getSampleTemplateData : list Row :=
  [ templateHeader;
    [text "2026-01-01"; text "Monthly Salary"; text "Salary"; number 5000; text "Income"];
    [text "2026-01-02"; text "Grocery Store"; text "Food & Dining"; number (-150); text "Expense"];
    [text "2026-01-03"; text "Electric Bill"; text "Utilities"; number (-120); text "Expense"];
    [text "2026-01-05"; text "Freelance Project"; text "Side Income"; number 800; text "Income"];
    [text "2026-01-07"; text "Restaurant Dinner"; text "Food & Dining"; number (-65); text "Expense"];
    [text "2026-01-10"; text "Gas Station"; text "Transportation"; number (-45); text "Expense"];
    [text "2026-01-12"; text "Online Shopping"; text "Shopping"; number (-200); text "Expense"];
    [text "2026-01-15"; text "Gym Membership"; text "Health & Fitness"; number (-50); text "Expense"] ].

(** ** Notions used to state the properties *)

(** The fields under which [mapColumns] records a column index. *)
Definition recordedUnder (headers : list string) (index : Z) : list Field :=
  filter (fun f => ColumnMap.get f (mapColumns headers) =? index)
         [FDate; FDescription; FCategory; FAmount; FType].

(** The type inferred from the sign of the amount: [amount > 0 ? 'Income' :
    'Expense']. *)
Definition typeFromSign (amount : Q) : string :=
  if Qlt_bool 0 amount then "Income" else "Expense".

(** The header row of the sample template, as [parseSheetData] reads it. *)
Definition templateHeaders : list string :=
  ["date"; "description"; "category"; "amount"; "type"].

(** The column map of the sample template: no type column. *)
Definition templateColumns : ColumnMap.t := ColumnMap.Build 0 1 2 3 (-1).


(** A column map with every field mapped, the type field to column 4. *)
Definition allColumns : ColumnMap.t := ColumnMap.Build 0 1 2 3 4.

(** Two rows that stop before column 4 and differ in their amount only. *)
Definition shortRowPlus : Row :=
  [text "2026-01-05"; text "Freelance Project"; text "Side Income"; number 800].

Definition shortRowMinus : Row :=
  [text "2026-01-05"; text "Freelance Project"; text "Side Income"; number (-150)].

(** A full row of the sample template. *)
Definition groceryRow : Row :=
  [text "2026-01-02"; text "Grocery Store"; text "Food & Dining"; number (-150); text "Expense"].

Definition groceryRecord : Transaction.t :=
  Transaction.Build None (mkDate (Some 1767312000000)) "Grocery Store" "Food & Dining"
    (inject_Z 150) "Expense".


(** Records whose type is written in capitals. *)
Definition capitalIncome : Transaction.t :=
  Transaction.Build (Some 1) (mkDate (Some 1767225600000)) "Monthly Salary" "Salary"
    (inject_Z 5000) "INCOME".

Definition capitalExpense : Transaction.t :=
  Transaction.Build (Some 2) (mkDate (Some 1767312000000)) "Grocery Store" "Food & Dining"
    (inject_Z 150) "EXPENSE".

(** One income of 1000 and one expense of 400. *)
Definition income1000 : Transaction.t :=
  Transaction.Build (Some 1) (mkDate (Some 1767225600000)) "Monthly Salary" "Salary"
    (inject_Z 1000) "Income".

Definition expense400 : Transaction.t :=
  Transaction.Build (Some 2) (mkDate (Some 1767312000000)) "Rent" "Housing"
    (inject_Z 400) "Expense".


(** What [handleFile] does when its [try] block throws an error with the
    given message: the upload zone is restored and the message is handed to
    the caller's [onError], or shown by [alert] when the caller gave none. *)
Definition failure (file : File.t) (onError : bool) (message : string) : list Effect :=
  [ ShowProcessing (File.name file); ReadFile (File.name file); RestoreUploadZone;
    if onError then OnError message else Alert ("Error: " ++ message) ].

(** The number of reads a trace starts. *)
Definition reads (trace : list Effect) : nat :=
  length (filter (fun e => match e with ReadFile _ => true | _ => false end) trace).

(** The results a trace hands to [onFileLoaded]. *)
Fixpoint loaded (trace : list Effect) : list ParseResult :=
  match trace with
  | [] => []
  | OnFileLoaded result :: rest => result :: loaded rest
  | _ :: rest => loaded rest
  end.

(** A workbook with the header row only, and one whose only data row has
    no date. *)
Definition headerOnlyFile : File.t :=
  File.Build "finance.xlsx" "" (Workbook "Transactions" [templateHeader]).

Definition noValidRowFile : File.t :=
  File.Build "finance.xlsx" ""
    (Workbook "Transactions" [templateHeader; [None; text "Grocery Store"; None; number 150]]).


(** The order of month keys: lexicographic, character by character. *)
Definition keyLe (a b : string) : Prop := String.leb a b = true.

(** Month totals in ascending order of their keys. *)
Definition monthLe (a b : MonthTotal) : Prop := keyLe (month a) (month b).


(** Records with amounts that are doubles: an income of 1000 and an
    expense of 400, and an income of [2^1023], a finite double. *)
Definition salary1000 : Double.Transaction :=
  Double.mkTransaction "Income" (Double.ofInt 1000).

Definition rent400 : Double.Transaction :=
  Double.mkTransaction "Expense" (Double.ofInt 400).

Definition hugeIncome : Double.Transaction :=
  Double.mkTransaction "Income" (Double.timesPow2 1 1023).

(** The month key of the year [y] and the month index [m]. *)
Definition monthKey (y m : Z) : string :=
  JS.intToString y ++ "-" ++ JS.padStart 2 "0" (JS.intToString (m + 1)).

(** Chronological order of months: by year, then by month. *)
Definition chronological (y1 m1 y2 m2 : Z) : comparison :=
  match y1 ?= y2 with
  | Eq => m1 ?= m2
  | c => c
  end.

Section MonthOrder.

Context {host : Host}.

(** The date is valid, its year has four digits and its month index is one
    of the twelve. *)
Definition fourDigitYear (d : Date) : Prop :=
  exists y m,
    getFullYear d = Some y /\ getMonth d = Some m /\
    1000 <= y <= 9999 /\ 0 <= m <= 11.

(** The month of [d1] is not later than the month of [d2]. *)
Definition notLater (d1 d2 : Date) : Prop :=
  match getFullYear d1, getMonth d1, getFullYear d2, getMonth d2 with
  | Some y1, Some m1, Some y2, Some m2 => y1 < y2 \/ (y1 = y2 /\ m1 <= m2)
  | _, _, _, _ => False
  end.

(** Month totals in chronological order, as far as the records of
    [transactions] tell the months of the keys. *)
Definition chronologicalOrder (transactions : list Transaction.t)
    (a b : MonthTotal) : Prop :=
  forall t1 t2,
    In t1 transactions -> In t2 transactions ->
    monthKeyOf (Transaction.date t1) = month a ->
    monthKeyOf (Transaction.date t2) = month b ->
    notLater (Transaction.date t1) (Transaction.date t2).

End MonthOrder.

(** An expense of December 999 and an expense of March 2026, dated as
    [new Date(999, 11, 15)] and [new Date(2026, 2, 1)]. *)
Definition december999 : Transaction.t :=
  Transaction.Build (Some 1) (UTC.ofFields 999 11 15) "Tithe" "Misc"
    (inject_Z 10) "Expense".

Definition march2026 : Transaction.t :=
  Transaction.Build (Some 2) (UTC.ofFields 2026 2 1) "Rent" "Housing"
    (inject_Z 900) "Expense".


(** ** Notions used to state the further properties *)

(** The string begins, or ends, with a white space character. *)
Definition startsWithSpace (s : string) : bool :=
  match s with
  | EmptyString => false
  | String c _ => JS.isWhiteSpace c
  end.

Fixpoint endsWithSpace (s : string) : bool :=
  match s with
  | EmptyString => false
  | String c EmptyString => JS.isWhiteSpace c
  | String _ rest => endsWithSpace rest
  end.

(** The character [c] occurs in [s]. *)
Fixpoint hasChar (c : ascii) (s : string) : bool :=
  match s with
  | EmptyString => false
  | String d rest => Ascii.eqb d c || hasChar c rest
  end.

(** Every character of [s] is an ASCII character. *)
Definition isASCII (s : string) : bool :=
  forallb (fun c => (nat_of_ascii c <? 128)%nat) (list_ascii_of_string s).

(** The messages a trace hands to [onError] or shows by [alert]. *)
Fixpoint errors (trace : list Effect) : list string :=
  match trace with
  | [] => []
  | OnError message :: rest => message :: errors rest
  | Alert message :: rest => message :: errors rest
  | _ :: rest => errors rest
  end.

(** A sheet whose header row names no date column. *)
Definition noDateSheet : list Row :=
  [ [text "When"; text "Amount"];
    [text "2026-01-02"; number 150] ].

(** A workbook file holding the sample template. *)
Definition templateFile : File.t :=
  File.Build "finance_template.xlsx" "" (Workbook "Transactions" getSampleTemplateData).

(** ** [handleFile] with a callback that can throw ([FileUpload.js]) *)

Section UploadCallbacks.

Context {host : Host}.

(** [handleFile(file, onFileLoaded, onError)] with the callback
    [onFileLoaded] as a function, when it is supplied: [onFileLoaded result]
    is [None] when the call returns and [Some message] when it throws an
    error with that message.  The call stands inside the [try] block, so
    what the callback throws is caught like an error of the parser. *)
Definition handleFileWith (file : File.t)
    (onFileLoaded : option (ParseResult -> option string)) (onError : bool)
  : list Effect :=
  let (effects, outcome) := tryHandleFile file in
  let caught message :=
    RestoreUploadZone ::
    (if onError then [OnError message] else [Alert ("Error: " ++ message)]) in
  ShowProcessing (File.name file) :: effects ++
  match outcome with
  | inr result =>
      match onFileLoaded with
      | Some callback =>
          OnFileLoaded result ::
          match callback result with
          | Some message => caught message
          | None => []
          end
      | None => []
      end
  | inl message => caught message
  end.

End UploadCallbacks.

(** A callback that throws on every result. *)
Definition throwing (result : ParseResult) : option string :=
  Some "Cannot read properties of undefined".

(** ** More of the aggregation ([calculations.js], [Charts.js]) *)

(** [t.category || 'Uncategorized'] *)
Definition categoryOf (t : Transaction.t) : string :=
  JS.orElse (Transaction.category t) "Uncategorized".

(** The functions every object inherits from [Object.prototype].  Reading
    [acc[name]] for one of these names gives the function, not
    [undefined]. *)
Definition inheritedFunctions : list string :=
  [ "constructor"; "hasOwnProperty"; "isPrototypeOf"; "propertyIsEnumerable";
    "toLocaleString"; "toString"; "valueOf";
    "__defineGetter__"; "__defineSetter__"; "__lookupGetter__"; "__lookupSetter__" ].

(** The names an empty object already answers to: the inherited functions
    and the accessor [__proto__]. *)
Definition inheritedNames : list string := "__proto__" :: inheritedFunctions.

(** The object [acc] of [calculateByCategory]: its own properties with
    their numbers, in the order of their creation. *)
Definition Totals : Type := list (string * Q).

(** [acc[key]] for a key that is not inherited. *)
Fixpoint lookupTotal (key : string) (acc : Totals) : option Q :=
  match acc with
  | [] => None
  | (k, v) :: rest => if String.eqb k key then Some v else lookupTotal key rest
  end.

(** [acc[key] = value]: an existing property keeps its place, a new one
    comes last. *)
Fixpoint setTotal (key : string) (value : Q) (acc : Totals) : Totals :=
  match acc with
  | [] => [(key, value)]
  | (k, v) :: rest =>
      if String.eqb k key then (k, value) :: rest else (k, v) :: setTotal key value rest
  end.

(** The callback of [filtered.reduce] in [calculateByCategory].
    - For the category ["__proto__"], [acc[category]] is the prototype, the
      sum is a string, and the assignment of a string to [acc.__proto__] is
      ignored: [acc] stays as it is.
    - For a category that is the name of an inherited function,
      [acc[category] || 0] is that function, the sum is a string and it is
      stored: [None] stands for an accumulator that has left the numbers. *)
Definition addToCategory (acc : option Totals) (t : Transaction.t) : option Totals :=
  match acc with
  | None => None
  | Some acc =>
      let category := categoryOf t in
      if String.eqb category "__proto__" then Some acc
      else if arrayIncludes inheritedFunctions category then None
      else
        Some (setTotal category
                (orZero (lookupTotal category acc) + Qabs (Transaction.amount t))%Q acc)
  end.

(** The records [calculateByCategory] keeps for a type argument. *)
Definition ofType (transactions : list Transaction.t) (type : string)
  : list Transaction.t :=
  if String.eqb type "all" then transactions
  else filter (fun t => String.eqb (JS.toLowerCase (Transaction.type t))
                                   (JS.toLowerCase type))
              transactions.

Definition calculateByCategory (transactions : list Transaction.t) (type : string)
  : option Totals :=
  fold_left addToCategory (ofType transactions type) (Some []).

(** A key that is an array index: a decimal numeral without leading zero,
    below 2^32 - 1.  An object enumerates such keys first, in ascending
    order. *)
Definition isArrayIndex (key : string) : bool :=
  JS.allDigits key
  && match key with
     | EmptyString => false
     | String "0"%char EmptyString => true
     | String "0"%char _ => false
     | _ => true
     end
  && (JS.parseInt key <? 4294967295).

(** [Object.entries(o)] *)
Definition Object_entries (o : Totals) : list (string * Q) :=
  (sortBy (fun a b => JS.parseInt (fst a) - JS.parseInt (fst b))
          (filter (fun e => isArrayIndex (fst e)) o)
   ++ filter (fun e => negb (isArrayIndex (fst e))) o)%list.

(** [Object.values(o)] *)
Definition Object_values (o : Totals) : list Q := map snd (Object_entries o).

(** [values.reduce((sum, val) => sum + val, 0)] *)
Definition sumValues (values : list Q) : Q :=
  fold_left (fun sum val => (sum + val)%Q) values 0%Q.

(** An entry of [getCategoryData]. *)
Record CategoryShare : Type := mkCategoryShare
  { share_category : string; share_amount : Q; percentage : Q }.

(** [(a, b) => b.amount - a.amount], by its sign. *)
Definition byAmountDescending (a b : CategoryShare) : Z :=
  match Qcompare (share_amount b) (share_amount a) with
  | Lt => -1
  | Eq => 0
  | Gt => 1
  end.

(** [getCategoryData(transactions)] of [Charts.js]; [None] as for
    [calculateByCategory]. *)
Definition getCategoryData (transactions : list Transaction.t)
  : option (list CategoryShare) :=
  match calculateByCategory transactions "expense" with
  | None => None
  | Some categoryData =>
      let total := sumValues (Object_values categoryData) in
      Some (sortBy byAmountDescending
              (map (fun e =>
                      mkCategoryShare (fst e) (snd e)
                        (if Qlt_bool 0 total then (snd e / total * 100)%Q else 0%Q))
                   (Object_entries categoryData)))
  end.

(** [new Set(list)], as the list of its elements in insertion order. *)
Definition newSet (l : list string) : list string :=
  fold_left (fun set x => if arrayIncludes set x then set else (set ++ [x])%list) l [].

(** The comparison of [Array.prototype.sort()] without argument, on
    strings: by code units. *)
Definition defaultCompare (a b : string) : Z :=
  match String.compare a b with
  | Lt => -1
  | Eq => 0
  | Gt => 1
  end.

Definition getUniqueCategories (transactions : list Transaction.t) : list string :=
  sortBy defaultCompare (newSet (map categoryOf transactions)).

(** [new Date(x)] for a number [x]: NaN and the times beyond the range of
    [Date] give an invalid date. *)
Definition Date_ofNumber (x : option Z) : Date :=
  match x with
  | Some t => if Z.abs t <=? 8640000000000000 then mkDate (Some t) else mkDate None
  | None => mkDate None
  end.

(** [Math.min(...xs)] and [Math.max(...xs)] on a non-empty list: NaN as soon
    as one argument is NaN. *)
Fixpoint Math_min (x : option Z) (xs : list (option Z)) : option Z :=
  match xs with
  | [] => x
  | y :: rest =>
      match x, Math_min y rest with
      | Some a, Some b => Some (Z.min a b)
      | _, _ => None
      end
  end.

Fixpoint Math_max (x : option Z) (xs : list (option Z)) : option Z :=
  match xs with
  | [] => x
  | y :: rest =>
      match x, Math_max y rest with
      | Some a, Some b => Some (Z.max a b)
      | _, _ => None
      end
  end.

(** The object [{ min, max }] of [getDateRange]; [None] is [null]. *)
Record DateRange : Type := mkDateRange { range_min : option Date; range_max : option Date }.

(** [getDateRange(transactions)].  [Math.min(...dates)] passes one argument
    for each record: [maxArguments] is the number of arguments the engine
    accepts in one call, which depends on the engine and on the stack that
    is left, and beyond it the call throws a [RangeError] ([None]). *)
Definition getDateRange (maxArguments : nat) (transactions : list Transaction.t)
  : option DateRange :=
  match map (fun t => getTime (Transaction.date t)) transactions with
  | [] => Some (mkDateRange None None)
  | d :: dates =>
      if (length (d :: dates) <=? maxArguments)%nat
      then Some (mkDateRange (Some (Date_ofNumber (Math_min d dates)))
                             (Some (Date_ofNumber (Math_max d dates))))
      else None
  end.

(** ** Notions for the properties of the aggregation *)

(** The type is income for the functions that lower-case it. *)
Definition lowerIncome (t : Transaction.t) : bool :=
  String.eqb (JS.toLowerCase (Transaction.type t)) "income".

(** The category is not the name of an inherited member. *)
Definition ownCategory (t : Transaction.t) : Prop :=
  arrayIncludes inheritedNames (categoryOf t) = false.

(** The category is not the name of an inherited function. *)
Definition namesNoFunction (t : Transaction.t) : Prop :=
  arrayIncludes inheritedFunctions (categoryOf t) = false.

(** The category is not ["__proto__"]. *)
Definition notProto (t : Transaction.t) : bool :=
  negb (String.eqb (categoryOf t) "__proto__").

(** The record is of the month [key]. *)
Definition ofMonth {host : Host} (key : string) (t : Transaction.t) : bool :=
  String.eqb (monthKeyOf (Transaction.date t)) key.

(** The time of the date is a number within the range of [Date]. *)
Definition datedInRange (t : Transaction.t) : Prop :=
  exists time, getTime (Transaction.date t) = Some time /\ Z.abs time <= 8640000000000000.

(** ** The category chart ([Charts.js], [renderCategoryChart]) *)

Definition chartColors : list string :=
  [ "#4c9aff"; "#10b981"; "#f59e0b"; "#ef4444";
    "#8b5cf6"; "#ec4899"; "#06b6d4"; "#84cc16" ].

(** [(a, b) => b[1] - a[1]], by its sign. *)
Definition byValueDescending (a b : string * Q) : Z :=
  match Qcompare (snd b) (snd a) with
  | Lt => -1
  | Eq => 0
  | Gt => 1
  end.

(** All the expense categories in descending order of their totals: the
    array [slice(0, 8)] is applied to. *)
Definition rankedCategories (categoryData : Totals) : list (string * Q) :=
  sortBy byValueDescending (Object_entries categoryData).

(** [sortedCategories]: the top 8 categories. *)
Definition sortedCategories (categoryData : Totals) : list (string * Q) :=
  firstn 8 (rankedCategories categoryData).

(** What [renderCategoryChart] hands to the chart: [labels], [data] and
    [backgroundColor]. *)
Record CategoryChart : Type := mkCategoryChart
  { labels : list string; data : list Q; backgroundColor : list string }.

Definition categoryChartData (transactions : list Transaction.t) : option CategoryChart :=
  match calculateByCategory transactions "expense" with
  | None => None
  | Some categoryData =>
      let top := sortedCategories categoryData in
      let data := map snd top in
      Some (mkCategoryChart (map fst top) data (firstn (length data) chartColors))
  end.

(** Records for the examples on categories. *)
Definition rentExpense : Transaction.t :=
  Transaction.Build (Some 3) (mkDate (Some 1767312000000)) "Rent" "Housing"
    (inject_Z 900) "Expense".

Definition constructorExpense : Transaction.t :=
  Transaction.Build (Some 4) (mkDate (Some 1767312000000)) "Builder" "constructor"
    (inject_Z 150) "Expense".

Definition protoExpense : Transaction.t :=
  Transaction.Build (Some 6) (mkDate (Some 1767312000000)) "Prototype" "__proto__"
    (inject_Z 75) "Expense".

(** The time value is a number within the range of [Date]. *)
Definition timeInRange (x : option Z) : Prop :=
  exists time, x = Some time /\ Z.abs time <= 8640000000000000.

(** Records for the examples on dates. *)
Definition undatedExpense : Transaction.t :=
  Transaction.Build (Some 5) (mkDate None) "Unknown" "Misc" (inject_Z 10) "Expense".

(** ** The criteria of the filters, record by record *)

Section Criteria.

Context {host : Host}.

(** The record passes the search text. *)
Definition matchesSearch (query : string) (t : Transaction.t) : bool :=
  negb (JS.truthy query)
  || JS.includes (JS.toLowerCase (Transaction.description t)) (JS.toLowerCase query)
  || JS.includes (JS.toLowerCase (Transaction.category t)) (JS.toLowerCase query).

(** The record passes the category criterion. *)
Definition matchesCategory (category : string) (t : Transaction.t) : bool :=
  negb (JS.truthy category) || String.eqb category "all"
  || String.eqb (Transaction.category t) category.

(** The record passes the type criterion. *)
Definition matchesType (type : string) (t : Transaction.t) : bool :=
  negb (JS.truthy type) || String.eqb type "all"
  || String.eqb (JS.toLowerCase (Transaction.type t)) (JS.toLowerCase type).

(** The bounds [applyFilters] uses for the date range. *)
Definition startBound (f : Filters.t) : Date :=
  if JS.truthy (Filters.dateFrom f) then Date_ofString (Filters.dateFrom f)
  else mkDate (Some 0).

Definition endBound (f : Filters.t) : Date :=
  if JS.truthy (Filters.dateTo f) then Date_ofString (Filters.dateTo f)
  else mkDate (Some 8640000000000000).

(** The record passes the date criterion. *)
Definition matchesDates (f : Filters.t) (t : Transaction.t) : bool :=
  if JS.truthy (Filters.dateFrom f) || JS.truthy (Filters.dateTo f)
  then Date_leb (startBound f) (Transaction.date t)
       && Date_leb (Transaction.date t) (endBound f)
  else true.

(** The record passes every criterion of the filters. *)
Definition accepts (f : Filters.t) (t : Transaction.t) : bool :=
  matchesSearch (Filters.search f) t
  && matchesCategory (Filters.category f) t
  && matchesType (Filters.type f) t
  && matchesDates f t.

End Criteria.

(** ** The events of the application ([app.js]) *)

(** The state the module starts with. *)
Definition initialState : State.t := State.Build [] [] noFilters false.

(** [handleFileLoaded(result)], on the state. *)
Definition handleFileLoaded (result : ParseResult) (state : State.t) : State.t :=
  State.Build (result_transactions result) (result_transactions result)
              (State.filters state) true.

(** [handleClearData()], on the state. *)
Definition handleClearData (state : State.t) : State.t :=
  State.Build [] [] noFilters false.

(** [initApp()], on the state: [stored] is what [loadTransactions] found,
    when it found transactions. *)
Definition initApp (stored : option (list Transaction.t)) (state : State.t) : State.t :=
  match stored with
  | Some (t :: rest) =>
      State.Build (t :: rest) (t :: rest) (State.filters state) true
  | _ => state
  end.

Section Events.

Context {host : Host}.

(** [handleFilterChange(filters)], on the state. *)
Definition handleFilterChange (filters : Filters.t) (state : State.t) : State.t :=
  applyFilters
    (State.Build (State.transactions state) (State.filteredTransactions state)
                 filters (State.isLoaded state)).

(** The states the application goes through: [initApp] runs once, and
    then the handlers run in any order.  None of them looks at [isLoaded],
    and the debounce timer of the filter bar can still call
    [handleFilterChange] after [handleClearData]. *)
Inductive reachable : State.t -> Prop :=
| reach_init (stored : option (list Transaction.t)) :
    reachable (initApp stored initialState)
| reach_load (state : State.t) (result : ParseResult) :
    reachable state -> reachable (handleFileLoaded result state)
| reach_filter (state : State.t) (filters : Filters.t) :
    reachable state -> reachable (handleFilterChange filters state)
| reach_clear (state : State.t) :
    reachable state -> reachable (handleClearData state).

End Events.

(** Filters for the examples. *)
Definition badDateFilters : Filters.t := Filters.Build "" "all" "all" "not a date" "".

(** A result of [parseExcelFile] and filters for the examples. *)
Definition twoRecords : ParseResult :=
  mkParseResult [income1000; expense400] "finance.xlsx" "Transactions" 2 2
    [FDate; FDescription; FCategory; FAmount].

Definition expenseFilters : Filters.t := Filters.Build "" "all" "expense" "" "".

(** ** The transaction table ([TransactionTable.js]) *)

(** The values [sortTransactions] compares: numbers, which may be NaN,
    for the date and the amount, strings for the description and the
    category. *)
Inductive SortValue : Type :=
| SortNumber (x : option Q)
| SortText (s : string).

(** [valA < valB]: false as soon as a number is NaN. *)
Definition lessThan (a b : SortValue) : bool :=
  match a, b with
  | SortNumber (Some x), SortNumber (Some y) => Qlt_bool x y
  | SortText s, SortText t => String.ltb s t
  | _, _ => false
  end.

(** The [switch (column)]: the value for a known column, nothing for any
    other. *)
Definition sortValue (column : string) (t : Transaction.t) : option SortValue :=
  if String.eqb column "date"
  then Some (SortNumber (option_map inject_Z (getTime (Transaction.date t))))
  else if String.eqb column "description"
  then Some (SortText (JS.toLowerCase (JS.orElse (Transaction.description t) "")))
  else if String.eqb column "category"
  then Some (SortText (JS.toLowerCase (Transaction.category t)))
  else if String.eqb column "amount"
  then Some (SortNumber (Some (Transaction.amount t)))
  else None.

(** The comparison function handed to [sort]. *)
Definition compareBy (column direction : string) (a b : Transaction.t) : Z :=
  match sortValue column a, sortValue column b with
  | Some valA, Some valB =>
      if lessThan valA valB then (if String.eqb direction "asc" then -1 else 1)
      else if lessThan valB valA then (if String.eqb direction "asc" then 1 else -1)
      else 0
  | _, _ => 0
  end.

Definition sortTransactions (transactions : list Transaction.t) (column direction : string)
  : list Transaction.t :=
  sortBy (compareBy column direction) transactions.

(** [l.slice(start, end)]: negative positions count from the end, and
    both are clamped to the array. *)
Definition arraySlice {A : Type} (l : list A) (start stop : Z) : list A :=
  let len := Z.of_nat (length l) in
  let from := if start <? 0 then Z.max (len + start) 0 else Z.min start len in
  let to := if stop <? 0 then Z.max (len + stop) 0 else Z.min stop len in
  firstn (Z.to_nat (to - from)) (skipn (Z.to_nat from) l).

(** [Math.ceil(count / pageSize)], for a positive page size. *)
Definition totalPages (count pageSize : Z) : Z := - ((- count) / pageSize).

(** The rows of one page: [sorted.slice(startIndex, startIndex + pageSize)]. *)
Definition paginated {A : Type} (sorted : list A) (currentPage pageSize : Z) : list A :=
  let startIndex := (currentPage - 1) * pageSize in
  arraySlice sorted startIndex (startIndex + pageSize).

(** The caption "[startItem]-[endItem] of [totalItems]" of [renderPagination]. *)
Definition startItem (current pageSize : Z) : Z := (current - 1) * pageSize + 1.

Definition endItem (current pageSize totalItems : Z) : Z :=
  Z.min (current * pageSize) totalItems.

(** The array [pages] of [renderPagination]: page numbers, and [None] for
    the ellipsis ['...']. *)
Definition lastIs (pages : list (option Z)) (p : Z) : bool :=
  match last pages None with
  | Some q => q =? p
  | None => false
  end.

Definition includesPage (pages : list (option Z)) (p : Z) : bool :=
  existsb (fun x => match x with Some q => q =? p | None => false end) pages.

(** One round of the loop [for (let i = ...; i <= upper; i++)]. *)
Definition pushPage (pages : list (option Z)) (i : Z) : list (option Z) :=
  if negb (includesPage pages i) then
    let pages := if negb (lastIs pages (i - 1)) then (pages ++ [None])%list else pages in
    (pages ++ [Some i])%list
  else pages.

Fixpoint pagesLoop (rounds : nat) (i : Z) (pages : list (option Z)) : list (option Z) :=
  match rounds with
  | O => pages
  | S rounds' => pagesLoop rounds' (i + 1) (pushPage pages i)
  end.

Definition pagerPages (current total : Z) : list (option Z) :=
  let lower := Z.max 2 (current - 1) in
  let upper := Z.min (total - 1) (current + 1) in
  let pages := pagesLoop (Z.to_nat (upper - lower + 1)) lower [Some 1] in
  if 1 <? total then
    let pages :=
      if negb (lastIs pages (total - 1)) && negb (lastIs pages total)
      then (pages ++ [None])%list else pages in
    if negb (includesPage pages total) then (pages ++ [Some total])%list else pages
  else pages.

(** The buttons of the pager. *)
Inductive PageButton : Type := Prev | Next | PageNumber (p : Z).

(** The click handler of the pager: the new [currentPage]. *)
Definition clickPage (button : PageButton) (currentPage total : Z) : Z :=
  match button with
  | Prev => if 1 <? currentPage then currentPage - 1 else currentPage
  | Next => if currentPage <? total then currentPage + 1 else currentPage
  | PageNumber p => p
  end.

(** The page numbers among the entries of the pager. *)
Fixpoint pageNumbers (pages : list (option Z)) : list Z :=
  match pages with
  | [] => []
  | Some p :: rest => p :: pageNumbers rest
  | None :: rest => pageNumbers rest
  end.

(** The time of a record's date is a number. *)
Definition dated (t : Transaction.t) : Prop :=
  exists time, getTime (Transaction.date t) = Some time.

(** * Properties *)

(** ** Column mapper *)

Lemma get_set_same (f : Field) (i : Z) (m : ColumnMap.t) :
  ColumnMap.get f (ColumnMap.set f i m) = i.
Proof. destruct f; reflexivity. Qed.

Lemma get_set_other (f g : Field) (i : Z) (m : ColumnMap.t) :
  f <> g -> ColumnMap.get f (ColumnMap.set g i m) = ColumnMap.get f m.
Proof. destruct f, g; intro H; try reflexivity; contradiction H; reflexivity. Qed.

(** One entry of the alias table touches its own field only, and only when
    that field is still unmapped. *)
Lemma mapEntry_get (f g : Field) (aliases : list string) (lh : string) (i : Z)
    (m : ColumnMap.t) :
  ColumnMap.get f (mapEntry lh i m (g, aliases)) =
  if Field_eqb g f && someAlias lh aliases && (ColumnMap.get f m =? -1)
  then i else ColumnMap.get f m.
Proof.
  unfold mapEntry.
  destruct (someAlias lh aliases); [ | now rewrite andb_false_r ].
  rewrite andb_true_r.
  destruct (Field_eqb g f) eqn:E.
  - destruct f, g; try discriminate E; simpl;
      destruct (_ =? -1); reflexivity.
  - simpl. destruct (ColumnMap.get g m =? -1); [ | reflexivity ].
    apply get_set_other. intro H. subst g. destruct f; discriminate E.
Qed.

(** What one header does to one field of the map. *)
Lemma mapHeader_get (f : Field) (map : ColumnMap.t) (header : string) (index : Z) :
  ColumnMap.get f (mapHeader map header index) =
  if headerMatches f header && (ColumnMap.get f map =? -1)
  then index else ColumnMap.get f map.
Proof.
  unfold mapHeader, headerMatches.
  set (lh := JS.toLowerCase header).
  cbv [COLUMN_MAPPINGS fold_left].
  rewrite !mapEntry_get.
  destruct f; cbv [aliasesOf find COLUMN_MAPPINGS Field_eqb fst snd andb];
    destruct (someAlias lh _); try reflexivity;
    destruct (_ =? -1); reflexivity.
Qed.

Lemma forEachHeader_get (f : Field) (headers : list string) :
  forall (index : Z) (map : ColumnMap.t),
    0 <= index ->
    ColumnMap.get f (forEachHeader headers index map) =
    if ColumnMap.get f map =? -1 then firstMatchFrom f headers index
    else ColumnMap.get f map.
Proof.
  induction headers as [ | header rest IH ]; intros index map Hindex; simpl.
  - destruct (ColumnMap.get f map =? -1) eqn:E; [ | reflexivity ].
    now apply Z.eqb_eq in E.
  - rewrite IH by lia. rewrite mapHeader_get.
    destruct (headerMatches f header); simpl.
    + destruct (ColumnMap.get f map =? -1) eqn:E; cbv iota; [ | now rewrite E ].
      destruct (index =? -1) eqn:E'; [ apply Z.eqb_eq in E'; lia | reflexivity ].
    + reflexivity.
Qed.

(** [firstMatchFrom] finds the leftmost matching header: either no header
    matches and the result is [-1], or the result is the position of a
    matching header before which no header matches. *)
Lemma firstMatchFrom_leftmost (f : Field) (headers : list string) :
  forall start : Z,
    0 <= start ->
    (firstMatchFrom f headers start = -1 /\
     Forall (fun h => headerMatches f h = false) headers) \/
    (exists (n : nat) (h : string),
        firstMatchFrom f headers start = start + Z.of_nat n /\
        nth_error headers n = Some h /\
        headerMatches f h = true /\
        Forall (fun h' => headerMatches f h' = false) (firstn n headers)).
Proof.
  induction headers as [ | header rest IH ]; intros start Hstart; simpl.
  - left. split; [ reflexivity | constructor ].
  - destruct (headerMatches f header) eqn:E.
    + right. exists 0%nat, header. simpl.
      repeat split; [ lia | exact E | constructor ].
    + destruct (IH (start + 1)) as [ (Hnone & Hall) | (n & h & Hi & Hn & Hh & Hbefore) ];
        [ lia | | ].
      * left. split; [ exact Hnone | now constructor ].
      * right. exists (S n), h. simpl.
        repeat split; [ lia | exact Hn | exact Hh | now constructor ].
Qed.

(** C1, as stated, fails: the header "transaction date" contains the alias
    "date" of the date field and the alias "transaction" of the description
    field, and its column index 0 is recorded under both fields, not under
    the date field alone. *)
Lemma header_recorded_under_two_fields :
  headerMatches FDate "transaction date" = true /\
  headerMatches FDescription "transaction date" = true /\
  mapColumns ["transaction date"] = ColumnMap.Build 0 0 (-1) (-1) (-1) /\
  recordedUnder ["transaction date"] 0 = [FDate; FDescription] /\
  recordedUnder ["transaction date"] 0 <> [FDate].
Proof.
  assert (E : recordedUnder ["transaction date"] 0 = [FDate; FDescription])
    by reflexivity.
  repeat split; try reflexivity. rewrite E. discriminate.
Qed.

(** C1, amended: every canonical field is mapped on its own, to the
    leftmost header that contains one of its aliases, and stays unmapped
    ([-1]) when no header does.  A header that contains aliases of several
    fields is therefore recorded under each of those fields for which it is
    the leftmost match; the order of the fields plays no part. *)
Theorem mapColumns_leftmost_match (headers : list string) (f : Field) :
  ColumnMap.get f (mapColumns headers) = firstMatchFrom f headers 0.
Proof.
  unfold mapColumns. rewrite forEachHeader_get by lia.
  destruct f; reflexivity.
Qed.

(** ** Row normalizer *)

Section IngestionProperties.

Context {host : Host}.

Lemma parseRow_Some (row : Row) (columnMap : ColumnMap.t) (headers : list string)
    (t : Transaction.t) :
  parseRow row columnMap headers = Some t ->
  exists date,
    rowDate row columnMap = Some date /\
    Qeq_bool (rowAmount row columnMap) 0 = false /\
    t = Transaction.Build None date (rowDescription row columnMap)
          (rowCategory row columnMap) (Qabs (rowAmount row columnMap))
          (rowType row columnMap (rowAmount row columnMap)).
Proof.
  unfold parseRow. intro H.
  destruct (rowDate row columnMap) as [ date | ]; [ | discriminate H ].
  destruct (Qeq_bool (rowAmount row columnMap) 0) eqn:E; [ discriminate H | ].
  exists date. inversion H. auto.
Qed.

Lemma rowType_unmapped (row : Row) (columnMap : ColumnMap.t) (amount : Q) :
  ColumnMap.type columnMap = -1 ->
  rowType row columnMap amount = typeFromSign amount.
Proof. intro H. unfold rowType, mappedCell. rewrite H. reflexivity. Qed.

(** The cells a row is read at, under the template's column map, are the
    first four. *)
Lemma parseRow_template_prefix (a b c d : option Cell) (rest rest' : Row)
    (headers : list string) :
  parseRow (a :: b :: c :: d :: rest) templateColumns headers =
  parseRow (a :: b :: c :: d :: rest') templateColumns headers.
Proof. reflexivity. Qed.

(** C4: on a sheet whose header row is the sample template's, the header
    "type" contains an alias of the category field only, category already
    has column 2, and no header contains an alias of the type field: the
    type field stays unmapped.  Hence the type of every accepted row is the
    one inferred from the sign of its amount, and what stands in the fifth
    column has no influence on the outcome. *)
Theorem template_type_inferred_from_sign :
  map headerOf templateHeader = templateHeaders /\
  mapColumns templateHeaders = templateColumns /\
  ColumnMap.type (mapColumns templateHeaders) = -1 /\
  filter (fun f => headerMatches f "type")
         [FDate; FDescription; FCategory; FAmount; FType] = [FCategory] /\
  firstMatchFrom FCategory templateHeaders 0 = 2 /\
  forallb (fun h => negb (headerMatches FType h)) templateHeaders = true /\
  (forall dataRows,
      parseSheetData (templateHeader :: dataRows) =
      Some (mkSheetData (parseRows dataRows 1 templateColumns templateHeaders)
              [FDate; FDescription; FCategory; FAmount])) /\
  (forall row headers,
      option_map Transaction.type (parseRow row templateColumns headers) =
      option_map (fun _ => typeFromSign (rowAmount row templateColumns))
                 (parseRow row templateColumns headers)) /\
  (forall a b c d typeCell typeCell' rest headers,
      parseRow (a :: b :: c :: d :: typeCell :: rest) templateColumns headers =
      parseRow (a :: b :: c :: d :: typeCell' :: rest) templateColumns headers).
Proof.
  repeat split; try reflexivity.
  intros row headers.
  destruct (parseRow row templateColumns headers) as [ t | ] eqn:E; [ | reflexivity ].
  apply parseRow_Some in E. destruct E as (date & _ & _ & ->). simpl.
  now rewrite rowType_unmapped.
Qed.

Lemma Qabs_zero_inv (x : Q) : (Qabs x == 0)%Q -> (x == 0)%Q.
Proof.
  apply Qabs_case; intros H E; [ exact E | ].
  rewrite <- (Qopp_involutive x), E. reflexivity.
Qed.

Lemma rowType_cases (row : Row) (columnMap : ColumnMap.t) (amount : Q) :
  rowType row columnMap amount = "Income" \/ rowType row columnMap amount = "Expense".
Proof.
  unfold rowType.
  destruct (mappedCell row (ColumnMap.type columnMap)) as [ v | ].
  - destruct (saysIncome _); auto.
  - destruct (Qlt_bool 0 amount); auto.
Qed.

(** C2, amended: the type of an accepted row is "Income" or "Expense".  It
    is inferred from the sign of the amount (positive gives Income,
    otherwise Expense) when no type column is mapped and also when the type
    column is mapped but the row has no cell there; when the type column is
    mapped and the row has a cell there, the type is Income exactly when the
    lower-cased text of that cell contains "income", "in" or "credit". *)
Theorem parseRow_type (row : Row) (columnMap : ColumnMap.t) (headers : list string)
    (t : Transaction.t) :
  parseRow row columnMap headers = Some t ->
  (Transaction.type t = "Income" \/ Transaction.type t = "Expense") /\
  (ColumnMap.type columnMap = -1 \/ cellAt row (ColumnMap.type columnMap) = None ->
   Transaction.type t = typeFromSign (rowAmount row columnMap)) /\
  (forall v,
      ColumnMap.type columnMap <> -1 ->
      cellAt row (ColumnMap.type columnMap) = Some v ->
      Transaction.type t =
      if saysIncome (JS.toLowerCase (stringOf v)) then "Income" else "Expense").
Proof.
  intro H. apply parseRow_Some in H. destruct H as (date & _ & _ & ->). simpl.
  split; [ apply rowType_cases | ].
  unfold rowType, mappedCell. split.
  - intros [ E | E ].
    + rewrite E. reflexivity.
    + destruct (ColumnMap.type columnMap =? -1); [ reflexivity | now rewrite E ].
  - intros v Hmapped Hcell.
    destruct (ColumnMap.type columnMap =? -1) eqn:E.
    + apply Z.eqb_eq in E. contradiction.
    + now rewrite Hcell.
Qed.

(** A string without a digit cleans to a string [parseFloat] cannot read. *)
Lemma spanDigits_no_digit (s : string) :
  JS.hasDigit s = false -> JS.spanDigits s = (EmptyString, s).
Proof.
  destruct s as [ | c s ]; simpl; [ reflexivity | ].
  destruct (JS.isDigit c); [ discriminate | reflexivity ].
Qed.

Lemma keepAmountChars_no_digit (s : string) :
  JS.hasDigit s = false -> JS.hasDigit (JS.keepAmountChars s) = false.
Proof.
  induction s as [ | c s IH ]; simpl; [ reflexivity | ].
  destruct (JS.isDigit c) eqn:D; simpl; [ discriminate | ].
  intro H. destruct (_ || _); simpl; [ rewrite D | ]; auto.
Qed.

Lemma parseFloat_no_digit (s : string) :
  JS.hasDigit s = false -> JS.parseFloat s = None.
Proof.
  intro H. unfold JS.parseFloat.
  assert (tail : forall c r, s = String c r -> JS.hasDigit r = false).
  { intros c r ->. simpl in H. now apply orb_false_elim in H. }
  assert (body : forall b, JS.hasDigit b = false ->
            (let (intPart, afterInt) := JS.spanDigits b in
             match intPart,
                   match afterInt with
                   | String "."%char rest => fst (JS.spanDigits rest)
                   | _ => EmptyString
                   end
             with
             | EmptyString, EmptyString => true
             | _, _ => false
             end) = true).
  { intros b Hb. rewrite (spanDigits_no_digit b Hb).
    destruct b as [ | c r ]; [ reflexivity | ].
    assert (Hr : JS.hasDigit r = false) by (simpl in Hb; now apply orb_false_elim in Hb).
    destruct c as [[] [] [] [] [] [] [] []]; try reflexivity.
    now rewrite (spanDigits_no_digit r Hr). }
  assert (shape : forall negative b, JS.hasDigit b = false ->
            (let (intPart, afterInt) := JS.spanDigits b in
             let fracPart :=
               match afterInt with
               | String "."%char rest => fst (JS.spanDigits rest)
               | _ => EmptyString
               end in
             match intPart, fracPart with
             | EmptyString, EmptyString => None
             | _, _ =>
                 let scale := 10 ^ Z.of_nat (String.length fracPart) in
                 let magnitude :=
                   Qmake (JS.parseInt intPart * scale + JS.parseInt fracPart)
                         (Z.to_pos scale) in
                 Some (if negative : bool then Qopp magnitude else magnitude)
             end) = None).
  { intros negative b Hb. specialize (body b Hb).
    destruct (JS.spanDigits b) as [ intPart afterInt ]. cbv zeta.
    destruct intPart; [ | discriminate body ].
    destruct (match afterInt with
              | String "."%char rest => fst (JS.spanDigits rest)
              | _ => EmptyString
              end); [ reflexivity | discriminate body ]. }
  destruct s as [ | c r ]; [ reflexivity | ].
  specialize (tail c r eq_refl).
  destruct c as [[] [] [] [] [] [] [] []];
    first [ exact (shape false _ H) | exact (shape true r tail) | exact (shape false r tail) ].
Qed.

(** C5: an accepted row carries an amount that is non-negative and not
    zero; a row whose parsed amount is exactly 0 is rejected, which covers
    the row without an amount cell (column unmapped, or cell missing) and
    the row whose amount cell is a text without any digit (blank or
    unparseable). *)
Theorem parseRow_amount (row : Row) (columnMap : ColumnMap.t) (headers : list string) :
  (forall t, parseRow row columnMap headers = Some t ->
             (0 <= Transaction.amount t)%Q /\ ~ (Transaction.amount t == 0)%Q) /\
  ((rowAmount row columnMap == 0)%Q -> parseRow row columnMap headers = None) /\
  (mappedCell row (ColumnMap.amount columnMap) = None ->
   parseRow row columnMap headers = None) /\
  (forall s, mappedCell row (ColumnMap.amount columnMap) = Some (CText s) ->
             JS.hasDigit s = false ->
             parseRow row columnMap headers = None).
Proof.
  assert (zero : (rowAmount row columnMap == 0)%Q -> parseRow row columnMap headers = None).
  { intro E. apply Qeq_bool_iff in E. unfold parseRow.
    destruct (rowDate row columnMap); [ now rewrite E | reflexivity ]. }
  repeat split.
  - apply parseRow_Some in H. destruct H as (date & _ & _ & ->). apply Qabs_nonneg.
  - apply parseRow_Some in H. destruct H as (date & _ & E & ->). simpl.
    intro A. apply Qabs_zero_inv in A. apply Qeq_bool_iff in A. congruence.
  - exact zero.
  - intro E. apply zero. unfold rowAmount. rewrite E. reflexivity.
  - intros s E D. apply zero. unfold rowAmount. rewrite E. simpl.
    rewrite parseFloat_no_digit by now apply keepAmountChars_no_digit.
    reflexivity.
Qed.

End IngestionProperties.

(** On the reference host, a template row whose amount is positive and whose
    Type cell reads "Expense" becomes an "Income" record. *)
Example template_ignores_type_cell :
  option_map Transaction.type
    (parseRow (host := UTC.host)
       [text "2026-01-05"; text "Refund"; text "Shopping"; number 800; text "Expense"]
       templateColumns templateHeaders)
  = Some "Income".
Proof. reflexivity. Qed.

(** C2, as stated, fails: with the type field mapped to column 4, two rows
    that have no cell in column 4 get different types, Income for the amount
    800 and Expense for the amount -150.  The type is inferred from the sign
    although a type column is mapped, and no function of the content of the
    type column gives the type of both rows. *)
Lemma type_inferred_although_type_column_mapped :
  ColumnMap.type allColumns <> -1 /\
  cellAt shortRowPlus (ColumnMap.type allColumns) = None /\
  cellAt shortRowMinus (ColumnMap.type allColumns) = None /\
  option_map Transaction.type (parseRow (host := UTC.host) shortRowPlus allColumns [])
  = Some "Income" /\
  option_map Transaction.type (parseRow (host := UTC.host) shortRowMinus allColumns [])
  = Some "Expense" /\
  ~ (exists fromColumn : option Cell -> string,
        forall row,
          In row [shortRowPlus; shortRowMinus] ->
          option_map Transaction.type (parseRow (host := UTC.host) row allColumns [])
          = Some (fromColumn (cellAt row (ColumnMap.type allColumns)))).
Proof.
  assert (plus : option_map Transaction.type
                   (parseRow (host := UTC.host) shortRowPlus allColumns [])
                 = Some "Income") by reflexivity.
  assert (minus : option_map Transaction.type
                    (parseRow (host := UTC.host) shortRowMinus allColumns [])
                  = Some "Expense") by reflexivity.
  split; [ discriminate | ].
  split; [ reflexivity | ]. split; [ reflexivity | ].
  split; [ exact plus | ]. split; [ exact minus | ].
  intros (fromColumn & H).
  pose proof (H shortRowPlus (or_introl eq_refl)) as Hplus.
  pose proof (H shortRowMinus (or_intror (or_introl eq_refl))) as Hminus.
  rewrite plus in Hplus. rewrite minus in Hminus.
  change (cellAt shortRowPlus (ColumnMap.type allColumns)) with (@None Cell) in Hplus.
  change (cellAt shortRowMinus (ColumnMap.type allColumns)) with (@None Cell) in Hminus.
  rewrite <- Hplus in Hminus. discriminate Hminus.
Qed.

Lemma parseRow_type_witness :
  parseRow (host := UTC.host) groceryRow allColumns [] = Some groceryRecord /\
  (Transaction.type groceryRecord = "Income" \/ Transaction.type groceryRecord = "Expense") /\
  (ColumnMap.type allColumns = -1 \/ cellAt groceryRow (ColumnMap.type allColumns) = None ->
   Transaction.type groceryRecord = typeFromSign (rowAmount (host := UTC.host) groceryRow allColumns)) /\
  (forall v,
      ColumnMap.type allColumns <> -1 ->
      cellAt groceryRow (ColumnMap.type allColumns) = Some v ->
      Transaction.type groceryRecord =
      if saysIncome (JS.toLowerCase (stringOf (host := UTC.host) v)) then "Income" else "Expense").
Proof.
  split; [ reflexivity | ].
  apply (parseRow_type (host := UTC.host) groceryRow allColumns [] groceryRecord).
  reflexivity.
Defined.

Lemma parseRow_amount_witness :
  parseRow (host := UTC.host) groceryRow allColumns [] = Some groceryRecord /\
  (0 <= Transaction.amount groceryRecord)%Q /\
  ~ (Transaction.amount groceryRecord == 0)%Q /\
  (rowAmount (host := UTC.host) [text "2026-01-02"; text "Grocery Store"; None; number 0]
     allColumns == 0)%Q /\
  parseRow (host := UTC.host) [text "2026-01-02"; text "Grocery Store"; None; number 0]
    allColumns [] = None /\
  parseRow (host := UTC.host) [text "2026-01-02"; text "Grocery Store"] allColumns [] = None /\
  parseRow (host := UTC.host) [text "2026-01-02"; text "Grocery Store"; None; text "n/a"]
    allColumns [] = None.
Proof.
  split; [ reflexivity | ].
  pose proof (parseRow_amount (host := UTC.host) groceryRow allColumns []) as (accepted & _).
  destruct (accepted groceryRecord eq_refl) as [ nonneg nonzero ].
  split; [ exact nonneg | ]. split; [ exact nonzero | ].
  split; [ reflexivity | ].
  split.
  - pose proof (parseRow_amount (host := UTC.host)
                  [text "2026-01-02"; text "Grocery Store"; None; number 0] allColumns [])
      as (_ & zero & _).
    apply zero. reflexivity.
  - split.
    + pose proof (parseRow_amount (host := UTC.host)
                    [text "2026-01-02"; text "Grocery Store"] allColumns [])
        as (_ & _ & missing & _).
      apply missing. reflexivity.
    + pose proof (parseRow_amount (host := UTC.host)
                    [text "2026-01-02"; text "Grocery Store"; None; text "n/a"] allColumns [])
        as (_ & _ & _ & blank).
      apply (blank "n/a"); reflexivity.
Defined.

(** ** Aggregation *)

(** C3 fails on the code: a record whose type is "INCOME" lower-cases to
    "income" and yet adds nothing to [calculateTotalIncome], which accepts the
    two spellings "income" and "Income" only; likewise "EXPENSE" and
    [calculateTotalExpenses].  The sibling functions [calculateByMonth] and
    [filterByType] lower-case the type and do count these records. *)
Lemma totals_miss_capital_types :
  JS.toLowerCase (Transaction.type capitalIncome) = "income" /\
  calculateTotalIncome [capitalIncome] = 0%Q /\
  JS.toLowerCase (Transaction.type capitalExpense) = "expense" /\
  calculateTotalExpenses [capitalExpense] = 0%Q /\
  calculateByMonth (host := UTC.host) [capitalIncome; capitalExpense]
  = [mkMonthTotal (inject_Z 5000) (inject_Z 150) "2026-01"] /\
  filterByType [capitalIncome; capitalExpense] "income" = [capitalIncome].
Proof. repeat split; reflexivity. Qed.

(** *** Rounding never invents a NaN *)

Section Rounding.

Variables prec emax : Z.

Lemma shr_1_nonneg (mrs : shr_record) : 0 <= shr_m mrs -> 0 <= shr_m (shr_1 mrs).
Proof.
  destruct mrs as [ m r s ]. simpl.
  destruct m as [ | [ p | p | ] | p ]; simpl; lia.
Qed.

Lemma iter_shr_1_nonneg (p : positive) :
  forall mrs, 0 <= shr_m mrs -> 0 <= shr_m (iter_pos shr_1 p mrs).
Proof.
  induction p as [ p IH | p IH | ]; intros mrs H; simpl.
  - apply IH, IH, shr_1_nonneg, H.
  - apply IH, IH, H.
  - apply shr_1_nonneg, H.
Qed.

Lemma shr_fexp_nonneg (m e : Z) (l : location) :
  0 <= m -> 0 <= shr_m (fst (shr_fexp prec emax m e l)).
Proof.
  intro H. unfold shr_fexp, shr.
  assert (S : 0 <= shr_m (shr_record_of_loc m l))
    by (destruct l as [ | [ | | ] ]; exact H).
  destruct (fexp prec emax (Zdigits2 m + e) - e) as [ | p | p ]; simpl;
    [ exact S | now apply iter_shr_1_nonneg | exact S ].
Qed.

Lemma round_nearest_even_nonneg (m : Z) (l : location) :
  0 <= m -> 0 <= round_nearest_even m l.
Proof.
  intro H. unfold round_nearest_even.
  destruct l as [ | [ | | ] ]; try destruct (Z.even m); lia.
Qed.

(** Rounding a mantissa that is not negative gives a zero, a finite number
    or an infinity. *)
Lemma binary_round_aux_number (sx : bool) (mx ex : Z) (lx : location) :
  0 <= mx -> Double.isNaN (binary_round_aux prec emax sx mx ex lx) = false.
Proof.
  intro H. unfold binary_round_aux.
  pose proof (shr_fexp_nonneg mx ex lx H) as H1.
  destruct (shr_fexp prec emax mx ex lx) as [ mrs' e' ]. simpl in H1.
  pose proof (shr_fexp_nonneg _ e' loc_Exact
                (round_nearest_even_nonneg _ (loc_of_shr_record mrs') H1)) as H2.
  destruct (shr_fexp prec emax (round_nearest_even (shr_m mrs') (loc_of_shr_record mrs'))
              e' loc_Exact) as [ mrs'' e'' ].
  simpl in H2.
  destruct (shr_m mrs'') as [ | m | m ]; [ reflexivity | | lia ].
  now destruct (e'' <=? emax - prec).
Qed.

Lemma binary_normalize_number (m e : Z) (szero : bool) :
  Double.isNaN (binary_normalize prec emax m e szero) = false.
Proof.
  destruct m as [ | m | m ]; simpl; [ reflexivity | | ];
    unfold binary_round;
    destruct (shl_align m e (fexp prec emax (Z.pos (digits2_pos m) + e)));
    apply binary_round_aux_number; lia.
Qed.

(** A finite number minus a number is a number. *)
Lemma SFsub_number (x y : spec_float) :
  Double.isFinite x = true -> Double.isNaN y = false ->
  Double.isNaN (SFsub prec emax x y) = false.
Proof.
  destruct x as [ sx | sx | | sx mx ex ], y as [ sy | sy | | sy my ey ];
    try discriminate; intros _ _; simpl; try reflexivity.
  - now destruct sx, sy.
  - apply binary_normalize_number.
Qed.

(** A number divided by a finite number other than zero is a number. *)
Lemma SFdiv_number (x y : spec_float) :
  Double.isNaN x = false -> Double.isFinite y = true ->
  SFeqb y (S754_zero false) = false ->
  Double.isNaN (SFdiv prec emax x y) = false.
Proof.
  destruct x as [ sx | sx | | sx mx ex ], y as [ sy | sy | | sy my ey ];
    try discriminate; intros _ _ _; simpl; try reflexivity.
  unfold SFdiv_core_binary.
  set (m' := match _ with Z0 => _ | Zpos _ => _ | Zneg _ => _ end).
  assert (M : 0 <= m').
  { unfold m'. destruct (_ - _ - _) as [ | p | p ]; try lia.
    apply Z.shiftl_nonneg. lia. }
  pose proof (Z_div_mod m' (Z.pos my) ltac:(lia)) as D.
  destruct (Z.div_eucl m' (Z.pos my)) as [ q r ].
  apply binary_round_aux_number. nia.
Qed.

End Rounding.

Lemma Math_max_number (a b : spec_float) :
  Double.isNaN (Double.Math_max a b) = Double.isNaN a || Double.isNaN b.
Proof.
  unfold Double.Math_max.
  destruct a as [ [ | ] | [ | ] | | [ | ] ma ea ], b as [ [ | ] | [ | ] | | [ | ] mb eb ];
    try reflexivity; simpl;
    try (destruct (ea ?= eb); try reflexivity);
    try (destruct (Pos.compare_cont Eq ma mb); reflexivity).
Qed.

Lemma Math_max_zero_not_negative (x : spec_float) :
  Double.lessThan (Double.Math_max Double.zero x) Double.zero = false.
Proof. now destruct x as [ [ | ] | [ | ] | | [ | ] m e ]. Qed.

(** Two incomes of [2^1023], each a finite double: their sum overflows to
    [Infinity], the balance is [Infinity], and the savings rate
    [Math.max(0, Infinity / Infinity)] is NaN. *)
Lemma calculateSavingsRate_overflow :
  Double.isFinite (Double.amount hugeIncome) = true /\
  Double.calculateTotalIncome [hugeIncome; hugeIncome] = S754_infinity false /\
  Double.strictEquals (Double.calculateTotalIncome [hugeIncome; hugeIncome]) Double.zero
  = false /\
  Double.isNaN (Double.calculateSavingsRate [hugeIncome; hugeIncome]) = true.
Proof. repeat split; vm_compute; reflexivity. Qed.

(** C6: on doubles, the savings rate is 0 when the total income is 0, as on
    the empty list, and [max(0, balance / totalIncome)] otherwise, the
    division being reached with a divisor that is not zero; it is never
    negative.  It is NaN exactly when the total income is not zero and
    either the total income is not finite or the total expenses are NaN:
    with a finite total income and total expenses that are a number, the
    rate is a number. *)
Theorem calculateSavingsRate_spec (transactions : list Double.Transaction) :
  let income := Double.calculateTotalIncome transactions in
  let expenses := Double.calculateTotalExpenses transactions in
  let balance := Double.calculateBalance transactions in
  let rate := Double.calculateSavingsRate transactions in
  (Double.strictEquals income Double.zero = true -> rate = Double.zero) /\
  (Double.strictEquals income Double.zero = false ->
   rate = Double.Math_max Double.zero (Double.div balance income)) /\
  Double.lessThan rate Double.zero = false /\
  (Double.isNaN rate = true <->
   Double.strictEquals income Double.zero = false /\
   (Double.isFinite income = false \/ Double.isNaN expenses = true)) /\
  Double.calculateSavingsRate [] = Double.zero.
Proof.
  intros income expenses balance rate.
  unfold rate, Double.calculateSavingsRate. fold income. fold balance.
  unfold balance, Double.calculateBalance. fold income. fold expenses. cbv zeta.
  destruct (Double.strictEquals income Double.zero) eqn:Z.
  - split; [ reflexivity | ]. split; [ discriminate | ]. split; [ reflexivity | ].
    split; [ | reflexivity ].
    split; [ discriminate | intros [ H _ ]; discriminate H ].
  - split; [ discriminate | ]. split; [ reflexivity | ].
    split; [ apply Math_max_zero_not_negative | ]. split; [ | reflexivity ].
    rewrite Math_max_number. simpl orb. split.
    + intro N. split; [ reflexivity | ].
      destruct (Double.isFinite income) eqn:F; [ right | now left ].
      destruct (Double.isNaN expenses) eqn:E; [ reflexivity | ].
      unfold Double.div, Double.sub in N.
      rewrite SFdiv_number in N; [ discriminate N | | exact F | exact Z ].
      now apply SFsub_number.
    + intros [ _ [ F | E ] ].
      * destruct income as [ s | s | | s m e ]; try discriminate F;
          [ | reflexivity ].
        now destruct expenses as [ [ | ] | [ | ] | | se me ee ], s.
      * destruct expenses; try discriminate E. now destruct income.
Qed.

(** An income of 1000 and an expense of 400: the rate is the double
    nearest to 0.6. *)
Lemma calculateSavingsRate_witness :
  Double.strictEquals (Double.calculateTotalIncome [salary1000; rent400]) Double.zero
  = false /\
  Double.calculateSavingsRate [salary1000; rent400]
  = Double.div (Double.ofInt 6) (Double.ofInt 10) /\
  Double.isNaN (Double.calculateSavingsRate [salary1000; rent400]) = false.
Proof.
  assert (nonzero : Double.strictEquals
                      (Double.calculateTotalIncome [salary1000; rent400]) Double.zero
                    = false) by reflexivity.
  split; [ exact nonzero | ].
  destruct (calculateSavingsRate_spec [salary1000; rent400])
    as (_ & value & _ & nan & _).
  split.
  - rewrite (value nonzero). vm_compute. reflexivity.
  - destruct (Double.isNaN (Double.calculateSavingsRate [salary1000; rent400])) eqn:N;
      [ | reflexivity ].
    destruct (proj1 nan eq_refl) as [ _ [ F | E ] ]; [ discriminate F | discriminate E ].
Defined.

(** C7: the balance is the total income minus the total expenses, for
    every record list, and the balance of the empty list is 0. *)
Theorem calculateBalance_spec (transactions : list Transaction.t) :
  (calculateTotalIncome transactions - calculateTotalExpenses transactions)%Q
  = calculateBalance transactions /\
  calculateBalance [] = 0%Q.
Proof. split; reflexivity. Qed.

(** ** Reading a file *)

Section UploadProperties.

Context {host : Host}.

Lemma parseSheetData_rows (rawData : list Row) :
  (2 <= length rawData)%nat -> exists result, parseSheetData rawData = Some result.
Proof.
  destruct rawData as [ | headerRow dataRows ]; simpl; intro H; [ lia | ].
  eexists. reflexivity.
Qed.

(** C8: for a file of a valid type whose bytes decode to a sheet, a sheet
    of fewer than 2 rows and a sheet none of whose rows is accepted each end
    [handleFile] in the same way: one read, no retry, nothing handed to
    [onFileLoaded], the upload zone restored and an error message handed to
    the caller.  The two messages are different texts. *)
Theorem handleFile_fatal (file : File.t) (sheet : string) (rawData : list Row)
    (onFileLoaded onError : bool) :
  isValidExcelFile file = true ->
  File.content file = Workbook sheet rawData ->
  ((length rawData < 2)%nat ->
   parseExcelFile file = inl emptySheetMessage /\
   handleFile file onFileLoaded onError = failure file onError emptySheetMessage) /\
  ((2 <= length rawData)%nat ->
   exists result,
     parseSheetData rawData = Some result /\
     (transactions result = [] ->
      handleFile file onFileLoaded onError = failure file onError noTransactionsMessage)) /\
  emptySheetMessage <> noTransactionsMessage /\
  (forall message,
      reads (failure file onError message) = 1%nat /\
      loaded (failure file onError message) = []).
Proof.
  intros Hvalid Hcontent.
  split; [ | split; [ | split ] ].
  - intro Hshort.
    assert (E : parseExcelFile file = inl emptySheetMessage).
    { unfold parseExcelFile. rewrite Hcontent.
      destruct (Z.of_nat (length rawData) <? 2) eqn:L; [ reflexivity | ].
      apply Z.ltb_ge in L. lia. }
    split; [ exact E | ].
    unfold handleFile, tryHandleFile. rewrite Hvalid, E.
    destruct onError; reflexivity.
  - intro Hrows.
    destruct (parseSheetData_rows rawData Hrows) as [ result Hresult ].
    exists result. split; [ exact Hresult | ].
    intro Hnone.
    unfold handleFile, tryHandleFile, parseExcelFile.
    rewrite Hvalid, Hcontent, Hresult.
    destruct (Z.of_nat (length rawData) <? 2) eqn:L; [ apply Z.ltb_lt in L; lia | ].
    simpl. rewrite Hnone. destruct onError; reflexivity.
  - discriminate.
  - intro message. destruct onError; split; reflexivity.
Qed.

End UploadProperties.

Lemma handleFile_fatal_witness :
  isValidExcelFile headerOnlyFile = true /\
  (length [templateHeader] < 2)%nat /\
  handleFile (host := UTC.host) headerOnlyFile true true
  = failure headerOnlyFile true emptySheetMessage /\
  isValidExcelFile noValidRowFile = true /\
  option_map transactions
    (parseSheetData (host := UTC.host) [templateHeader; [None; text "Grocery Store"; None; number 150]])
  = Some [] /\
  handleFile (host := UTC.host) noValidRowFile true true
  = failure noValidRowFile true noTransactionsMessage.
Proof.
  split; [ reflexivity | ]. split; [ simpl; lia | ].
  split.
  - pose proof (handleFile_fatal (host := UTC.host) headerOnlyFile "Transactions"
                  [templateHeader] true true eq_refl eq_refl) as (short & _).
    apply short. simpl. lia.
  - split; [ reflexivity | ]. split; [ reflexivity | ].
    pose proof (handleFile_fatal (host := UTC.host) noValidRowFile "Transactions"
                  [templateHeader; [None; text "Grocery Store"; None; number 150]]
                  true true eq_refl eq_refl) as (_ & rows & _).
    destruct rows as (result & Hresult & none); [ simpl; lia | ].
    apply none.
    assert (T : option_map transactions
                  (parseSheetData (host := UTC.host)
                     [templateHeader; [None; text "Grocery Store"; None; number 150]])
                = Some []) by reflexivity.
    rewrite Hresult in T. injection T as T. exact T.
Defined.

(** ** Sorting *)

Lemma Ascii_compare_lt_trans (x y z : ascii) :
  Ascii.compare x y = Lt -> Ascii.compare y z = Lt -> Ascii.compare x z = Lt.
Proof.
  unfold Ascii.compare. rewrite !N.compare_lt_iff. apply N.lt_trans.
Qed.

Lemma String_compare_lt_trans (a : string) :
  forall b c : string,
    String.compare a b = Lt -> String.compare b c = Lt -> String.compare a c = Lt.
Proof.
  induction a as [ | x a IH ]; intros [ | y b ] [ | z c ]; simpl;
    try discriminate; try reflexivity.
  destruct (Ascii.compare x y) eqn:Exy; try discriminate.
  - apply Ascii.compare_eq_iff in Exy. subst y.
    destruct (Ascii.compare x z); try discriminate; [ apply IH | reflexivity ].
  - destruct (Ascii.compare y z) eqn:Eyz; try discriminate.
    + apply Ascii.compare_eq_iff in Eyz. subst z. now rewrite Exy.
    + now rewrite (Ascii_compare_lt_trans x y z Exy Eyz).
Qed.

Lemma keyLe_trans (a b c : string) : keyLe a b -> keyLe b c -> keyLe a c.
Proof.
  unfold keyLe, String.leb. intros Hab Hbc.
  destruct (String.compare a b) eqn:Eab; try discriminate.
  - apply String.compare_eq_iff in Eab. now subst b.
  - destruct (String.compare b c) eqn:Ebc; try discriminate.
    + apply String.compare_eq_iff in Ebc. subst c. now rewrite Eab.
    + now rewrite (String_compare_lt_trans a b c Eab Ebc).
Qed.

Lemma localeCompare_le (a b : string) :
  (localeCompare a b <=? 0) = true <-> keyLe a b.
Proof.
  unfold localeCompare, keyLe, String.leb.
  destruct (String.compare a b); simpl; split; intro H; try reflexivity; discriminate H.
Qed.

Section SortProperties.

Variable A : Type.
Variable compare : A -> A -> Z.

Let le (x y : A) : Prop := compare x y <= 0.

Hypothesis le_total : forall x y, le x y \/ le y x.
Hypothesis le_trans : forall x y z, le x y -> le y z -> le x z.

Lemma insertBy_Forall (P : A -> Prop) (x : A) (l : list A) :
  P x -> Forall P l -> Forall P (insertBy compare x l).
Proof.
  intros Hx Hl. induction Hl as [ | y rest Hy Hrest IH ]; simpl.
  - constructor; [ exact Hx | constructor ].
  - destruct (compare x y <=? 0); repeat constructor; assumption.
Qed.

Lemma insertBy_sorted (x : A) (l : list A) :
  StronglySorted le l -> StronglySorted le (insertBy compare x l).
Proof.
  intro Hl. induction Hl as [ | y rest Hrest IH Hy ]; simpl.
  - repeat constructor.
  - destruct (compare x y <=? 0) eqn:E.
    + apply Z.leb_le in E.
      constructor; [ constructor; assumption | ].
      constructor; [ exact E | ].
      eapply Forall_impl; [ | exact Hy ]. intros z Hz. now apply le_trans with y.
    + apply Z.leb_gt in E.
      constructor; [ exact IH | ].
      apply insertBy_Forall; [ | exact Hy ].
      destruct (le_total x y) as [ H | H ]; [ unfold le in H; lia | exact H ].
Qed.

Lemma sortBy_sorted (l : list A) : StronglySorted le (sortBy compare l).
Proof.
  induction l as [ | x l IH ]; simpl; [ constructor | now apply insertBy_sorted ].
Qed.

Lemma insertBy_Permutation (x : A) (l : list A) :
  Permutation (insertBy compare x l) (x :: l).
Proof.
  induction l as [ | y rest IH ]; simpl; [ reflexivity | ].
  destruct (compare x y <=? 0); [ reflexivity | ].
  rewrite IH. apply perm_swap.
Qed.

Lemma sortBy_Permutation (l : list A) : Permutation (sortBy compare l) l.
Proof.
  induction l as [ | x l IH ]; simpl; [ reflexivity | ].
  rewrite insertBy_Permutation. now constructor.
Qed.

End SortProperties.

(** ** Monthly totals *)

Lemma lookupMonth_None (key : string) (data : MonthlyData) :
  lookupMonth key data = None <-> ~ In key (map month data).
Proof.
  induction data as [ | entry rest IH ]; simpl.
  - split; [ intros _ [] | reflexivity ].
  - destruct (String.eqb_spec (month entry) key) as [ E | E ].
    + split; [ discriminate | ]. intro H. contradiction H. now left.
    + rewrite IH. split.
      * intros H [ H' | H' ]; contradiction.
      * intros H H'. apply H. now right.
Qed.

Lemma adjustMonth_months (key : string) (f : MonthTotal -> MonthTotal)
    (data : MonthlyData) :
  (forall e, month (f e) = month e) ->
  map month (adjustMonth key f data) = map month data.
Proof.
  intro Hf. induction data as [ | entry rest IH ]; simpl; [ reflexivity | ].
  destruct (String.eqb (month entry) key); simpl; [ now rewrite Hf | now rewrite IH ].
Qed.

Lemma ensureMonth_In (key k : string) (data : MonthlyData) :
  In k (map month (ensureMonth key data)) <-> In k (map month data) \/ key = k.
Proof.
  unfold ensureMonth. destruct (lookupMonth key data) as [ entry | ] eqn:E.
  - split; [ now left | ]. intros [ H | H ]; [ exact H | ]. subst k.
    destruct (in_dec string_dec key (map month data)) as [ I | I ]; [ exact I | ].
    apply lookupMonth_None in I. congruence.
  - rewrite map_app, in_app_iff. simpl. tauto.
Qed.

Lemma ensureMonth_NoDup (key : string) (data : MonthlyData) :
  NoDup (map month data) -> NoDup (map month (ensureMonth key data)).
Proof.
  intro H. unfold ensureMonth. destruct (lookupMonth key data) as [ entry | ] eqn:E.
  - exact H.
  - apply lookupMonth_None in E. rewrite map_app. simpl.
    apply NoDup_app; [ exact H | repeat constructor; intros [] | ].
    intros k Hk [ <- | [] ]. contradiction.
Qed.

Section ByMonthProperties.

Context {host : Host}.

Lemma addToMonth_months (data : MonthlyData) (t : Transaction.t) :
  map month (addToMonth data t)
  = map month (ensureMonth (monthKeyOf (Transaction.date t)) data).
Proof.
  unfold addToMonth.
  destruct (String.eqb _ "income"); apply adjustMonth_months; reflexivity.
Qed.

Lemma monthlyData_NoDup (transactions : list Transaction.t) :
  forall data : MonthlyData,
    NoDup (map month data) ->
    NoDup (map month (fold_left addToMonth transactions data)).
Proof.
  induction transactions as [ | t rest IH ]; intros data H; simpl; [ exact H | ].
  apply IH. rewrite addToMonth_months. now apply ensureMonth_NoDup.
Qed.

Lemma monthlyData_In (transactions : list Transaction.t) (key : string) :
  forall data : MonthlyData,
    In key (map month (fold_left addToMonth transactions data)) <->
    In key (map month data) \/
    exists t, In t transactions /\ monthKeyOf (Transaction.date t) = key.
Proof.
  induction transactions as [ | t rest IH ]; intro data; simpl.
  - split; [ now left | ]. intros [ H | (t & [] & _) ]. exact H.
  - rewrite IH, addToMonth_months, ensureMonth_In. split.
    + intros [ [ H | H ] | (t' & H & E) ].
      * now left.
      * right. exists t. auto.
      * right. exists t'. auto.
    + intros [ H | (t' & [ <- | H ] & E) ].
      * left. now left.
      * left. now right.
      * right. exists t'. auto.
Qed.

(** Whatever the order of the records, [calculateByMonth] returns its
    month totals in ascending order of the month keys, compared as strings
    character by character; there is one total for each month key that
    occurs among the records, and no other. *)
Lemma calculateByMonth_by_key (transactions : list Transaction.t) :
  StronglySorted monthLe (calculateByMonth transactions) /\
  NoDup (map month (calculateByMonth transactions)) /\
  (forall key,
      In key (map month (calculateByMonth transactions)) <->
      exists t, In t transactions /\ monthKeyOf (Transaction.date t) = key).
Proof.
  unfold calculateByMonth.
  set (byKey := fun a b : MonthTotal => localeCompare (month a) (month b)).
  set (monthlyData := fold_left addToMonth transactions []).
  assert (perm : Permutation (map month (sortBy byKey monthlyData)) (map month monthlyData))
    by (apply Permutation_map, sortBy_Permutation).
  split; [ | split ].
  - assert (sorted : StronglySorted (fun a b => byKey a b <= 0) (sortBy byKey monthlyData)).
    { apply sortBy_sorted.
      - intros x y. unfold byKey. rewrite <- !Z.leb_le, !localeCompare_le.
        apply String.leb_total.
      - intros x y z. unfold byKey. rewrite <- !Z.leb_le, !localeCompare_le.
        apply keyLe_trans. }
    clear perm. induction sorted as [ | a l Hl IH Ha ]; constructor; [ exact IH | ].
    eapply Forall_impl; [ | exact Ha ].
    intros b H. unfold byKey in H. apply Z.leb_le in H. now apply localeCompare_le.
  - apply (Permutation_NoDup (Permutation_sym perm)).
    apply monthlyData_NoDup. constructor.
  - intro key. split.
    + intro H. apply (Permutation_in _ perm) in H.
      apply monthlyData_In in H. destruct H as [ [] | H ]. exact H.
    + intro H. apply (Permutation_in _ (Permutation_sym perm)).
      apply monthlyData_In. now right.
Qed.

End ByMonthProperties.

(** ** Filters *)

Section FilterProperties.

Context {host : Host}.

(** C10: with no criterion set (empty search text, category "all", type
    "all", no start and no end date) [applyFilters] stores the input records
    themselves, in their order; each of the filters is the identity on its
    own "all" or empty criterion. *)
Theorem applyFilters_noFilters (transactions previous : list Transaction.t)
    (isLoaded : bool) :
  State.filteredTransactions
    (applyFilters (State.Build transactions previous noFilters isLoaded))
  = transactions /\
  State.transactions
    (applyFilters (State.Build transactions previous noFilters isLoaded))
  = transactions /\
  searchTransactions transactions "" = transactions /\
  filterByCategory transactions "all" = transactions /\
  filterByType transactions "all" = transactions.
Proof. repeat split; reflexivity. Qed.

End FilterProperties.

(** ** Month keys and chronological order *)

Lemma digitChar_compare (a b : Z) :
  0 <= a <= 9 -> 0 <= b <= 9 ->
  Ascii.compare (JS.digitChar a) (JS.digitChar b) = (a ?= b).
Proof.
  intros Ha Hb.
  assert (A : a = 0 \/ a = 1 \/ a = 2 \/ a = 3 \/ a = 4 \/ a = 5 \/ a = 6 \/ a = 7
              \/ a = 8 \/ a = 9) by lia.
  assert (B : b = 0 \/ b = 1 \/ b = 2 \/ b = 3 \/ b = 4 \/ b = 5 \/ b = 6 \/ b = 7
              \/ b = 8 \/ b = 9) by lia.
  clear Ha Hb.
  repeat (destruct A as [ -> | A ]); try subst a;
    repeat (destruct B as [ -> | B ]); try subst b; reflexivity.
Qed.

(** Comparing two numbers by their leading part first, then by the rest. *)
Lemma compare_leading (base a1 r1 a2 r2 : Z) :
  0 <= r1 < base -> 0 <= r2 < base ->
  (base * a1 + r1 ?= base * a2 + r2) =
  match a1 ?= a2 with
  | Eq => r1 ?= r2
  | c => c
  end.
Proof.
  intros H1 H2.
  destruct (Z.compare_spec a1 a2) as [ E | L | G ].
  - subst a2. destruct (Z.compare_spec r1 r2) as [ E | L | G ].
    + apply Z.compare_eq_iff. lia.
    + apply Z.compare_lt_iff. lia.
    + apply Z.compare_gt_iff. lia.
  - apply Z.compare_lt_iff. nia.
  - apply Z.compare_gt_iff. nia.
Qed.

(** A year of four digits prints as its four digits. *)
Lemma intToString_four_digits (y : Z) :
  1000 <= y <= 9999 ->
  exists a b c d,
    (0 <= a <= 9 /\ 0 <= b <= 9 /\ 0 <= c <= 9 /\ 0 <= d <= 9) /\
    y = 10 * (10 * (10 * a + b) + c) + d /\
    JS.intToString y =
    String (JS.digitChar a) (String (JS.digitChar b)
      (String (JS.digitChar c) (String (JS.digitChar d) EmptyString))).
Proof.
  intro H.
  exists (y / 10 / 10 / 10 mod 10), (y / 10 / 10 mod 10), (y / 10 mod 10), (y mod 10).
  assert (digit : forall x, 0 <= x mod 10 <= 9)
    by (intro x; pose proof (Z.mod_pos_bound x 10); lia).
  split; [ auto | ].
  split; [ Z.div_mod_to_equations; lia | ].
  unfold JS.intToString.
  assert (L : 3 <= Z.log2 y) by (change 3 with (Z.log2 8); apply Z.log2_le_mono; lia).
  replace (y <? 0) with false by (symmetry; apply Z.ltb_ge; lia).
  rewrite Z.abs_eq by lia.
  destruct (Z.to_nat (Z.log2 y)) as [ | [ | [ | fuel ] ] ] eqn:F; try lia.
  cbn [JS.digitsOf].
  replace (y <? 10) with false by (symmetry; apply Z.ltb_ge; lia).
  replace (y / 10 <? 10) with false
    by (symmetry; apply Z.ltb_ge; Z.div_mod_to_equations; lia).
  replace (y / 10 / 10 <? 10) with false
    by (symmetry; apply Z.ltb_ge; Z.div_mod_to_equations; lia).
  replace (y / 10 / 10 / 10 <? 10) with true
    by (symmetry; apply Z.ltb_lt; Z.div_mod_to_equations; lia).
  reflexivity.
Qed.

(** A month index prints, after [+ 1] and padding, as two digits. *)
Lemma month_two_digits (m : Z) :
  0 <= m <= 11 ->
  exists p q,
    (0 <= p <= 9 /\ 0 <= q <= 9) /\ m + 1 = 10 * p + q /\
    JS.padStart 2 "0" (JS.intToString (m + 1)) =
    String (JS.digitChar p) (String (JS.digitChar q) EmptyString).
Proof.
  intro H.
  exists ((m + 1) / 10), ((m + 1) mod 10).
  split; [ split; Z.div_mod_to_equations; lia | ].
  split; [ Z.div_mod_to_equations; lia | ].
  assert (M : m = 0 \/ m = 1 \/ m = 2 \/ m = 3 \/ m = 4 \/ m = 5 \/ m = 6 \/ m = 7
              \/ m = 8 \/ m = 9 \/ m = 10 \/ m = 11) by lia.
  clear H.
  repeat (destruct M as [ -> | M ]); try subst m; reflexivity.
Qed.

(** On years of four digits, the lexicographic order of the month keys is
    the chronological order of the months. *)
Lemma monthKey_compare (y1 m1 y2 m2 : Z) :
  1000 <= y1 <= 9999 -> 0 <= m1 <= 11 ->
  1000 <= y2 <= 9999 -> 0 <= m2 <= 11 ->
  String.compare (monthKey y1 m1) (monthKey y2 m2) = chronological y1 m1 y2 m2.
Proof.
  intros Hy1 Hm1 Hy2 Hm2. unfold monthKey, chronological.
  destruct (intToString_four_digits y1 Hy1)
    as (a1 & b1 & c1 & d1 & (? & ? & ? & ?) & -> & ->).
  destruct (intToString_four_digits y2 Hy2)
    as (a2 & b2 & c2 & d2 & (? & ? & ? & ?) & -> & ->).
  destruct (month_two_digits m1 Hm1) as (p1 & q1 & (? & ?) & M1 & ->).
  destruct (month_two_digits m2 Hm2) as (p2 & q2 & (? & ?) & M2 & ->).
  replace (m1 ?= m2) with (10 * p1 + q1 ?= 10 * p2 + q2)
    by (rewrite <- M1, <- M2, (Z.add_comm m1), (Z.add_comm m2);
        apply Z.add_compare_mono_l).
  cbn [String.append String.compare].
  rewrite !digitChar_compare by assumption.
  change (Ascii.compare "-" "-") with Eq. cbv iota.
  rewrite !compare_leading by lia.
  destruct (a1 ?= a2), (b1 ?= b2), (c1 ?= c2), (d1 ?= d2), (p1 ?= p2), (q1 ?= q2);
    reflexivity.
Qed.

Section ChronologicalOrder.

Context {host : Host}.

(** For dates whose year has four digits, one month key is below another
    exactly when its month is not later. *)
Lemma monthKeyOf_chronological (d1 d2 : Date) (y1 m1 y2 m2 : Z) :
  getFullYear d1 = Some y1 -> getMonth d1 = Some m1 ->
  getFullYear d2 = Some y2 -> getMonth d2 = Some m2 ->
  1000 <= y1 <= 9999 -> 0 <= m1 <= 11 ->
  1000 <= y2 <= 9999 -> 0 <= m2 <= 11 ->
  (keyLe (monthKeyOf d1) (monthKeyOf d2) <-> y1 < y2 \/ (y1 = y2 /\ m1 <= m2)).
Proof.
  intros E1 F1 E2 F2 Hy1 Hm1 Hy2 Hm2.
  assert (K1 : monthKeyOf d1 = monthKey y1 m1)
    by (unfold monthKeyOf; rewrite E1, F1; reflexivity).
  assert (K2 : monthKeyOf d2 = monthKey y2 m2)
    by (unfold monthKeyOf; rewrite E2, F2; reflexivity).
  unfold keyLe, String.leb. rewrite K1, K2.
  rewrite monthKey_compare by assumption. unfold chronological.
  destruct (Z.compare_spec y1 y2) as [ Y | Y | Y ],
           (Z.compare_spec m1 m2) as [ M | M | M ];
    split; intro H; try reflexivity; try discriminate H; lia.
Qed.

End ChronologicalOrder.

(** The year is printed without padding: outside the years of four digits
    the order of the keys is no longer the order of the months. *)
Example monthKey_unpadded_year :
  monthKey 999 11 = "999-12" /\ monthKey 1000 0 = "1000-01" /\
  keyLe (monthKey 1000 0) (monthKey 999 11).
Proof. repeat split; reflexivity. Qed.

Lemma StronglySorted_impl {A : Type} (R R' : A -> A -> Prop) (l : list A) :
  (forall a b, In a l -> In b l -> R a b -> R' a b) ->
  StronglySorted R l -> StronglySorted R' l.
Proof.
  intros H S. induction S as [ | a l S IH Ha ]; constructor.
  - apply IH. intros x y Hx Hy. apply H; now right.
  - rewrite Forall_forall in *. intros b Hb.
    apply H; [ now left | now right | now apply Ha ].
Qed.

Section ByMonthOrder.

Context {host : Host}.

(** C9: whatever the order of the records, [calculateByMonth] returns its
    month totals in ascending order of the month keys, compared as strings
    character by character, with one total for each month key that occurs
    among the records and no other.  The key is the year as the host
    prints it, without padding, a hyphen and the month on two digits: when
    every record has a valid date in a year of four digits, the order of
    the keys is the chronological order of the months. *)
Theorem calculateByMonth_sorted (transactions : list Transaction.t) :
  StronglySorted monthLe (calculateByMonth transactions) /\
  NoDup (map month (calculateByMonth transactions)) /\
  (forall key,
      In key (map month (calculateByMonth transactions)) <->
      exists t, In t transactions /\ monthKeyOf (Transaction.date t) = key) /\
  (Forall (fun t => fourDigitYear (Transaction.date t)) transactions ->
   StronglySorted (chronologicalOrder transactions) (calculateByMonth transactions)).
Proof.
  destruct (calculateByMonth_by_key transactions) as (sorted & nodup & keys).
  split; [ exact sorted | ]. split; [ exact nodup | ]. split; [ exact keys | ].
  intro years. rewrite Forall_forall in years.
  apply (StronglySorted_impl monthLe); [ | exact sorted ].
  intros a b _ _ Hab t1 t2 H1 H2 K1 K2.
  destruct (years t1 H1) as (y1 & m1 & Y1 & M1 & By1 & Bm1).
  destruct (years t2 H2) as (y2 & m2 & Y2 & M2 & By2 & Bm2).
  unfold notLater. rewrite Y1, M1, Y2, M2.
  apply (monthKeyOf_chronological _ _ y1 m1 y2 m2 Y1 M1 Y2 M2 By1 Bm1 By2 Bm2).
  unfold monthLe in Hab. now rewrite K1, K2.
Qed.

End ByMonthOrder.

(** Records of January 2026, in any order: the months come out in
    chronological order. *)
Lemma calculateByMonth_sorted_witness :
  Forall (fun t => fourDigitYear (host := UTC.host) (Transaction.date t))
         [march2026; income1000] /\
  map month (calculateByMonth (host := UTC.host) [march2026; income1000])
  = ["2026-01"; "2026-03"] /\
  StronglySorted (chronologicalOrder (host := UTC.host) [march2026; income1000])
                 (calculateByMonth (host := UTC.host) [march2026; income1000]).
Proof.
  assert (years : Forall (fun t => fourDigitYear (host := UTC.host) (Transaction.date t))
                         [march2026; income1000]).
  { constructor; [ exists 2026, 2 | constructor; [ exists 2026, 0 | constructor ] ];
      (split; [ reflexivity | split; [ reflexivity | lia ] ]). }
  split; [ exact years | ]. split; [ reflexivity | ].
  exact (proj2 (proj2 (proj2
           (calculateByMonth_sorted (host := UTC.host) [march2026; income1000]))) years).
Defined.

(** A record of December 999 and a record of March 2026: the keys are
    ["999-12"], of six characters, and ["2026-03"]; March 2026 comes out
    first, before December 999. *)
Lemma calculateByMonth_not_chronological :
  getFullYear (Host := UTC.host) (Transaction.date december999) = Some 999 /\
  getFullYear (Host := UTC.host) (Transaction.date march2026) = Some 2026 /\
  map month (calculateByMonth (host := UTC.host) [december999; march2026])
  = ["2026-03"; "999-12"] /\
  ~ StronglySorted (chronologicalOrder (host := UTC.host) [december999; march2026])
      (calculateByMonth (host := UTC.host) [december999; march2026]).
Proof.
  split; [ reflexivity | ]. split; [ reflexivity | ]. split; [ reflexivity | ].
  intro sorted.
  assert (E : calculateByMonth (host := UTC.host) [december999; march2026]
              = [mkMonthTotal 0 (0 + Qabs (inject_Z 900)) "2026-03";
                 mkMonthTotal 0 (0 + Qabs (inject_Z 10)) "999-12"])
    by (vm_compute; reflexivity).
  rewrite E in sorted. clear E.
  apply StronglySorted_inv in sorted. destruct sorted as [ _ first ].
  apply Forall_inv in first.
  specialize (first march2026 december999 (or_intror (or_introl eq_refl))
                (or_introl eq_refl) eq_refl eq_refl).
  vm_compute in first. destruct first as [ H | [ H _ ] ]; discriminate H.
Qed.

(** * Further properties of the code *)

(** ** Column detection *)

Lemma mapColumns_get (headers : list string) (f : Field) :
  ColumnMap.get f (mapColumns headers) = firstMatchFrom f headers 0.
Proof.
  unfold mapColumns. rewrite forEachHeader_get by lia. destruct f; reflexivity.
Qed.

Lemma mapColumns_unmapped_iff (headers : list string) (f : Field) :
  ColumnMap.get f (mapColumns headers) = -1 <->
  Forall (fun h => headerMatches f h = false) headers.
Proof.
  rewrite mapColumns_get.
  destruct (firstMatchFrom_leftmost f headers 0 (Z.le_refl 0))
    as [ (E & Hall) | (n & h & E & Hn & Hh & _) ].
  - split; [ intros _; exact Hall | intros _; exact E ].
  - split; [ rewrite E; lia | ].
    intro Hall. rewrite Forall_forall in Hall.
    apply nth_error_In in Hn. rewrite (Hall h Hn) in Hh. discriminate Hh.
Qed.

(** X1: the detected columns are exactly the fields for which some header
    contains an alias, and the index recorded for such a field is a position
    of the header row, at which a matching header stands; every other field
    has the index -1. *)
Theorem detectedColumns_spec (headers : list string) (f : Field) :
  (In f (detectedColumns (mapColumns headers)) <->
   exists h, In h headers /\ headerMatches f h = true) /\
  (ColumnMap.get f (mapColumns headers) = -1 \/
   (0 <= ColumnMap.get f (mapColumns headers) < Z.of_nat (length headers) /\
    exists h,
      nth_error headers (Z.to_nat (ColumnMap.get f (mapColumns headers))) = Some h /\
      headerMatches f h = true)).
Proof.
  split.
  - unfold detectedColumns. rewrite filter_In.
    assert (everyField : In f [FDate; FDescription; FCategory; FAmount; FType])
      by (destruct f; simpl; tauto).
    rewrite negb_true_iff, Z.eqb_neq, mapColumns_unmapped_iff, Forall_forall.
    split.
    + intros [ _ H ].
      destruct (existsb (headerMatches f) headers) eqn:E.
      * apply existsb_exists in E. exact E.
      * contradiction H. intros h Hh.
        destruct (headerMatches f h) eqn:M; [ | reflexivity ].
        assert (X : existsb (headerMatches f) headers = true)
          by (apply existsb_exists; eauto).
        congruence.
    + intros (h & Hh & M). split; [ exact everyField | ].
      intro H. rewrite (H h Hh) in M. discriminate M.
  - rewrite mapColumns_get.
    destruct (firstMatchFrom_leftmost f headers 0 (Z.le_refl 0))
      as [ (E & _) | (n & h & E & Hn & Hh & _) ]; [ now left | right ].
    rewrite E. simpl. rewrite Nat2Z.id.
    split; [ | exists h; auto ].
    assert (n < length headers)%nat by (apply nth_error_Some; congruence). lia.
Qed.

(** ** Sheets *)

Section SheetProperties.

Context {host : Host}.

Lemma parseRow_nil (columnMap : ColumnMap.t) (headers : list string) :
  parseRow [] columnMap headers = None.
Proof.
  unfold parseRow, rowDate, mappedCell, cellAt.
  destruct (ColumnMap.date columnMap =? -1); [ reflexivity | ].
  destruct (ColumnMap.date columnMap <? 0); [ reflexivity | ].
  now destruct (Z.to_nat (ColumnMap.date columnMap)).
Qed.

(** A transaction of [parseRows] is the record of one of the rows, with the
    position of that row as its id. *)
Lemma parseRows_In (rows : list Row) (columnMap : ColumnMap.t) (headers : list string)
    (t : Transaction.t) :
  forall i : Z,
    In t (parseRows rows i columnMap headers) <->
    exists (n : nat) (row : Row) (t' : Transaction.t),
      nth_error rows n = Some row /\
      parseRow row columnMap headers = Some t' /\
      t = Transaction.withId (i + Z.of_nat n) t'.
Proof.
  induction rows as [ | row rest IH ]; intro i.
  - simpl. split; [ intros [] | ]. intros (n & r & t' & H & _). now destruct n.
  - assert (step : In t (parseRows (row :: rest) i columnMap headers) <->
                   (exists t', parseRow row columnMap headers = Some t' /\
                               t = Transaction.withId i t') \/
                   In t (parseRows rest (i + 1) columnMap headers)).
    { simpl. destruct row as [ | cell cells ].
      - rewrite parseRow_nil. split; [ now right | ].
        intros [ (t' & H & _) | H ]; [ discriminate H | exact H ].
      - destruct (parseRow (cell :: cells) columnMap headers) as [ t0 | ]; simpl.
        + split.
          * intros [ <- | H ]; [ left; eauto | now right ].
          * intros [ (t' & H & ->) | H ]; [ left; congruence | now right ].
        + split; [ now right | ].
          intros [ (t' & H & _) | H ]; [ discriminate H | exact H ]. }
    rewrite step, IH. split.
    + intros [ (t' & H & ->) | (n & r & t' & Hn & H & ->) ].
      * exists 0%nat, row, t'. rewrite Z.add_0_r. auto.
      * exists (S n), r, t'. repeat split; auto. f_equal. lia.
    + intros (n & r & t' & Hn & H & ->). destruct n as [ | n ]; simpl in Hn.
      * left. injection Hn as ->. exists t'. rewrite Z.add_0_r. auto.
      * right. exists n, r, t'. repeat split; auto. f_equal. lia.
Qed.

(** The ids of [parseRows] are row positions in strictly ascending order. *)
Lemma parseRows_ids (rows : list Row) (columnMap : ColumnMap.t) (headers : list string) :
  forall i : Z,
  exists ks : list Z,
    map Transaction.id (parseRows rows i columnMap headers) = map Some ks /\
    Forall (fun k => i <= k < i + Z.of_nat (length rows)) ks /\
    StronglySorted Z.lt ks.
Proof.
  induction rows as [ | row rest IH ]; intro i.
  - exists []. repeat split; constructor.
  - destruct (IH (i + 1)) as (ks & E & Hrange & Hsorted).
    assert (wider : Forall (fun k => i <= k < i + Z.of_nat (length (row :: rest))) ks).
    { eapply Forall_impl; [ | exact Hrange ]. intros k Hk. cbv beta in Hk.
      simpl length. lia. }
    assert (skip : exists ks0 : list Z,
               map Transaction.id (parseRows rest (i + 1) columnMap headers) = map Some ks0 /\
               Forall (fun k => i <= k < i + Z.of_nat (length (row :: rest))) ks0 /\
               StronglySorted Z.lt ks0) by (exists ks; auto).
    simpl parseRows. destruct row as [ | cell cells ]; [ exact skip | ].
    destruct (parseRow (cell :: cells) columnMap headers) as [ t | ]; [ | exact skip ].
    exists (i :: ks). simpl map. rewrite E. split; [ reflexivity | ]. split.
    + constructor; [ simpl length; lia | exact wider ].
    + constructor; [ exact Hsorted | ].
      eapply Forall_impl; [ | exact Hrange ]. intros k Hk. cbv beta in Hk. lia.
Qed.

Lemma parseRows_length (rows : list Row) (columnMap : ColumnMap.t) (headers : list string) :
  forall i : Z, (length (parseRows rows i columnMap headers) <= length rows)%nat.
Proof.
  induction rows as [ | row rest IH ]; intro i; simpl; [ lia | ].
  specialize (IH (i + 1)).
  destruct row as [ | cell cells ]; [ lia | ].
  destruct (parseRow (cell :: cells) columnMap headers); simpl; lia.
Qed.

(** X2: [parseSheetData] keeps the sheet order and numbers the records by
    their rows: a record is the normalized form of one data row and its id
    is the position of that row in the sheet, counting the header row as
    row 0; the ids are strictly ascending, from 1 to the number of data
    rows, with gaps where rows were rejected. *)
Theorem parseSheetData_ids (headerRow : Row) (dataRows : list Row) :
  let headers := map headerOf headerRow in
  exists result : SheetData,
    parseSheetData (headerRow :: dataRows) = Some result /\
    (forall t,
        In t (transactions result) <->
        exists (n : nat) (row : Row) (t' : Transaction.t),
          nth_error (headerRow :: dataRows) (S n) = Some row /\
          parseRow row (mapColumns headers) headers = Some t' /\
          t = Transaction.withId (Z.of_nat (S n)) t') /\
    exists ks : list Z,
      map Transaction.id (transactions result) = map Some ks /\
      Forall (fun k => 1 <= k <= Z.of_nat (length dataRows)) ks /\
      StronglySorted Z.lt ks.
Proof.
  intro headers. eexists. split; [ reflexivity | ]. simpl transactions. split.
  - intro t. rewrite parseRows_In. simpl nth_error.
    split; intros (n & row & t' & Hn & H & ->); exists n, row, t';
      repeat split; auto; f_equal; lia.
  - destruct (parseRows_ids dataRows (mapColumns headers) headers 1)
      as (ks & E & Hrange & Hsorted).
    exists ks. repeat split; auto.
    eapply Forall_impl; [ | exact Hrange ]. intros k Hk. cbv beta in Hk. lia.
Qed.

(** X3: when [parseExcelFile] resolves, the sheet has at least one data
    row, [totalRows] counts the data rows, [parsedRows] counts the records,
    and no more records than data rows come out; the record list may be
    empty. *)
Theorem parseExcelFile_counts (file : File.t) (result : ParseResult) :
  parseExcelFile file = inr result ->
  exists (sheet : string) (rawData : list Row),
    File.content file = Workbook sheet rawData /\
    totalRows result = Z.of_nat (length rawData) - 1 /\
    parsedRows result = Z.of_nat (length (result_transactions result)) /\
    1 <= totalRows result /\
    0 <= parsedRows result <= totalRows result /\
    fileName result = File.name file /\
    sheetName result = sheet.
Proof.
  unfold parseExcelFile. intro H.
  destruct (File.content file) as [ | message | sheet rawData ]; try discriminate H.
  exists sheet, rawData. split; [ reflexivity | ].
  destruct (Z.of_nat (length rawData) <? 2) eqn:L; [ discriminate H | ].
  apply Z.ltb_ge in L.
  destruct rawData as [ | headerRow dataRows ]; [ discriminate H | ].
  cbn [parseSheetData] in H.
  apply (f_equal (fun s => match s with inr r => r | inl _ => result end)) in H.
  cbv beta iota in H. subst result.
  cbn [totalRows parsedRows result_transactions fileName sheetName transactions].
  pose proof (parseRows_length dataRows (mapColumns (map headerOf headerRow))
                (map headerOf headerRow) 1) as Hlen.
  change (length (headerRow :: dataRows)) with (S (length dataRows)) in *.
  rewrite Nat2Z.inj_succ in *.
  split; [ lia | ]. split; [ reflexivity | ]. split; [ lia | ].
  split; [ lia | ]. split; reflexivity.
Qed.

(** X4: the date and the amount columns are required: when no header
    contains an alias of the date field, or none contains an alias of the
    amount field, no row of the sheet is accepted. *)
Theorem parseSheetData_required_columns (headerRow : Row) (dataRows : list Row) :
  Forall (fun h => headerMatches FDate h = false) (map headerOf headerRow) \/
  Forall (fun h => headerMatches FAmount h = false) (map headerOf headerRow) ->
  option_map transactions (parseSheetData (headerRow :: dataRows)) = Some [].
Proof.
  intro H. simpl. f_equal.
  set (headers := map headerOf headerRow) in *.
  destruct (parseRows dataRows 1 (mapColumns headers) headers) as [ | t rest ] eqn:E;
    [ reflexivity | exfalso ].
  assert (Ht : In t (parseRows dataRows 1 (mapColumns headers) headers))
    by (rewrite E; now left).
  apply parseRows_In in Ht. destruct Ht as (n & row & t' & _ & Hrow & _).
  unfold parseRow in Hrow. destruct H as [ H | H ].
  - apply (mapColumns_unmapped_iff headers FDate) in H. simpl in H.
    unfold rowDate, mappedCell in Hrow. rewrite H in Hrow. discriminate Hrow.
  - apply (mapColumns_unmapped_iff headers FAmount) in H. simpl in H.
    destruct (rowDate row (mapColumns headers)); [ | discriminate Hrow ].
    unfold rowAmount, mappedCell in Hrow. rewrite H in Hrow. discriminate Hrow.
Qed.

End SheetProperties.

Lemma parseExcelFile_counts_witness :
  exists result : ParseResult,
    parseExcelFile (host := UTC.host) templateFile = inr result /\
    totalRows result = 8 /\ parsedRows result = 8.
Proof.
  assert (counts : match parseExcelFile (host := UTC.host) templateFile with
                   | inr r => parsedRows r = 8
                   | inl _ => False
                   end) by (vm_compute; reflexivity).
  destruct (parseExcelFile (host := UTC.host) templateFile) as [ message | result ] eqn:E;
    [ contradiction | ].
  exists result. split; [ reflexivity | ].
  destruct (parseExcelFile_counts (host := UTC.host) templateFile result E)
    as (sheet & rawData & Hcontent & Htotal & _).
  split; [ | exact counts ].
  rewrite Htotal.
  assert (L : Workbook sheet rawData = Workbook "Transactions" getSampleTemplateData)
    by (symmetry; exact Hcontent).
  apply (f_equal (fun c => match c with Workbook _ rows => length rows | _ => O end)) in L.
  cbv beta iota in L. rewrite L. reflexivity.
Defined.

Lemma parseSheetData_required_columns_witness :
  Forall (fun h => headerMatches FDate h = false)
         (map (headerOf (host := UTC.host)) [text "When"; text "Amount"]) /\
  option_map transactions (parseSheetData (host := UTC.host) noDateSheet) = Some [].
Proof.
  assert (H : Forall (fun h => headerMatches FDate h = false)
                (map (headerOf (host := UTC.host)) [text "When"; text "Amount"]))
    by (repeat constructor).
  split; [ exact H | ].
  apply (parseSheetData_required_columns (host := UTC.host)
           [text "When"; text "Amount"] [[text "2026-01-02"; number 150]]).
  left. exact H.
Defined.

(** ** Trimming *)

Lemma trimStart_no_leading_space (s : string) : startsWithSpace (JS.trimStart s) = false.
Proof.
  induction s as [ | c s IH ]; simpl; [ reflexivity | ].
  destruct (JS.isWhiteSpace c) eqn:E; [ exact IH | simpl; exact E ].
Qed.

Lemma trimEnd_keeps_start (s : string) :
  startsWithSpace s = false -> startsWithSpace (JS.trimEnd s) = false.
Proof.
  destruct s as [ | c s ]; simpl; [ reflexivity | ]. intro E.
  destruct (JS.trimEnd s); [ rewrite E | ]; simpl; auto.
Qed.

Lemma trimEnd_no_trailing_space (s : string) : endsWithSpace (JS.trimEnd s) = false.
Proof.
  induction s as [ | c s IH ]; simpl; [ reflexivity | ].
  destruct (JS.trimEnd s) as [ | d rest ] eqn:E.
  - destruct (JS.isWhiteSpace c) eqn:W; simpl; auto.
  - exact IH.
Qed.

Lemma trim_no_surrounding_space (s : string) :
  startsWithSpace (JS.trim s) = false /\ endsWithSpace (JS.trim s) = false.
Proof.
  unfold JS.trim. split.
  - apply trimEnd_keeps_start, trimStart_no_leading_space.
  - apply trimEnd_no_trailing_space.
Qed.

(** ** Dates and records *)

Section RecordProperties.

Context {host : Host}.

Lemma tryFormats_valid (fs : list Format) (dateStr : string) (d : Date) :
  tryFormats fs dateStr = Some d -> isValidDate d = true.
Proof.
  induction fs as [ | format rest IH ]; simpl; [ discriminate | ].
  destruct (matchFormat format dateStr) as [ [ [ a b ] c ] | ]; [ | exact IH ].
  destruct (String.length a =? 4)%nat.
  - destruct (isValidDate (Date_ofFields (JS.parseInt a) (JS.parseInt b - 1) (JS.parseInt c)))
      eqn:V; [ | exact IH ].
    intro H. injection H as <-. exact V.
  - destruct (isValidDate (Date_ofFields (JS.parseInt c) (JS.parseInt a - 1) (JS.parseInt b)))
      eqn:V; [ | exact IH ].
    intro H. injection H as <-. exact V.
Qed.

Lemma parseDate_valid (dateStr : string) (d : Date) :
  parseDate dateStr = Some d -> isValidDate d = true.
Proof.
  unfold parseDate. destruct (negb (JS.truthy dateStr)); [ discriminate | ].
  destruct (isValidDate (Date_ofString dateStr)) eqn:V.
  - intro H. injection H as <-. exact V.
  - apply tryFormats_valid.
Qed.

(** X5: [parseDate] never returns an invalid date, and returns [null] for
    the empty string; when the host reads a non-empty string as a valid date,
    that reading is the result and the four patterns are not consulted. *)
Theorem parseDate_spec (dateStr : string) :
  parseDate "" = None /\
  (forall d, parseDate dateStr = Some d -> isValidDate d = true) /\
  (dateStr <> "" -> isValidDate (Date_ofString dateStr) = true ->
   parseDate dateStr = Some (Date_ofString dateStr)).
Proof.
  split; [ reflexivity | ]. split; [ intro d; apply parseDate_valid | ].
  intros Hne V. unfold parseDate.
  destruct dateStr; [ contradiction Hne; reflexivity | ].
  simpl. now rewrite V.
Qed.

(** X6: the date of an accepted row is the native date of the date cell,
    taken as it is, even when it is an invalid date; a date read from any
    other cell is a valid date. *)
Theorem parseRow_date (row : Row) (columnMap : ColumnMap.t) (headers : list string)
    (t : Transaction.t) :
  parseRow row columnMap headers = Some t ->
  ColumnMap.date columnMap <> -1 /\
  exists v,
    cellAt row (ColumnMap.date columnMap) = Some v /\
    match v with
    | CDate d => Transaction.date t = d
    | _ => isValidDate (Transaction.date t) = true /\
           parseDate (stringOf v) = Some (Transaction.date t)
    end.
Proof.
  intro H. apply parseRow_Some in H. destruct H as (date & Hdate & _ & ->). simpl.
  unfold rowDate, mappedCell in Hdate.
  destruct (ColumnMap.date columnMap =? -1) eqn:E; [ discriminate Hdate | ].
  apply Z.eqb_neq in E. split; [ exact E | ].
  destruct (cellAt row (ColumnMap.date columnMap)) as [ v | ]; [ | discriminate Hdate ].
  exists v. split; [ reflexivity | ].
  destruct v as [ s | x | d ].
  - split; [ now apply parseDate_valid with (dateStr := stringOf (CText s)) | exact Hdate ].
  - split; [ now apply parseDate_valid with (dateStr := stringOf (CNumber x)) | exact Hdate ].
  - now injection Hdate.
Qed.

(** X7: the category of an accepted row is never empty: it is
    "Uncategorized" when the category column is unmapped, the cell is missing
    or its text is blank, and the trimmed text of the cell otherwise.  The
    description and the category carry no white space at either end. *)
Theorem parseRow_category (row : Row) (columnMap : ColumnMap.t) (headers : list string)
    (t : Transaction.t) :
  parseRow row columnMap headers = Some t ->
  Transaction.category t <> "" /\
  (mappedCell row (ColumnMap.category columnMap) = None ->
   Transaction.category t = "Uncategorized") /\
  (forall v, mappedCell row (ColumnMap.category columnMap) = Some v ->
             Transaction.category t =
             if JS.truthy (JS.trim (stringOf v)) then JS.trim (stringOf v)
             else "Uncategorized") /\
  startsWithSpace (Transaction.category t) = false /\
  endsWithSpace (Transaction.category t) = false /\
  startsWithSpace (Transaction.description t) = false /\
  endsWithSpace (Transaction.description t) = false.
Proof.
  intro H. apply parseRow_Some in H. destruct H as (date & _ & _ & ->). simpl.
  assert (D : startsWithSpace (rowDescription row columnMap) = false /\
              endsWithSpace (rowDescription row columnMap) = false).
  { unfold rowDescription.
    destruct (mappedCell row (ColumnMap.description columnMap)) as [ w | ];
      [ apply trim_no_surrounding_space | split; reflexivity ]. }
  destruct D as [ D1 D2 ].
  unfold rowCategory.
  destruct (mappedCell row (ColumnMap.category columnMap)) as [ v | ].
  - unfold JS.orElse.
    destruct (trim_no_surrounding_space (stringOf v)) as [ Sv Ev ].
    destruct (JS.truthy (JS.trim (stringOf v))) eqn:T.
    + split; [ intro E; rewrite E in T; discriminate T | ].
      split; [ discriminate | ].
      split; [ intros v' Hv'; injection Hv' as <-; now rewrite T | ].
      auto.
    + split; [ discriminate | ]. split; [ discriminate | ].
      split; [ intros v' Hv'; injection Hv' as <-; now rewrite T | ].
      repeat split; auto.
  - split; [ discriminate | ]. split; [ reflexivity | ].
    split; [ discriminate | ]. repeat split; auto.
Qed.

End RecordProperties.

Lemma parseDate_spec_witness :
  "2026-01-02" <> "" /\
  isValidDate (Date_ofString (Host := UTC.host) "2026-01-02") = true /\
  parseDate (host := UTC.host) "2026-01-02" = Some (mkDate (Some 1767312000000)).
Proof.
  assert (Hne : "2026-01-02" <> "") by discriminate.
  split; [ exact Hne | ]. split; [ reflexivity | ].
  destruct (parseDate_spec (host := UTC.host) "2026-01-02") as (_ & _ & direct).
  rewrite (direct Hne eq_refl). reflexivity.
Defined.

Lemma parseRow_date_witness :
  parseRow (host := UTC.host) groceryRow allColumns [] = Some groceryRecord /\
  isValidDate (Transaction.date groceryRecord) = true.
Proof.
  split; [ reflexivity | ].
  destruct (parseRow_date (host := UTC.host) groceryRow allColumns [] groceryRecord eq_refl)
    as (_ & v & Hcell & Hv).
  change (cellAt groceryRow (ColumnMap.date allColumns)) with (text "2026-01-02") in Hcell.
  injection Hcell as <-. exact (proj1 Hv).
Defined.

Lemma parseRow_category_witness :
  parseRow (host := UTC.host) groceryRow allColumns [] = Some groceryRecord /\
  Transaction.category groceryRecord <> "".
Proof.
  split; [ reflexivity | ].
  exact (proj1 (parseRow_category (host := UTC.host) groceryRow allColumns []
                  groceryRecord eq_refl)).
Defined.

(** ** Date patterns *)

Lemma isDigit_not_sep (sep c : ascii) :
  JS.isDigit sep = false -> JS.isDigit c = true -> Ascii.eqb c sep = false.
Proof.
  intros Hsep Hc. destruct (Ascii.eqb_spec c sep) as [ -> | ]; [ congruence | reflexivity ].
Qed.

Lemma splitOn_digits (sep : ascii) (a : string) :
  JS.isDigit sep = false -> JS.allDigits a = true -> JS.splitOn sep a = [a].
Proof.
  intro Hsep. induction a as [ | c a IH ]; simpl; [ reflexivity | ].
  intro H. apply andb_prop in H. destruct H as [ Hc Ha ].
  rewrite (isDigit_not_sep sep c Hsep Hc), (IH Ha). reflexivity.
Qed.

Lemma splitOn_digits_then (sep : ascii) (a rest : string) :
  JS.isDigit sep = false -> JS.allDigits a = true ->
  JS.splitOn sep (a ++ String sep rest) = a :: JS.splitOn sep rest.
Proof.
  intro Hsep. induction a as [ | c a IH ]; simpl.
  - intros _. now rewrite Ascii.eqb_refl.
  - intro H. apply andb_prop in H. destruct H as [ Hc Ha ].
    rewrite (isDigit_not_sep sep c Hsep Hc), (IH Ha). reflexivity.
Qed.

Lemma splitOn_three (sep : ascii) (a b c : string) :
  JS.isDigit sep = false ->
  JS.allDigits a = true -> JS.allDigits b = true -> JS.allDigits c = true ->
  JS.splitOn sep (a ++ String sep (b ++ String sep c)) = [a; b; c].
Proof.
  intros Hsep Ha Hb Hc.
  now rewrite !splitOn_digits_then, splitOn_digits.
Qed.

Lemma splitOn_absent (sep : ascii) (s : string) :
  hasChar sep s = false -> JS.splitOn sep s = [s].
Proof.
  induction s as [ | c s IH ]; simpl; [ reflexivity | ].
  intro H. apply orb_false_elim in H. destruct H as [ Hc Hs ].
  rewrite Hc, (IH Hs). reflexivity.
Qed.

Lemma hasChar_digits (sep : ascii) (a : string) :
  JS.isDigit sep = false -> JS.allDigits a = true -> hasChar sep a = false.
Proof.
  intro Hsep. induction a as [ | c a IH ]; simpl; [ reflexivity | ].
  intro H. apply andb_prop in H. destruct H as [ Hc Ha ].
  now rewrite (isDigit_not_sep sep c Hsep Hc), (IH Ha).
Qed.

Lemma hasChar_app (sep : ascii) (a b : string) :
  hasChar sep (a ++ b) = hasChar sep a || hasChar sep b.
Proof.
  induction a as [ | c a IH ]; simpl; [ reflexivity | ].
  now rewrite IH, orb_assoc.
Qed.

Lemma fits_digits (w : Width) (s : string) : fits w s = true -> JS.allDigits s = true.
Proof. unfold fits. intro H. now apply andb_prop in H. Qed.

Section DatePatterns.

Context {host : Host}.

(** X8: a text of the shape [a/b/c] or [a-b-c], with one or two digits,
    one or two digits and four digits, that the host does not read as a date
    on its own, is read by [parseDate] with [a] as the month, [b] as the day
    and [c] as the year, whatever the numbers are: the day-first reading is
    never tried. *)
Theorem parseDate_month_first (sep : ascii) (a b c : string) :
  sep = "/"%char \/ sep = "-"%char ->
  fits OneOrTwo a = true -> fits OneOrTwo b = true -> fits Four c = true ->
  let dateStr := a ++ String sep (b ++ String sep c) in
  let monthFirst := Date_ofFields (JS.parseInt c) (JS.parseInt a - 1) (JS.parseInt b) in
  isValidDate (Date_ofString dateStr) = false ->
  isValidDate monthFirst = true ->
  parseDate dateStr = Some monthFirst.
Proof.
  intros Hsep Fa Fb Fc dateStr monthFirst Hdirect Hvalid.
  pose proof (fits_digits _ _ Fa) as Da.
  pose proof (fits_digits _ _ Fb) as Db.
  pose proof (fits_digits _ _ Fc) as Dc.
  assert (La : (String.length a =? 4)%nat = false).
  { unfold fits in Fa. apply andb_prop in Fa. destruct Fa as [ _ Fa ].
    apply andb_prop in Fa. destruct Fa as [ _ Fa ].
    apply Nat.leb_le in Fa. apply Nat.eqb_neq. lia. }
  assert (Hne : JS.truthy dateStr = true).
  { unfold dateStr. destruct a as [ | x a ]; [ discriminate Fa | reflexivity ]. }
  unfold parseDate. rewrite Hne, Hdirect. simpl negb. cbv iota.
  destruct Hsep as [ -> | -> ].
  - unfold formats, tryFormats, matchFormat. cbn [separator first second third].
    unfold dateStr. rewrite splitOn_three by (reflexivity || assumption).
    rewrite Fa, Fb, Fc. cbn [andb]. rewrite La. fold monthFirst. now rewrite Hvalid.
  - assert (noSlash : hasChar "/" dateStr = false).
    { unfold dateStr. rewrite hasChar_app. simpl. rewrite hasChar_app. simpl.
      now rewrite !hasChar_digits. }
    unfold formats. cbn [tryFormats]. unfold matchFormat at 1.
    cbn [separator]. rewrite (splitOn_absent "/" dateStr noSlash).
    unfold matchFormat. cbn [separator first second third].
    unfold dateStr. rewrite splitOn_three by (reflexivity || assumption).
    rewrite Fa, Fb, Fc. cbn [andb]. rewrite La. fold monthFirst. now rewrite Hvalid.
Qed.

End DatePatterns.

(** On the reference host, which reads no text of this shape on its own,
    the 25th of December written day first becomes the 12th day of the 25th
    month of 2026, that is the 12th of January 2028. *)
Lemma parseDate_month_first_witness :
  parseDate (host := UTC.host) "25/12/2026" = Some (UTC.ofFields 2026 24 12) /\
  UTC.dateToString (UTC.ofFields 2026 24 12)
  = "Wed Jan 12 2028 00:00:00 GMT+0000 (Coordinated Universal Time)".
Proof.
  split; [ | reflexivity ].
  apply (parseDate_month_first (host := UTC.host) "/" "25" "12" "2026");
    first [ now left | reflexivity ].
Defined.

(** ** File type and upload *)

Lemma lastIndexOfFrom_absent (c : ascii) (s : string) :
  hasChar c s = false -> forall i found, JS.lastIndexOfFrom c s i found = found.
Proof.
  induction s as [ | d s IH ]; simpl; [ reflexivity | ].
  intros H i found. apply orb_false_elim in H. destruct H as [ Hd Hs ].
  rewrite Hd. now apply IH.
Qed.

Lemma lastIndexOfFrom_last (c : ascii) (stem ext : string) :
  hasChar c ext = false ->
  forall i found,
    JS.lastIndexOfFrom c (stem ++ String c ext) i found = i + Z.of_nat (String.length stem).
Proof.
  intro Hext. induction stem as [ | d stem IH ]; intros i found; simpl String.append.
  - simpl. rewrite Ascii.eqb_refl, (lastIndexOfFrom_absent c ext Hext). lia.
  - cbn [JS.lastIndexOfFrom]. rewrite IH. simpl String.length. lia.
Qed.

Lemma toLowerCase_app (a b : string) :
  JS.toLowerCase (a ++ b) = JS.toLowerCase a ++ JS.toLowerCase b.
Proof. induction a as [ | c a IH ]; simpl; [ reflexivity | now rewrite IH ]. Qed.

Lemma toLowerCase_length (a : string) :
  String.length (JS.toLowerCase a) = String.length a.
Proof. induction a as [ | c a IH ]; simpl; [ reflexivity | now rewrite IH ]. Qed.

Lemma dropChars_app (a b : string) : JS.dropChars (String.length a) (a ++ b) = b.
Proof. induction a as [ | c a IH ]; simpl; [ now destruct b | exact IH ]. Qed.

Lemma slice_app (a b : string) : JS.slice (Z.of_nat (String.length a)) (a ++ b) = b.
Proof.
  unfold JS.slice.
  replace (Z.of_nat (String.length a) <? 0) with false by (symmetry; apply Z.ltb_ge; lia).
  rewrite Nat2Z.id. apply dropChars_app.
Qed.

(** X9: for a file whose name is made of ASCII characters and whose MIME
    type is not one of the four spreadsheet types, [isValidExcelFile] looks
    at the text from the last dot of the name on, without regard to letter
    case: a name [stem.ext] is accepted exactly when [.ext], lower-cased, is
    [.xlsx], [.xls] or [.xlsm].  A file whose MIME type is one of the four
    is accepted whatever its name. *)
Theorem isValidExcelFile_extension (stem ext mime : string) (content : FileContent) :
  isASCII (stem ++ String "." ext) = true ->
  hasChar "." ext = false ->
  isValidExcelFile (File.Build (stem ++ String "." ext) mime content)
  = arrayIncludes validTypes mime
    || arrayIncludes validExtensions (String "." (JS.toLowerCase ext)) /\
  (arrayIncludes validTypes mime = true ->
   forall name, isValidExcelFile (File.Build name mime content) = true).
Proof.
  intros _ Hext. split.
  - unfold isValidExcelFile. cbn [File.name File.type]. f_equal. f_equal.
    unfold JS.lastIndexOf. rewrite (lastIndexOfFrom_last "." stem ext Hext). simpl Z.add.
    rewrite toLowerCase_app, <- (toLowerCase_length stem). apply slice_app.
  - intros Hmime name. unfold isValidExcelFile. cbn [File.name File.type].
    now rewrite Hmime.
Qed.

Lemma isValidExcelFile_extension_witness :
  isASCII "Budget.2026.XLSX" = true /\
  hasChar "." "XLSX" = false /\
  isValidExcelFile (File.Build "Budget.2026.XLSX" "" Unreadable) = true /\
  isValidExcelFile (File.Build "budget.xlsx.txt" "text/plain" Unreadable) = false.
Proof.
  split; [ reflexivity | ]. split; [ reflexivity | ]. split.
  - etransitivity;
      [ exact (proj1 (isValidExcelFile_extension "Budget.2026" "XLSX" "" Unreadable
                        eq_refl eq_refl)) | ].
    reflexivity.
  - etransitivity;
      [ exact (proj1 (isValidExcelFile_extension "budget.xlsx" "txt" "text/plain"
                        Unreadable eq_refl eq_refl)) | ].
    reflexivity.
Defined.

Section UploadOutcome.

Context {host : Host}.

(** With callbacks that return, [handleFileWith] is [handleFile]. *)
Lemma handleFileWith_returning (file : File.t) (onFileLoaded onError : bool) :
  handleFileWith file (if onFileLoaded then Some (fun _ => None) else None) onError
  = handleFile file onFileLoaded onError.
Proof.
  unfold handleFileWith, handleFile.
  destruct (tryHandleFile file) as [ effects [ message | result ] ];
    [ reflexivity | now destruct onFileLoaded ].
Qed.

(** X10: one call of [handleFile] with both callbacks supplied reads the
    file at most once, and not at all when the file type is not accepted.
    [onFileLoaded] is called at most once, with the result of
    [parseExcelFile], which then holds at least one record.  The call ends
    in exactly one of two ways: [onFileLoaded] was called and has returned,
    and nothing else happens; or the upload zone is restored and [onError]
    receives one message, which is the message of the error [onFileLoaded]
    has thrown when it was called. *)
Theorem handleFile_outcome (file : File.t) (onFileLoaded : ParseResult -> option string) :
  let trace := handleFileWith file (Some onFileLoaded) true in
  reads trace = (if isValidExcelFile file then 1 else 0)%nat /\
  (forall result,
      In result (loaded trace) ->
      loaded trace = [result] /\
      parseExcelFile file = inr result /\
      result_transactions result <> []) /\
  ((exists result,
       trace = [ShowProcessing (File.name file); ReadFile (File.name file);
                OnFileLoaded result] /\
       onFileLoaded result = None) \/
   (exists message,
       errors trace = [message] /\
       In RestoreUploadZone trace /\
       (isValidExcelFile file = false -> message = invalidTypeMessage) /\
       (forall result, In result (loaded trace) -> onFileLoaded result = Some message))).
Proof.
  unfold handleFileWith, tryHandleFile.
  destruct (isValidExcelFile file) eqn:V; cbn [negb].
  - destruct (parseExcelFile file) as [ message | result ] eqn:E.
    + split; [ reflexivity | ]. split; [ intros result [] | right ].
      exists message. simpl. split; [ reflexivity | ]. split; [ auto | ].
      split; [ discriminate | intros result [] ].
    + destruct (result_transactions result) as [ | t rest ] eqn:T; cbn [length Nat.eqb].
      * split; [ reflexivity | ]. split; [ intros r [] | right ].
        exists noTransactionsMessage. simpl. split; [ reflexivity | ].
        split; [ auto | ]. split; [ discriminate | intros r [] ].
      * destruct (onFileLoaded result) as [ message | ] eqn:C; simpl.
        -- split; [ reflexivity | ]. split.
           ++ intros r [ <- | [] ]. split; [ reflexivity | ].
              split; [ reflexivity | rewrite T; discriminate ].
           ++ right. exists message. split; [ reflexivity | ]. split; [ auto | ].
              split; [ discriminate | ]. intros r [ <- | [] ]. exact C.
        -- split; [ reflexivity | ]. split.
           ++ intros r [ <- | [] ]. split; [ reflexivity | ].
              split; [ reflexivity | rewrite T; discriminate ].
           ++ left. exists result. split; [ reflexivity | exact C ].
  - split; [ reflexivity | ]. split; [ intros result [] | right ].
    exists invalidTypeMessage. simpl. split; [ reflexivity | ]. split; [ auto | ].
    split; [ reflexivity | intros result [] ].
Qed.

End UploadOutcome.

(** The sample template with a callback that throws: [onFileLoaded] is
    called, then the upload zone is restored and [onError] is called. *)
Example handleFile_throwing_callback :
  exists result,
    handleFileWith (host := UTC.host) templateFile (Some throwing) true
    = [ShowProcessing "finance_template.xlsx"; ReadFile "finance_template.xlsx";
       OnFileLoaded result; RestoreUploadZone;
       OnError "Cannot read properties of undefined"].
Proof. eexists. vm_compute. reflexivity. Qed.

(** ** Totals *)

Lemma sumAbs_fold (l : list Transaction.t) :
  forall start : Q,
    (fold_left (fun sum t => sum + Qabs (Transaction.amount t)) l start
     == start + sumAbs l)%Q.
Proof.
  unfold sumAbs. induction l as [ | t l IH ]; intro start; simpl.
  - ring.
  - rewrite (IH (start + _)%Q), (IH (0 + _)%Q). ring.
Qed.

Lemma sumAbs_cons (t : Transaction.t) (l : list Transaction.t) :
  (sumAbs (t :: l) == Qabs (Transaction.amount t) + sumAbs l)%Q.
Proof. unfold sumAbs at 1. simpl. rewrite sumAbs_fold. ring. Qed.


(** ** Monthly totals, month by month *)

Lemma lookupMonth_app (key : string) (data : MonthlyData) (entry : MonthTotal) :
  lookupMonth key (data ++ [entry])%list =
  match lookupMonth key data with
  | Some found => Some found
  | None => if String.eqb (month entry) key then Some entry else None
  end.
Proof.
  induction data as [ | e rest IH ]; simpl; [ reflexivity | ].
  destruct (String.eqb (month e) key); [ reflexivity | exact IH ].
Qed.

Lemma lookupMonth_ensureMonth (key k : string) (data : MonthlyData) :
  lookupMonth k (ensureMonth key data) =
  match lookupMonth k data with
  | Some found => Some found
  | None => if String.eqb key k then Some (mkMonthTotal 0 0 key) else None
  end.
Proof.
  unfold ensureMonth. destruct (lookupMonth key data) as [ e | ] eqn:L.
  - destruct (lookupMonth k data) eqn:L'; [ reflexivity | ].
    destruct (String.eqb_spec key k) as [ E | E ]; [ congruence | reflexivity ].
  - apply lookupMonth_app.
Qed.

Lemma lookupMonth_adjustMonth (key k : string) (f : MonthTotal -> MonthTotal)
    (data : MonthlyData) :
  (forall e, month (f e) = month e) ->
  lookupMonth k (adjustMonth key f data) =
  if String.eqb key k then option_map f (lookupMonth k data) else lookupMonth k data.
Proof.
  intro Hf. induction data as [ | e rest IH ]; simpl.
  - now destruct (String.eqb key k).
  - destruct (String.eqb_spec (month e) key) as [ E | E ]; simpl.
    + rewrite Hf. subst key. now destruct (String.eqb (month e) k).
    + rewrite IH. destruct (String.eqb_spec (month e) k) as [ E' | E' ]; [ | reflexivity ].
      destruct (String.eqb_spec key k) as [ E'' | E'' ]; [ congruence | reflexivity ].
Qed.

Lemma lookupMonth_In (data : MonthlyData) (e : MonthTotal) :
  NoDup (map month data) -> In e data -> lookupMonth (month e) data = Some e.
Proof.
  induction data as [ | d rest IH ]; simpl; intro N; [ intros [] | intros [ <- | H ] ].
  - now rewrite String.eqb_refl.
  - inversion N as [ | ? ? Hd Hrest ]; subst.
    destruct (String.eqb_spec (month d) (month e)) as [ E | E ]; [ | now apply IH ].
    contradiction Hd. rewrite E. now apply in_map.
Qed.

Section MonthlySums.

Context {host : Host}.

(** What one record does to the entry of a month. *)
Lemma lookupMonth_addToMonth (key : string) (data : MonthlyData) (t : Transaction.t) :
  lookupMonth key (addToMonth data t) =
  if ofMonth key t
  then
    let entry := match lookupMonth key data with
                 | Some found => found
                 | None => mkMonthTotal 0 0 (monthKeyOf (Transaction.date t))
                 end in
    Some (if lowerIncome t then addIncome (Qabs (Transaction.amount t)) entry
          else addExpenses (Qabs (Transaction.amount t)) entry)
  else lookupMonth key data.
Proof.
  unfold addToMonth, ofMonth, lowerIncome. cbv zeta.
  set (k := monthKeyOf (Transaction.date t)).
  destruct (String.eqb (JS.toLowerCase (Transaction.type t)) "income");
    (rewrite lookupMonth_adjustMonth by reflexivity);
    rewrite lookupMonth_ensureMonth;
    destruct (String.eqb k key); destruct (lookupMonth key data); reflexivity.
Qed.

(** The entry of a month after the records of [l]: the amounts of the
    records of that month are added one after the other, in the order of
    the list, to what the entry held. *)
Lemma lookupMonth_fold (key : string) (l : list Transaction.t) :
  forall data : MonthlyData,
    lookupMonth key (fold_left addToMonth l data) =
    let incomes := filter (fun t => ofMonth key t && lowerIncome t) l in
    let others := filter (fun t => ofMonth key t && negb (lowerIncome t)) l in
    let add := fun (sum : Q) (t : Transaction.t) =>
                 (sum + Qabs (Transaction.amount t))%Q in
    match lookupMonth key data with
    | Some e =>
        Some (mkMonthTotal (fold_left add incomes (income e))
                           (fold_left add others (expenses e)) (month e))
    | None =>
        match filter (ofMonth key) l with
        | [] => None
        | t :: _ =>
            Some (mkMonthTotal (fold_left add incomes 0%Q) (fold_left add others 0%Q)
                               (monthKeyOf (Transaction.date t)))
        end
    end.
Proof.
  induction l as [ | t l IH ]; intro data; cbv zeta.
  - simpl. destruct (lookupMonth key data) as [ [ i e m ] | ]; reflexivity.
  - cbn [fold_left]. rewrite IH. cbv zeta. rewrite lookupMonth_addToMonth.
    cbn [filter]. destruct (ofMonth key t) eqn:M; cbn [andb]; [ | reflexivity ].
    destruct (lowerIncome t); cbn [negb]; destruct (lookupMonth key data); reflexivity.
Qed.

(** X13: [calculateByMonth] loses and invents nothing, month by month:
    every entry stands for at least one record of its month; its income is
    the sum, taken in list order from 0, of the absolute amounts of the
    records of that month whose lower-cased type is "income", and its
    expenses the sum of the absolute amounts of all the other records of
    that month, whatever their type says. *)
Theorem calculateByMonth_sums (transactions : list Transaction.t) (e : MonthTotal) :
  In e (calculateByMonth transactions) ->
  (exists t, In t transactions /\ monthKeyOf (Transaction.date t) = month e) /\
  income e
  = sumAbs (filter (fun t => ofMonth (month e) t && lowerIncome t) transactions) /\
  expenses e
  = sumAbs (filter (fun t => ofMonth (month e) t && negb (lowerIncome t)) transactions).
Proof.
  unfold calculateByMonth. intro H.
  set (byKey := fun a b : MonthTotal => localeCompare (month a) (month b)) in H.
  apply (Permutation_in _ (sortBy_Permutation MonthTotal byKey _)) in H.
  apply lookupMonth_In in H; [ | apply monthlyData_NoDup; constructor ].
  rewrite lookupMonth_fold in H. cbv zeta in H. simpl lookupMonth in H.
  destruct (filter (ofMonth (month e)) transactions) as [ | t rest ] eqn:F;
    [ discriminate H | ].
  injection H as H.
  pose proof (f_equal income H) as Hi. pose proof (f_equal expenses H) as He.
  pose proof (f_equal month H) as Hm. cbn [income expenses month] in Hi, He, Hm.
  split; [ | split; [ symmetry; exact Hi | symmetry; exact He ] ].
  exists t. split; [ | exact Hm ].
  assert (Ht : In t (t :: rest)) by now left.
  rewrite <- F in Ht. now apply filter_In in Ht.
Qed.

End MonthlySums.

Lemma calculateByMonth_sums_witness :
  In (mkMonthTotal (0 + Qabs (inject_Z 1000)) (0 + Qabs (inject_Z 400)) "2026-01")
     (calculateByMonth (host := UTC.host) [income1000; expense400]) /\
  sumAbs (filter (fun t => ofMonth (host := UTC.host) "2026-01" t && lowerIncome t)
                 [income1000; expense400])
  = (0 + Qabs (inject_Z 1000))%Q.
Proof.
  assert (H : In (mkMonthTotal (0 + Qabs (inject_Z 1000)) (0 + Qabs (inject_Z 400))
                    "2026-01")
                 (calculateByMonth (host := UTC.host) [income1000; expense400])).
  { assert (E : calculateByMonth (host := UTC.host) [income1000; expense400]
                = [mkMonthTotal (0 + Qabs (inject_Z 1000)) (0 + Qabs (inject_Z 400))
                     "2026-01"]) by (vm_compute; reflexivity).
    rewrite E. now left. }
  split; [ exact H | ].
  symmetry. exact (proj1 (proj2 (calculateByMonth_sums (host := UTC.host) _ _ H))).
Defined.

(** ** Totals by category *)

Lemma orZero_eq (x : option Q) :
  (orZero x == match x with Some q => q | None => 0 end)%Q.
Proof.
  destruct x as [ q | ]; simpl; [ | reflexivity ].
  destruct (Qeq_bool q 0) eqn:E; [ | reflexivity ].
  apply Qeq_bool_iff in E. now rewrite E.
Qed.

Lemma lookupTotal_None (key : string) (acc : Totals) :
  lookupTotal key acc = None <-> ~ In key (map fst acc).
Proof.
  induction acc as [ | [ k v ] rest IH ]; simpl.
  - split; [ intros _ [] | reflexivity ].
  - destruct (String.eqb_spec k key) as [ E | E ].
    + split; [ discriminate | ]. intro H. contradiction H. now left.
    + rewrite IH. split.
      * intros H [ H' | H' ]; contradiction.
      * intros H H'. apply H. now right.
Qed.

Lemma setTotal_keys (key : string) (value : Q) (acc : Totals) :
  map fst (setTotal key value acc) =
  match lookupTotal key acc with
  | Some _ => map fst acc
  | None => (map fst acc ++ [key])%list
  end.
Proof.
  induction acc as [ | [ k v ] rest IH ]; simpl; [ reflexivity | ].
  destruct (String.eqb_spec k key) as [ E | E ]; simpl; [ reflexivity | ].
  rewrite IH. now destruct (lookupTotal key rest).
Qed.

Lemma lookupTotal_setTotal (key key' : string) (value : Q) (acc : Totals) :
  lookupTotal key' (setTotal key value acc) =
  if String.eqb key key' then Some value else lookupTotal key' acc.
Proof.
  induction acc as [ | [ k v ] rest IH ]; simpl.
  - now destruct (String.eqb_spec key key').
  - destruct (String.eqb_spec k key) as [ E | E ]; simpl.
    + subst k. now destruct (String.eqb_spec key key').
    + rewrite IH. destruct (String.eqb_spec k key') as [ E' | E' ]; [ | reflexivity ].
      subst k. destruct (String.eqb_spec key key'); [ congruence | reflexivity ].
Qed.

Lemma addToCategory_own (acc : Totals) (t : Transaction.t) :
  ownCategory t ->
  addToCategory (Some acc) t =
  Some (setTotal (categoryOf t)
          (orZero (lookupTotal (categoryOf t) acc) + Qabs (Transaction.amount t))%Q acc).
Proof.
  unfold ownCategory, inheritedNames. intro H.
  change (String.eqb (categoryOf t) "__proto__"
          || arrayIncludes inheritedFunctions (categoryOf t) = false) in H.
  apply orb_false_elim in H. destruct H as [ P F ].
  unfold addToCategory. cbv zeta. now rewrite P, F.
Qed.

(** What the reduction of [calculateByCategory] has built from an
    accumulator [acc] after records with own categories. *)
Lemma addToCategory_fold (l : list Transaction.t) :
  Forall ownCategory l ->
  forall acc : Totals,
    NoDup (map fst acc) ->
    exists acc' : Totals,
      fold_left addToCategory l (Some acc) = Some acc' /\
      NoDup (map fst acc') /\
      (forall c, In c (map fst acc') <->
                 In c (map fst acc) \/ exists t, In t l /\ categoryOf t = c) /\
      (forall c, (orZero (lookupTotal c acc')
                  == orZero (lookupTotal c acc)
                     + sumAbs (filter (fun t => String.eqb (categoryOf t) c) l))%Q).
Proof.
  intro Hown. induction Hown as [ | t l Ht Hl IH ]; intros acc Hnodup.
  - exists acc. simpl. split; [ reflexivity | ]. split; [ exact Hnodup | ].
    split.
    + intro c. split; [ now left | ]. intros [ H | (t & [] & _) ]. exact H.
    + intro c. unfold sumAbs. simpl. ring.
  - cbn [fold_left]. rewrite (addToCategory_own acc t Ht).
    set (x := Qabs (Transaction.amount t)).
    set (acc1 := setTotal (categoryOf t) (orZero (lookupTotal (categoryOf t) acc) + x)%Q acc).
    assert (keys1 : forall c, In c (map fst acc1) <-> In c (map fst acc) \/ categoryOf t = c).
    { intro c. unfold acc1. rewrite setTotal_keys.
      destruct (lookupTotal (categoryOf t) acc) as [ v | ] eqn:L.
      - split; [ now left | ]. intros [ H | <- ]; [ exact H | ].
        destruct (in_dec string_dec (categoryOf t) (map fst acc)) as [ I | I ]; [ exact I | ].
        apply lookupTotal_None in I. congruence.
      - rewrite in_app_iff. simpl. tauto. }
    assert (nodup1 : NoDup (map fst acc1)).
    { unfold acc1. rewrite setTotal_keys.
      destruct (lookupTotal (categoryOf t) acc) as [ v | ] eqn:L; [ exact Hnodup | ].
      apply lookupTotal_None in L.
      apply NoDup_app; [ exact Hnodup | repeat constructor; intros [] | ].
      intros k Hk [ <- | [] ]. contradiction. }
    destruct (IH acc1 nodup1) as (acc' & E & Hnd & Hkeys & Hlookup).
    exists acc'. split; [ exact E | ]. split; [ exact Hnd | ]. split.
    + intro c. rewrite Hkeys, keys1. split.
      * intros [ [ H | H ] | (t' & H & H') ]; [ now left | right .. ].
        -- exists t. split; [ now left | exact H ].
        -- exists t'. split; [ now right | exact H' ].
      * intros [ H | (t' & [ <- | H ] & H') ]; [ left; now left | left; now right | right ].
        exists t'. auto.
    + intro c. rewrite Hlookup. unfold acc1. rewrite lookupTotal_setTotal.
      simpl filter. destruct (String.eqb_spec (categoryOf t) c) as [ Ec | Ec ].
      * subst c. rewrite sumAbs_cons. fold x.
        rewrite (orZero_eq (Some _)). ring.
      * ring.
Qed.

Lemma addToCategory_None (l : list Transaction.t) :
  fold_left addToCategory l None = None.
Proof. induction l as [ | t l IH ]; simpl; [ reflexivity | exact IH ]. Qed.

Lemma calculateByCategory_totals (transactions : list Transaction.t) (type : string) :
  let filtered := ofType transactions type in
  Forall ownCategory filtered ->
  exists totals : Totals,
    calculateByCategory transactions type = Some totals /\
    NoDup (map fst totals) /\
    (forall c, In c (map fst totals) <-> exists t, In t filtered /\ categoryOf t = c) /\
    (forall c v,
        lookupTotal c totals = Some v ->
        (v == sumAbs (filter (fun t => String.eqb (categoryOf t) c) filtered))%Q).
Proof.
  intros filtered Hown. unfold calculateByCategory. fold filtered.
  destruct (addToCategory_fold filtered Hown [] (NoDup_nil _))
    as (totals & E & Hnd & Hkeys & Hlookup).
  exists totals. split; [ exact E | ]. split; [ exact Hnd | ]. split.
  - intro c. rewrite Hkeys. simpl. tauto.
  - intros c v L. specialize (Hlookup c). rewrite L, orZero_eq in Hlookup.
    simpl in Hlookup. rewrite Hlookup. ring.
Qed.

(** X15: when no category is the name of an inherited member,
    [calculateByCategory] returns one total for each category that occurs
    among the records of the requested type, "Uncategorized" standing for an
    empty category; each total is the sum, taken in list order from 0, of
    the absolute amounts of the records of that category. *)
Theorem calculateByCategory_spec (transactions : list Transaction.t) (type : string) :
  let filtered := ofType transactions type in
  Forall ownCategory filtered ->
  exists totals : Totals,
    calculateByCategory transactions type = Some totals /\
    NoDup (map fst totals) /\
    (forall c, In c (map fst totals) <-> exists t, In t filtered /\ categoryOf t = c) /\
    (forall c v,
        lookupTotal c totals = Some v ->
        (v == sumAbs (filter (fun t => String.eqb (categoryOf t) c) filtered))%Q).
Proof. exact (calculateByCategory_totals transactions type). Qed.

Lemma calculateByCategory_spec_witness :
  Forall ownCategory (ofType [income1000; expense400; rentExpense] "expense") /\
  exists totals : Totals,
    calculateByCategory [income1000; expense400; rentExpense] "expense" = Some totals /\
    map fst totals = ["Housing"] /\
    (forall v, lookupTotal "Housing" totals = Some v -> (v == inject_Z 1300)%Q).
Proof.
  assert (H : Forall ownCategory (ofType [income1000; expense400; rentExpense] "expense"))
    by (repeat constructor).
  split; [ exact H | ].
  destruct (calculateByCategory_spec [income1000; expense400; rentExpense] "expense" H)
    as (totals & E & _ & _ & S).
  exists totals. split; [ exact E | ]. split.
  - assert (C : option_map (map fst)
                  (calculateByCategory [income1000; expense400; rentExpense] "expense")
                = Some ["Housing"]) by reflexivity.
    rewrite E in C. now injection C.
  - intros v L. rewrite (S _ _ L). reflexivity.
Defined.

(** Records filed under ["__proto__"] leave no trace in the reduction. *)
Lemma addToCategory_notProto (l : list Transaction.t) :
  forall acc : option Totals,
    fold_left addToCategory (filter notProto l) acc = fold_left addToCategory l acc.
Proof.
  induction l as [ | t l IH ]; intro acc; [ reflexivity | ].
  cbn [filter fold_left]. unfold notProto at 1.
  destruct (String.eqb (categoryOf t) "__proto__") eqn:P; cbn [negb].
  - rewrite IH. f_equal. destruct acc as [ acc | ]; [ | reflexivity ].
    unfold addToCategory. now rewrite P.
  - cbn [fold_left]. apply IH.
Qed.

Lemma ofType_filter (p : Transaction.t -> bool) (l : list Transaction.t) (type : string) :
  ofType (filter p l) type = filter p (ofType l type).
Proof.
  unfold ofType. destruct (String.eqb type "all"); [ reflexivity | ].
  induction l as [ | t l IH ]; [ reflexivity | ]. cbn [filter].
  destruct (p t) eqn:P;
    destruct (String.eqb (JS.toLowerCase (Transaction.type t)) (JS.toLowerCase type))
      eqn:T; cbn [filter]; rewrite ?P, ?T, IH; reflexivity.
Qed.

Lemma calculateByCategory_notProto (transactions : list Transaction.t) (type : string) :
  calculateByCategory (filter notProto transactions) type
  = calculateByCategory transactions type.
Proof.
  unfold calculateByCategory. rewrite ofType_filter. apply addToCategory_notProto.
Qed.

(** Totals that are numbers come from records without inherited
    functions among their categories. *)
Lemma addToCategory_numbers (l : list Transaction.t) :
  forall a : option Totals,
    (exists totals, fold_left addToCategory l a = Some totals) ->
    Forall namesNoFunction l.
Proof.
  induction l as [ | t l IH ]; intros a (totals & E).
  - constructor.
  - cbn [fold_left] in E.
    destruct a as [ acc | ]; [ | rewrite addToCategory_None in E; discriminate E ].
    destruct (addToCategory (Some acc) t) as [ acc1 | ] eqn:A;
      [ | rewrite addToCategory_None in E; discriminate E ].
    constructor.
    + unfold addToCategory in A. unfold namesNoFunction.
      destruct (String.eqb_spec (categoryOf t) "__proto__") as [ P | P ];
        [ now rewrite P | ].
      destruct (arrayIncludes inheritedFunctions (categoryOf t));
        [ discriminate A | reflexivity ].
    + apply (IH (Some acc1)). exists totals. exact E.
Qed.

Lemma notProto_own (l : list Transaction.t) :
  Forall namesNoFunction l -> Forall ownCategory (filter notProto l).
Proof.
  intro H. rewrite Forall_forall in *. intros t Ht.
  apply filter_In in Ht. destruct Ht as [ Ht P ].
  unfold ownCategory, inheritedNames.
  change (String.eqb (categoryOf t) "__proto__"
          || arrayIncludes inheritedFunctions (categoryOf t) = false).
  unfold notProto in P. apply negb_true_iff in P. rewrite P.
  exact (H t Ht).
Qed.

(** Without inherited functions among the categories the totals are
    numbers. *)
Lemma calculateByCategory_numbers (transactions : list Transaction.t) (type : string) :
  Forall namesNoFunction (ofType transactions type) ->
  exists totals, calculateByCategory transactions type = Some totals.
Proof.
  intro H. rewrite <- calculateByCategory_notProto.
  destruct (calculateByCategory_totals (filter notProto transactions) type)
    as (totals & E & _); [ | now exists totals ].
  rewrite ofType_filter. now apply notProto_own.
Qed.

(** X16: [calculateByCategory] yields numbers exactly when no record of
    the requested type has a category named like a function every object
    inherits ("constructor", "toString", "valueOf", ...): one such record is
    enough for the totals to stop being numbers.  A record filed under
    "__proto__" is left out instead: the totals are what they are without
    it, and they have no entry "__proto__". *)
Theorem calculateByCategory_inherited (transactions : list Transaction.t) (type : string) :
  ((exists totals, calculateByCategory transactions type = Some totals) <->
   Forall namesNoFunction (ofType transactions type)) /\
  calculateByCategory (filter notProto transactions) type
  = calculateByCategory transactions type /\
  (forall totals,
      calculateByCategory transactions type = Some totals ->
      ~ In "__proto__" (map fst totals)).
Proof.
  split; [ split | split ].
  - apply addToCategory_numbers.
  - apply calculateByCategory_numbers.
  - apply calculateByCategory_notProto.
  - intros totals E.
    assert (N : Forall namesNoFunction (ofType transactions type))
      by (apply (addToCategory_numbers _ (Some [])); now exists totals).
    rewrite <- calculateByCategory_notProto in E.
    destruct (calculateByCategory_totals (filter notProto transactions) type)
      as (totals' & E' & _ & keys & _).
    { rewrite ofType_filter. now apply notProto_own. }
    rewrite E in E'. injection E' as <-.
    intro I. apply keys in I. destruct I as (t & Ht & C).
    rewrite ofType_filter in Ht. apply filter_In in Ht. destruct Ht as [ _ P ].
    unfold notProto in P. rewrite C in P. discriminate P.
Qed.

(** A record filed under the category "constructor" is enough; a record
    filed under "__proto__" is dropped. *)
Example calculateByCategory_constructor :
  calculateByCategory [rentExpense; constructorExpense] "expense" = None /\
  calculateByCategory [rentExpense; protoExpense] "expense"
  = Some [("Housing", (0 + Qabs (inject_Z 900))%Q)].
Proof. split; reflexivity. Qed.

(** ** Category shares and the category chart *)

Lemma partition_Permutation {A : Type} (p : A -> bool) (l : list A) :
  Permutation (filter p l ++ filter (fun x => negb (p x)) l) l.
Proof.
  induction l as [ | x l IH ]; simpl; [ constructor | ].
  destruct (p x); simpl.
  - now constructor.
  - symmetry. apply Permutation_cons_app. now symmetry.
Qed.

Lemma Object_entries_Permutation (o : Totals) : Permutation (Object_entries o) o.
Proof.
  unfold Object_entries.
  rewrite sortBy_Permutation. apply (partition_Permutation (fun e => isArrayIndex (fst e))).
Qed.

Lemma compare_descending (x y : Q) :
  match Qcompare y x with Lt => -1 | Eq => 0 | Gt => 1 end <= 0 <-> (y <= x)%Q.
Proof.
  rewrite Qle_alt. destruct (Qcompare y x); split; intro H; try lia; try discriminate.
  contradiction H. reflexivity.
Qed.

Lemma descending_total (x y : Q) : (y <= x)%Q \/ (x <= y)%Q.
Proof.
  destruct (Qlt_le_dec x y) as [ H | H ]; [ right; now apply Qlt_le_weak | now left ].
Qed.

(** X18: when no expense category is the name of a function every
    object inherits, [getCategoryData] lists the expense categories in
    descending order of their amounts, one entry for each key of the
    category totals with the total as its amount; when the sum of the
    totals is not positive, every percentage is 0. *)
Theorem getCategoryData_spec (transactions : list Transaction.t) :
  Forall namesNoFunction (ofType transactions "expense") ->
  exists (categoryData : Totals) (shares : list CategoryShare),
    calculateByCategory transactions "expense" = Some categoryData /\
    getCategoryData transactions = Some shares /\
    StronglySorted (fun a b => (share_amount b <= share_amount a)%Q) shares /\
    Permutation (map (fun s => (share_category s, share_amount s)) shares) categoryData /\
    (Qlt_bool 0 (sumValues (Object_values categoryData)) = false ->
     Forall (fun s => percentage s = 0%Q) shares).
Proof.
  intro O.
  destruct (calculateByCategory_numbers transactions "expense" O) as (totals & E).
  unfold getCategoryData. rewrite E.
  set (total := sumValues (Object_values totals)).
  set (share := fun e : string * Q =>
                  mkCategoryShare (fst e) (snd e)
                    (if Qlt_bool 0 total then (snd e / total * 100)%Q else 0%Q)).
  set (unsorted := map share (Object_entries totals)).
  pose proof (sortBy_Permutation CategoryShare byAmountDescending unsorted) as P.
  exists totals, (sortBy byAmountDescending unsorted).
  split; [ reflexivity | ]. split; [ reflexivity | ].
  assert (pairs : map (fun s => (share_category s, share_amount s)) unsorted
                  = Object_entries totals).
  { unfold unsorted. rewrite map_map. simpl.
    rewrite <- (map_id (Object_entries totals)) at 2.
    apply map_ext. now intros [ k v ]. }
  split; [ | split ].
  - assert (S : StronglySorted (fun a b => byAmountDescending a b <= 0)
                  (sortBy byAmountDescending unsorted)).
    { apply sortBy_sorted.
      - intros x y. unfold byAmountDescending. rewrite !compare_descending.
        destruct (descending_total (share_amount x) (share_amount y)); [ now left | now right ].
      - intros x y z. unfold byAmountDescending. rewrite !compare_descending.
        intros H1 H2. now apply Qle_trans with (share_amount y). }
    clear P. induction S as [ | a l Hl IH Ha ]; constructor; [ exact IH | ].
    eapply Forall_impl; [ | exact Ha ].
    intros b H. unfold byAmountDescending in H. now apply compare_descending in H.
  - rewrite (Permutation_map _ P), pairs. apply Object_entries_Permutation.
  - intro Hnot. rewrite Forall_forall. intros s Hs.
    apply (Permutation_in _ P) in Hs. unfold unsorted in Hs.
    apply in_map_iff in Hs. destruct Hs as (e & <- & _). unfold share. simpl.
    fold total in Hnot. now rewrite Hnot.
Qed.

Lemma getCategoryData_spec_witness :
  Forall namesNoFunction
    (ofType [income1000; expense400; rentExpense; capitalExpense; protoExpense] "expense") /\
  exists shares : list CategoryShare,
    getCategoryData [income1000; expense400; rentExpense; capitalExpense; protoExpense]
    = Some shares /\
    map share_category shares = ["Housing"; "Food & Dining"].
Proof.
  assert (O : Forall namesNoFunction
                (ofType [income1000; expense400; rentExpense; capitalExpense; protoExpense]
                   "expense"))
    by (repeat constructor).
  split; [ exact O | ].
  destruct (getCategoryData_spec _ O) as (categoryData & shares & E & G & _).
  exists shares. split; [ exact G | ].
  assert (C : option_map (map share_category)
                (getCategoryData
                   [income1000; expense400; rentExpense; capitalExpense; protoExpense])
              = Some ["Housing"; "Food & Dining"]) by reflexivity.
  rewrite G in C. now injection C.
Defined.

Lemma sorted_firstn_skipn {A : Type} (R : A -> A -> Prop) (l : list A) :
  StronglySorted R l ->
  forall (n : nat) (x y : A), In x (firstn n l) -> In y (skipn n l) -> R x y.
Proof.
  intro S. induction S as [ | a l Hl IH Ha ]; intros n x y Hx Hy.
  - destruct n; destruct Hx.
  - destruct n as [ | n ]; [ destruct Hx | ]. simpl in Hx, Hy.
    destruct Hx as [ <- | Hx ].
    + rewrite Forall_forall in Ha. apply Ha.
      rewrite <- (firstn_skipn n l). apply in_or_app. now right.
    + now apply (IH n).
Qed.

Lemma rankedCategories_sorted (categoryData : Totals) :
  StronglySorted (fun a b => (snd b <= snd a)%Q) (rankedCategories categoryData).
Proof.
  unfold rankedCategories.
  assert (S : StronglySorted (fun a b => byValueDescending a b <= 0)
                (sortBy byValueDescending (Object_entries categoryData))).
  { apply sortBy_sorted.
    - intros x y. unfold byValueDescending. rewrite !compare_descending.
      destruct (descending_total (snd x) (snd y)); [ now left | now right ].
    - intros x y z. unfold byValueDescending. rewrite !compare_descending.
      intros H1 H2. now apply Qle_trans with (snd y). }
  induction S as [ | a l Hl IH Ha ]; constructor; [ exact IH | ].
  eapply Forall_impl; [ | exact Ha ].
  intros b H. unfold byValueDescending in H. now apply compare_descending in H.
Qed.

(** X19: when no expense category is the name of a function every object
    inherits, the category chart shows the expense categories with the
    eight largest totals, or all of them when there are fewer: no total
    left out is larger than a total shown; labels, amounts and colours come
    in equal numbers, so every slice has a colour. *)
Theorem categoryChartData_top (transactions : list Transaction.t) :
  Forall namesNoFunction (ofType transactions "expense") ->
  exists (categoryData : Totals) (chart : CategoryChart),
    calculateByCategory transactions "expense" = Some categoryData /\
    categoryChartData transactions = Some chart /\
    length (data chart) = Nat.min 8 (length categoryData) /\
    length (labels chart) = length (data chart) /\
    length (backgroundColor chart) = length (data chart) /\
    Permutation (rankedCategories categoryData) categoryData /\
    combine (labels chart) (data chart) = firstn 8 (rankedCategories categoryData) /\
    (forall shown hidden,
        In shown (data chart) ->
        In hidden (map snd (skipn 8 (rankedCategories categoryData))) ->
        (hidden <= shown)%Q).
Proof.
  intro O.
  destruct (calculateByCategory_numbers transactions "expense" O) as (totals & E).
  unfold categoryChartData. rewrite E.
  assert (P : Permutation (rankedCategories totals) totals).
  { unfold rankedCategories. rewrite sortBy_Permutation. apply Object_entries_Permutation. }
  assert (L : length (map snd (sortedCategories totals)) = Nat.min 8 (length totals)).
  { unfold sortedCategories. rewrite length_map, length_firstn.
    now rewrite (Permutation_length P). }
  eexists totals, _. split; [ reflexivity | ]. split; [ reflexivity | ].
  cbn [labels data backgroundColor].
  split; [ exact L | ]. split; [ now rewrite !length_map | ].
  split; [ rewrite length_firstn, L; simpl length; lia | ].
  split; [ exact P | ]. split.
  - unfold sortedCategories.
    induction (firstn 8 (rankedCategories totals)) as [ | [ k v ] rest IH ]; simpl;
      [ reflexivity | now rewrite IH ].
  - intros shown hidden Hs Hh.
    apply in_map_iff in Hs. destruct Hs as ([ k v ] & <- & Hs).
    apply in_map_iff in Hh. destruct Hh as ([ k' v' ] & <- & Hh).
    exact (sorted_firstn_skipn _ _ (rankedCategories_sorted totals) 8 _ _ Hs Hh).
Qed.

Lemma categoryChartData_top_witness :
  Forall namesNoFunction
    (ofType [income1000; expense400; rentExpense; capitalExpense] "expense") /\
  exists chart : CategoryChart,
    categoryChartData [income1000; expense400; rentExpense; capitalExpense] = Some chart /\
    labels chart = ["Housing"; "Food & Dining"] /\
    length (backgroundColor chart) = 2%nat.
Proof.
  assert (O : Forall namesNoFunction
                (ofType [income1000; expense400; rentExpense; capitalExpense] "expense"))
    by (repeat constructor).
  split; [ exact O | ].
  destruct (categoryChartData_top _ O) as (categoryData & chart & _ & C & _ & Hl & Hc & _).
  exists chart. split; [ exact C | ].
  assert (V : option_map labels
                (categoryChartData [income1000; expense400; rentExpense; capitalExpense])
              = Some ["Housing"; "Food & Dining"]) by reflexivity.
  rewrite C in V. injection V as V.
  split; [ exact V | ].
  rewrite Hc, <- Hl, V. reflexivity.
Defined.

(** ** Unique categories *)

Lemma arrayIncludes_In (l : list string) (s : string) :
  arrayIncludes l s = true <-> In s l.
Proof.
  unfold arrayIncludes. rewrite existsb_exists. split.
  - intros (x & Hx & E). apply String.eqb_eq in E. now subst x.
  - intro H. exists s. split; [ exact H | apply String.eqb_refl ].
Qed.

Lemma newSet_fold (l : list string) :
  forall set : list string,
    NoDup set ->
    let result :=
      fold_left (fun set x => if arrayIncludes set x then set else (set ++ [x])%list) l set in
    NoDup result /\ (forall x, In x result <-> In x set \/ In x l).
Proof.
  induction l as [ | y l IH ]; intros set Hset; simpl.
  - split; [ exact Hset | ]. intro x. tauto.
  - destruct (arrayIncludes set y) eqn:I.
    + destruct (IH set Hset) as [ N M ]. split; [ exact N | ].
      intro x. rewrite M. apply arrayIncludes_In in I.
      split; [ tauto | ]. intros [ H | [ <- | H ] ]; auto.
    + assert (Hy : ~ In y set).
      { intro H. apply arrayIncludes_In in H. congruence. }
      assert (Hset' : NoDup (set ++ [y])).
      { apply NoDup_app; [ exact Hset | repeat constructor; intros [] | ].
        intros k Hk [ <- | [] ]. contradiction. }
      destruct (IH (set ++ [y])%list Hset') as [ N M ]. split; [ exact N | ].
      intro x. rewrite M, in_app_iff. simpl. tauto.
Qed.

Lemma defaultCompare_le (a b : string) : defaultCompare a b <= 0 <-> keyLe a b.
Proof.
  unfold defaultCompare, keyLe, String.leb.
  destruct (String.compare a b); split; intro H; try reflexivity; try lia; discriminate H.
Qed.

Lemma categoryOf_nonempty (t : Transaction.t) : categoryOf t <> "".
Proof.
  unfold categoryOf, JS.orElse.
  destruct (Transaction.category t); simpl; discriminate.
Qed.

(** X20: [getUniqueCategories] returns every category of the records
    once, "Uncategorized" standing for an empty category, in ascending
    order of the character codes; the empty string is never among them. *)
Theorem getUniqueCategories_spec (transactions : list Transaction.t) :
  StronglySorted keyLe (getUniqueCategories transactions) /\
  NoDup (getUniqueCategories transactions) /\
  (forall c, In c (getUniqueCategories transactions) <->
             exists t, In t transactions /\ categoryOf t = c) /\
  ~ In "" (getUniqueCategories transactions).
Proof.
  unfold getUniqueCategories, newSet.
  set (set := fold_left _ (map categoryOf transactions) []).
  destruct (newSet_fold (map categoryOf transactions) [] (NoDup_nil _)) as [ N M ].
  fold set in N, M.
  pose proof (sortBy_Permutation string defaultCompare set) as P.
  assert (members : forall c, In c (sortBy defaultCompare set) <->
                              exists t, In t transactions /\ categoryOf t = c).
  { intro c. split.
    - intro H. apply (Permutation_in _ P) in H. apply M in H.
      destruct H as [ [] | H ]. apply in_map_iff in H.
      destruct H as (t & E & Ht). eauto.
    - intros (t & Ht & E). apply (Permutation_in _ (Permutation_sym P)).
      apply M. right. apply in_map_iff. eauto. }
  split; [ | split; [ | split ] ].
  - assert (S : StronglySorted (fun a b => defaultCompare a b <= 0)
                  (sortBy defaultCompare set)).
    { apply sortBy_sorted.
      - intros x y. rewrite !defaultCompare_le. apply String.leb_total.
      - intros x y z. rewrite !defaultCompare_le. apply keyLe_trans. }
    clear P members. induction S as [ | a l Hl IH Ha ]; constructor; [ exact IH | ].
    eapply Forall_impl; [ | exact Ha ]. intros b H. now apply defaultCompare_le.
  - exact (Permutation_NoDup (Permutation_sym P) N).
  - exact members.
  - intro H. apply members in H. destruct H as (t & _ & E).
    exact (categoryOf_nonempty t E).
Qed.

(** ** Date range *)

Lemma Math_min_valid (xs : list (option Z)) :
  forall x : option Z,
    timeInRange x -> Forall timeInRange xs ->
    exists lo : Z,
      Math_min x xs = Some lo /\ Z.abs lo <= 8640000000000000 /\
      In (Some lo) (x :: xs) /\
      Forall (fun y => exists b, y = Some b /\ lo <= b) (x :: xs).
Proof.
  induction xs as [ | y rest IH ]; intros x (a & -> & Ha) Hxs.
  - exists a. simpl. repeat split; auto. constructor; [ | constructor ].
    exists a. split; [ reflexivity | lia ].
  - inversion Hxs as [ | ? ? Hy Hrest ]; subst.
    destruct (IH y Hy Hrest) as (lo & E & Hlo & Hin & Hall).
    exists (Z.min a lo). simpl Math_min. rewrite E.
    split; [ reflexivity | ]. split; [ lia | ]. split.
    + destruct (Z.min_spec a lo) as [ [ _ -> ] | [ _ -> ] ]; [ now left | now right ].
    + constructor; [ exists a; split; [ reflexivity | lia ] | ].
      eapply Forall_impl; [ | exact Hall ].
      intros z (b & -> & Hb). exists b. split; [ reflexivity | lia ].
Qed.

Lemma Math_max_valid (xs : list (option Z)) :
  forall x : option Z,
    timeInRange x -> Forall timeInRange xs ->
    exists hi : Z,
      Math_max x xs = Some hi /\ Z.abs hi <= 8640000000000000 /\
      In (Some hi) (x :: xs) /\
      Forall (fun y => exists b, y = Some b /\ b <= hi) (x :: xs).
Proof.
  induction xs as [ | y rest IH ]; intros x (a & -> & Ha) Hxs.
  - exists a. simpl. repeat split; auto. constructor; [ | constructor ].
    exists a. split; [ reflexivity | lia ].
  - inversion Hxs as [ | ? ? Hy Hrest ]; subst.
    destruct (IH y Hy Hrest) as (hi & E & Hhi & Hin & Hall).
    exists (Z.max a hi). simpl Math_max. rewrite E.
    split; [ reflexivity | ]. split; [ lia | ]. split.
    + destruct (Z.max_spec a hi) as [ [ _ -> ] | [ _ -> ] ]; [ now right | now left ].
    + constructor; [ exists a; split; [ reflexivity | lia ] | ].
      eapply Forall_impl; [ | exact Hall ].
      intros z (b & -> & Hb). exists b. split; [ reflexivity | lia ].
Qed.

Lemma Math_min_NaN (xs : list (option Z)) :
  forall x : option Z, In None (x :: xs) -> Math_min x xs = None.
Proof.
  induction xs as [ | y rest IH ]; intros x H.
  - destruct H as [ -> | [] ]. reflexivity.
  - simpl. destruct H as [ -> | H ]; [ reflexivity | ].
    rewrite (IH y H). now destruct x.
Qed.

Lemma Math_max_NaN (xs : list (option Z)) :
  forall x : option Z, In None (x :: xs) -> Math_max x xs = None.
Proof.
  induction xs as [ | y rest IH ]; intros x H.
  - destruct H as [ -> | [] ]. reflexivity.
  - simpl. destruct H as [ -> | H ]; [ reflexivity | ].
    rewrite (IH y H). now destruct x.
Qed.

Lemma filter_all {A : Type} (p : A -> bool) (l : list A) :
  Forall (fun x => p x = true) l -> filter p l = l.
Proof.
  intro H. induction H as [ | x l Hx Hl IH ]; simpl; [ reflexivity | ].
  now rewrite Hx, IH.
Qed.

Lemma Date_ofNumber_inRange (t : Z) :
  Z.abs t <= 8640000000000000 -> Date_ofNumber (Some t) = mkDate (Some t).
Proof.
  intro H. unfold Date_ofNumber.
  destruct (Z.abs t <=? 8640000000000000) eqn:E; [ reflexivity | ].
  apply Z.leb_gt in E. lia.
Qed.

(** X21: for a non-empty list of records with valid dates that is not
    longer than the number of arguments the engine accepts in one call,
    [getDateRange] returns the earliest and the latest of their dates: both
    are dates of records, every record lies between them, and filtering the
    records by this range keeps all of them.  For a longer list the call
    throws a [RangeError].  For the empty list it returns
    [{ min: null, max: null }]. *)
Theorem getDateRange_spec (maxArguments : nat) (transactions : list Transaction.t) :
  transactions <> [] ->
  Forall datedInRange transactions ->
  ((length transactions <= maxArguments)%nat ->
   exists lo hi : Z,
     getDateRange maxArguments transactions
     = Some (mkDateRange (Some (mkDate (Some lo))) (Some (mkDate (Some hi)))) /\
     (exists t, In t transactions /\ getTime (Transaction.date t) = Some lo) /\
     (exists t, In t transactions /\ getTime (Transaction.date t) = Some hi) /\
     (forall t, In t transactions ->
                exists time, getTime (Transaction.date t) = Some time /\ lo <= time <= hi) /\
     filterByDateRange transactions (mkDate (Some lo)) (mkDate (Some hi)) = transactions) /\
  ((maxArguments < length transactions)%nat ->
   getDateRange maxArguments transactions = None) /\
  getDateRange maxArguments [] = Some (mkDateRange None None).
Proof.
  intros Hne Hvalid.
  destruct transactions as [ | t0 rest ]; [ contradiction Hne; reflexivity | ].
  split; [ | split; [ | reflexivity ] ].
  2: { intro Hlong. unfold getDateRange. cbn [map]. cbv beta iota.
       replace (length (getTime (Transaction.date t0)
                        :: map (fun t => getTime (Transaction.date t)) rest)
                <=? maxArguments)%nat with false; [ reflexivity | ].
       symmetry. apply Nat.leb_gt. simpl length in *. rewrite length_map. exact Hlong. }
  intro Hshort.
  set (times := map (fun t => getTime (Transaction.date t)) (t0 :: rest)).
  assert (V : Forall timeInRange times).
  { unfold times. rewrite Forall_map. exact Hvalid. }
  unfold times in V. simpl map in V. inversion V as [ | ? ? V0 Vrest ]; subst.
  destruct (Math_min_valid _ _ V0 Vrest) as (lo & Emin & Rlo & Ilo & Alo).
  destruct (Math_max_valid _ _ V0 Vrest) as (hi & Emax & Rhi & Ihi & Ahi).
  exists lo, hi.
  assert (between : forall t, In t (t0 :: rest) ->
            exists time, getTime (Transaction.date t) = Some time /\ lo <= time <= hi).
  { intros t Ht.
    assert (I : In (getTime (Transaction.date t)) times)
      by (unfold times; apply in_map_iff; eauto).
    rewrite Forall_forall in Alo, Ahi.
    destruct (Alo _ I) as (b & Eb & Hb). destruct (Ahi _ I) as (b' & Eb' & Hb').
    exists b. split; [ exact Eb | ]. rewrite Eb in Eb'. injection Eb' as <-. lia. }
  split; [ | split; [ | split; [ | split ] ] ].
  - unfold getDateRange. cbn [map]. cbv beta iota.
    replace (length (getTime (Transaction.date t0)
                     :: map (fun t => getTime (Transaction.date t)) rest)
             <=? maxArguments)%nat with true.
    + rewrite Emin, Emax. now rewrite !Date_ofNumber_inRange.
    + symmetry. apply Nat.leb_le. simpl length in *. rewrite length_map. exact Hshort.
  - change (In (Some lo) times) in Ilo. unfold times in Ilo.
    apply in_map_iff in Ilo. destruct Ilo as (t & E & Ht). eauto.
  - change (In (Some hi) times) in Ihi. unfold times in Ihi.
    apply in_map_iff in Ihi. destruct Ihi as (t & E & Ht). eauto.
  - exact between.
  - unfold filterByDateRange. apply filter_all. rewrite Forall_forall.
    intros t Ht. destruct (between t Ht) as (time & E & Hlo & Hhi).
    unfold Date_leb. simpl getTime. rewrite E.
    apply andb_true_intro. split; apply Z.leb_le; assumption.
Qed.

Lemma getDateRange_spec_witness :
  [income1000; expense400] <> [] /\
  Forall datedInRange [income1000; expense400] /\
  getDateRange 1000 [income1000; expense400]
  = Some (mkDateRange (Some (mkDate (Some 1767225600000)))
                      (Some (mkDate (Some 1767312000000)))) /\
  getDateRange 1 [income1000; expense400] = None.
Proof.
  assert (Hne : [income1000; expense400] <> []) by discriminate.
  assert (V : Forall datedInRange [income1000; expense400]).
  { constructor; [ | constructor; [ | constructor ] ].
    - exists 1767225600000. split; [ reflexivity | simpl; lia ].
    - exists 1767312000000. split; [ reflexivity | simpl; lia ]. }
  split; [ exact Hne | ]. split; [ exact V | ].
  destruct (getDateRange_spec 1 _ Hne V) as (_ & long & _).
  split; [ reflexivity | ]. apply long. simpl. lia.
Defined.

(** X22: in a list that is not longer than the number of arguments the
    engine accepts in one call, one record with an invalid date spoils the
    whole range: the minimum and the maximum that [getDateRange] returns
    are then both invalid dates, whatever the other records are. *)
Theorem getDateRange_invalid (maxArguments : nat) (transactions : list Transaction.t)
    (t : Transaction.t) :
  (length transactions <= maxArguments)%nat ->
  In t transactions ->
  getTime (Transaction.date t) = None ->
  getDateRange maxArguments transactions
  = Some (mkDateRange (Some (mkDate None)) (Some (mkDate None))).
Proof.
  intros Hshort Ht E. unfold getDateRange.
  assert (I : In None (map (fun t => getTime (Transaction.date t)) transactions)).
  { apply in_map_iff. exists t. auto. }
  rewrite <- (length_map (fun t => getTime (Transaction.date t))) in Hshort.
  destruct (map (fun t => getTime (Transaction.date t)) transactions) as [ | d dates ];
    [ destruct I | ].
  apply Nat.leb_le in Hshort. rewrite Hshort.
  now rewrite (Math_min_NaN dates d I), (Math_max_NaN dates d I).
Qed.

Lemma getDateRange_invalid_witness :
  (length [income1000; undatedExpense; expense400] <= 1000)%nat /\
  In undatedExpense [income1000; undatedExpense; expense400] /\
  getTime (Transaction.date undatedExpense) = None /\
  getDateRange 1000 [income1000; undatedExpense; expense400]
  = Some (mkDateRange (Some (mkDate None)) (Some (mkDate None))).
Proof.
  assert (L : (length [income1000; undatedExpense; expense400] <= 1000)%nat)
    by (simpl; lia).
  assert (I : In undatedExpense [income1000; undatedExpense; expense400])
    by (right; now left).
  split; [ exact L | ]. split; [ exact I | ]. split; [ reflexivity | ].
  exact (getDateRange_invalid _ _ _ L I eq_refl).
Defined.

(** ** The filter pipeline *)

Lemma filter_filter {A : Type} (p q : A -> bool) (l : list A) :
  filter q (filter p l) = filter (fun x => p x && q x) l.
Proof.
  induction l as [ | x l IH ]; simpl; [ reflexivity | ].
  destruct (p x); simpl; [ destruct (q x); now rewrite IH | exact IH ].
Qed.

Section FilterPipeline.

Context {host : Host}.

Lemma searchTransactions_filter (l : list Transaction.t) (query : string) :
  (if JS.truthy query then searchTransactions l query else l)
  = filter (matchesSearch query) l.
Proof.
  unfold searchTransactions, matchesSearch.
  destruct (JS.truthy query); simpl.
  - reflexivity.
  - symmetry. apply filter_all. now rewrite Forall_forall.
Qed.

Lemma filterByCategory_filter (l : list Transaction.t) (category : string) :
  (if JS.truthy category && negb (String.eqb category "all")
   then filterByCategory l category else l)
  = filter (matchesCategory category) l.
Proof.
  unfold filterByCategory, matchesCategory.
  destruct (JS.truthy category); simpl;
    [ | symmetry; apply filter_all; now rewrite Forall_forall ].
  destruct (String.eqb category "all"); simpl;
    [ symmetry; apply filter_all; now rewrite Forall_forall | reflexivity ].
Qed.

Lemma filterByType_filter (l : list Transaction.t) (type : string) :
  (if JS.truthy type && negb (String.eqb type "all")
   then filterByType l type else l)
  = filter (matchesType type) l.
Proof.
  unfold filterByType, matchesType.
  destruct (JS.truthy type); simpl;
    [ | symmetry; apply filter_all; now rewrite Forall_forall ].
  destruct (String.eqb type "all"); simpl;
    [ symmetry; apply filter_all; now rewrite Forall_forall | reflexivity ].
Qed.

Lemma filtered_filter (state : State.t) :
  filtered state = filter (accepts (State.filters state)) (State.transactions state).
Proof.
  unfold filtered. cbv zeta.
  set (f := State.filters state). set (l := State.transactions state).
  rewrite (searchTransactions_filter l (Filters.search f)).
  rewrite (filterByCategory_filter _ (Filters.category f)).
  rewrite (filterByType_filter _ (Filters.type f)).
  rewrite !filter_filter.
  assert (dates : forall l',
             (if JS.truthy (Filters.dateFrom f) || JS.truthy (Filters.dateTo f)
              then filterByDateRange l'
                     (if JS.truthy (Filters.dateFrom f)
                      then Date_ofString (Filters.dateFrom f) else mkDate (Some 0))
                     (if JS.truthy (Filters.dateTo f)
                      then Date_ofString (Filters.dateTo f)
                      else mkDate (Some 8640000000000000))
              else l')
             = filter (matchesDates f) l').
  { intro l'. unfold matchesDates, filterByDateRange, startBound, endBound.
    destruct (JS.truthy (Filters.dateFrom f) || JS.truthy (Filters.dateTo f));
      [ reflexivity | ].
    symmetry. apply filter_all. now rewrite Forall_forall. }
  rewrite dates, filter_filter. apply filter_ext. intro t. unfold accepts.
  now rewrite !andb_assoc.
Qed.

(** X24: [applyFilters] keeps exactly the records that pass every
    criterion in force (search text in the description or the category,
    category, type, date range), in their original order; applying the same
    filters to its result changes nothing. *)
Theorem applyFilters_accepts (state : State.t) :
  let shown := State.filteredTransactions (applyFilters state) in
  shown = filter (accepts (State.filters state)) (State.transactions state) /\
  (forall t, In t shown <->
             In t (State.transactions state) /\ accepts (State.filters state) t = true) /\
  State.filteredTransactions
    (applyFilters (State.Build shown shown (State.filters state) (State.isLoaded state)))
  = shown.
Proof.
  cbv zeta. unfold applyFilters. cbn [State.filteredTransactions].
  rewrite !filtered_filter. cbn [State.filters State.transactions].
  split; [ reflexivity | ]. split; [ intro t; apply filter_In | ].
  rewrite filter_filter. apply filter_ext. intro t. now destruct (accepts _ t).
Qed.

(** X25: a start or an end date that the host cannot read as a date
    shuts every record out: the filtered list is empty, whatever the other
    criteria are. *)
Theorem applyFilters_invalid_bound (state : State.t) :
  let f := State.filters state in
  (JS.truthy (Filters.dateFrom f) = true /\
   isValidDate (Date_ofString (Filters.dateFrom f)) = false) \/
  (JS.truthy (Filters.dateTo f) = true /\
   isValidDate (Date_ofString (Filters.dateTo f)) = false) ->
  State.filteredTransactions (applyFilters state) = [].
Proof.
  intros f H. unfold applyFilters. cbn [State.filteredTransactions].
  rewrite filtered_filter. fold f.
  assert (none : forall t, accepts f t = false).
  { intro t. unfold accepts, matchesDates, startBound, endBound, Date_leb.
    destruct H as [ [ T V ] | [ T V ] ]; rewrite T; unfold isValidDate in V.
    - simpl orb. cbv iota.
      destruct (getTime (Date_ofString (Filters.dateFrom f))); [ discriminate V | ].
      now rewrite andb_false_r.
    - rewrite orb_true_r.
      destruct (getTime (Date_ofString (Filters.dateTo f))); [ discriminate V | ].
      destruct (getTime (Transaction.date t)); now rewrite !andb_false_r. }
  induction (State.transactions state) as [ | t l IH ]; simpl;
    [ reflexivity | now rewrite none ].
Qed.

End FilterPipeline.

Lemma applyFilters_invalid_bound_witness :
  JS.truthy (Filters.dateFrom badDateFilters) = true /\
  isValidDate (Date_ofString (Host := UTC.host) (Filters.dateFrom badDateFilters)) = false /\
  State.filteredTransactions
    (applyFilters (host := UTC.host)
       (State.Build [income1000; expense400] [] badDateFilters true))
  = [].
Proof.
  split; [ reflexivity | ]. split; [ reflexivity | ].
  apply (applyFilters_invalid_bound (host := UTC.host)
           (State.Build [income1000; expense400] [] badDateFilters true)).
  left. split; reflexivity.
Defined.

(** ** Search *)

Lemma lowerChar_idempotent (c : ascii) : JS.lowerChar (JS.lowerChar c) = JS.lowerChar c.
Proof. destruct c as [[] [] [] [] [] [] [] []]; reflexivity. Qed.

Lemma toLowerCase_idempotent (s : string) :
  JS.toLowerCase (JS.toLowerCase s) = JS.toLowerCase s.
Proof.
  induction s as [ | c s IH ]; simpl; [ reflexivity | ].
  now rewrite lowerChar_idempotent, IH.
Qed.

Lemma truthy_toLowerCase (s : string) : JS.truthy (JS.toLowerCase s) = JS.truthy s.
Proof. now destruct s. Qed.

(** X26: the search does not depend on the letter case of the query: two
    queries that agree up to case select the same records. *)
Theorem searchTransactions_case (transactions : list Transaction.t) (query query' : string) :
  JS.toLowerCase query = JS.toLowerCase query' ->
  searchTransactions transactions query = searchTransactions transactions query'.
Proof.
  intro E. unfold searchTransactions.
  rewrite <- (truthy_toLowerCase query), <- (truthy_toLowerCase query'), E.
  reflexivity.
Qed.

Lemma searchTransactions_case_witness :
  JS.toLowerCase "HOUSING" = JS.toLowerCase "housing" /\
  searchTransactions [income1000; expense400] "HOUSING" = [expense400] /\
  searchTransactions [income1000; expense400] "housing" = [expense400].
Proof.
  assert (E : JS.toLowerCase "HOUSING" = JS.toLowerCase "housing") by reflexivity.
  split; [ exact E | ].
  assert (S : searchTransactions [income1000; expense400] "housing" = [expense400])
    by reflexivity.
  split; [ | exact S ].
  rewrite (searchTransactions_case [income1000; expense400] "HOUSING" "housing" E).
  exact S.
Defined.

(** ** The states of the application *)

Section StateProperties.

Context {host : Host}.

Lemma filtered_noFilters (l shown : list Transaction.t) (loaded : bool) :
  filtered (State.Build l shown noFilters loaded) = l.
Proof. reflexivity. Qed.

(** X27: in every state the application reaches, whatever the order of
    the events, the list handed to the cards, the charts and the table is
    the loaded list, in full or filtered by the filters in force, and a
    state without data shows nothing.  A change of filters never alters the
    loaded list and shows it filtered by the new filters, so that resetting
    the filters shows every loaded record again. *)
Theorem reachable_shows_filtered (state : State.t) :
  reachable state ->
  (State.filteredTransactions state = State.transactions state \/
   State.filteredTransactions state
   = filter (accepts (State.filters state)) (State.transactions state)) /\
  (State.isLoaded state = false ->
   State.transactions state = [] /\ State.filteredTransactions state = []) /\
  (forall filters,
      State.transactions (handleFilterChange filters state) = State.transactions state /\
      State.filteredTransactions (handleFilterChange filters state)
      = filter (accepts filters) (State.transactions state) /\
      State.filteredTransactions (handleFilterChange noFilters (handleFilterChange filters state))
      = State.transactions state).
Proof.
  intro R.
  assert (change : forall (filters : Filters.t) (s : State.t),
             State.filteredTransactions (handleFilterChange filters s)
             = filter (accepts filters) (State.transactions s)).
  { intros filters s. unfold handleFilterChange, applyFilters.
    cbn [State.filteredTransactions]. rewrite filtered_filter. reflexivity. }
  split; [ | split ].
  - destruct R as [ stored | s result R | s filters R | s R ].
    + left. now destruct stored as [ [ | t rest ] | ].
    + now left.
    + right. exact (change filters s).
    + now left.
  - induction R as [ stored | s result R IH | s filters R IH | s R IH ].
    + destruct stored as [ [ | t rest ] | ]; simpl; auto; discriminate.
    + discriminate.
    + intro L. destruct (IH L) as [ T _ ].
      assert (T' : State.transactions (handleFilterChange filters s) = []) by exact T.
      split; [ exact T' | ]. rewrite change, T. reflexivity.
    + auto.
  - intro filters. split; [ reflexivity | ]. split; [ apply change | reflexivity ].
Qed.

End StateProperties.

Lemma reachable_shows_filtered_witness :
  reachable (host := UTC.host)
    (handleFilterChange (host := UTC.host) expenseFilters
       (handleFileLoaded twoRecords (initApp None initialState))) /\
  State.filteredTransactions
    (handleFilterChange (host := UTC.host) expenseFilters
       (handleFileLoaded twoRecords (initApp None initialState)))
  = [expense400].
Proof.
  assert (R : reachable (host := UTC.host)
                (handleFileLoaded twoRecords (initApp None initialState)))
    by (apply reach_load, reach_init).
  split; [ now apply reach_filter | ].
  destruct (reachable_shows_filtered (host := UTC.host) _ R) as (_ & _ & change).
  rewrite (proj1 (proj2 (change expenseFilters))). reflexivity.
Defined.

(** After the data is cleared, a filter change that was still pending and
    then a new file: the state is reachable, the type filter says
    "expense", and the whole list is shown, income included. *)
Example stale_filters_after_clear :
  let state :=
    handleFileLoaded twoRecords
      (handleFilterChange (host := UTC.host) expenseFilters
         (handleClearData
            (handleFileLoaded twoRecords (initApp None initialState)))) in
  reachable (host := UTC.host) state /\
  State.filters state = expenseFilters /\
  State.filteredTransactions state = [income1000; expense400] /\
  filter (accepts (host := UTC.host) (State.filters state)) (State.transactions state)
  = [expense400].
Proof.
  split; [ | repeat split ].
  apply reach_load, reach_filter, reach_clear, reach_load, reach_init.
Qed.

(** ** Sorting the table *)

Section SortOn.

Variable A : Type.
Variable compare : A -> A -> Z.
Variable P : A -> Prop.
Variable R : A -> A -> Prop.

Hypothesis before : forall x y, P x -> P y -> compare x y <= 0 -> R x y.
Hypothesis after : forall x y, P x -> P y -> ~ compare x y <= 0 -> R y x.
Hypothesis R_trans : forall x y z, R x y -> R y z -> R x z.

Lemma insertBy_sorted_on (x : A) (l : list A) :
  P x -> Forall P l -> StronglySorted R l -> StronglySorted R (insertBy compare x l).
Proof.
  intros Hx Hl S. induction S as [ | y rest Hrest IH Hy ]; simpl.
  - repeat constructor.
  - inversion Hl as [ | ? ? Py Prest ]; subst.
    destruct (compare x y <=? 0) eqn:E.
    + apply Z.leb_le in E. pose proof (before x y Hx Py E) as Rxy.
      constructor; [ constructor; assumption | ].
      constructor; [ exact Rxy | ].
      eapply Forall_impl; [ | exact Hy ]. intros z Hz. now apply R_trans with y.
    + apply Z.leb_gt in E.
      constructor; [ now apply IH | ].
      apply insertBy_Forall; [ | exact Hy ].
      apply (after x y Hx Py). lia.
Qed.

Lemma sortBy_sorted_on (l : list A) : Forall P l -> StronglySorted R (sortBy compare l).
Proof.
  intro Hl. induction Hl as [ | x l Hx Hl IH ]; simpl; [ constructor | ].
  apply insertBy_sorted_on; [ exact Hx | | exact IH ].
  rewrite Forall_forall in *. intros y Hy. apply Hl.
  exact (Permutation_in _ (sortBy_Permutation A compare l) Hy).
Qed.

End SortOn.

Lemma sortBy_constant {A : Type} (compare : A -> A -> Z) (l : list A) :
  (forall x y, compare x y = 0) -> sortBy compare l = l.
Proof.
  intro H. induction l as [ | x l IH ]; simpl; [ reflexivity | ].
  rewrite IH. destruct l as [ | y l ]; simpl; [ reflexivity | ]. now rewrite H.
Qed.

Lemma Qlt_bool_iff (x y : Q) : Qlt_bool x y = true <-> (x < y)%Q.
Proof.
  unfold Qlt_bool. rewrite negb_true_iff. split.
  - intro H. apply Qnot_le_lt. intro L. apply Qle_bool_iff in L. congruence.
  - intro H. destruct (Qle_bool y x) eqn:L; [ | reflexivity ].
    apply Qle_bool_iff in L. exfalso. exact (Qlt_not_le _ _ H L).
Qed.

Lemma Qlt_bool_false (x y : Q) : Qlt_bool x y = false <-> (y <= x)%Q.
Proof.
  unfold Qlt_bool. rewrite negb_false_iff. apply Qle_bool_iff.
Qed.

(** The comparison of two numbers or two strings, in either direction. *)
Lemma compareBy_numbers (column direction : string) (a b : Transaction.t) (x y : Q) :
  sortValue column a = Some (SortNumber (Some x)) ->
  sortValue column b = Some (SortNumber (Some y)) ->
  (compareBy column direction a b <= 0 ->
   if String.eqb direction "asc" then (x <= y)%Q else (y <= x)%Q) /\
  (~ compareBy column direction a b <= 0 ->
   if String.eqb direction "asc" then (y <= x)%Q else (x <= y)%Q).
Proof.
  intros Ea Eb. unfold compareBy. rewrite Ea, Eb. simpl lessThan.
  destruct (Qlt_bool x y) eqn:L1.
  - apply Qlt_bool_iff in L1. apply Qlt_le_weak in L1.
    destruct (String.eqb direction "asc"); split; intro H; try lia; exact L1.
  - apply Qlt_bool_false in L1. destruct (Qlt_bool y x) eqn:L2.
    + destruct (String.eqb direction "asc"); split; intro H; try lia; exact L1.
    + apply Qlt_bool_false in L2.
      destruct (String.eqb direction "asc"); split; intro H; try lia; assumption.
Qed.

Lemma ltb_false_leb (s t : string) : String.ltb s t = false -> keyLe t s.
Proof.
  unfold String.ltb, keyLe, String.leb. rewrite (String.compare_antisym t s).
  destruct (String.compare s t); simpl; intro H; try reflexivity; discriminate H.
Qed.

Lemma ltb_true_leb (s t : string) : String.ltb s t = true -> keyLe s t.
Proof.
  unfold String.ltb, keyLe, String.leb.
  destruct (String.compare s t); intro H; try reflexivity; discriminate H.
Qed.

Lemma compareBy_texts (column direction : string) (a b : Transaction.t) (s t : string) :
  sortValue column a = Some (SortText s) ->
  sortValue column b = Some (SortText t) ->
  (compareBy column direction a b <= 0 ->
   if String.eqb direction "asc" then keyLe s t else keyLe t s) /\
  (~ compareBy column direction a b <= 0 ->
   if String.eqb direction "asc" then keyLe t s else keyLe s t).
Proof.
  intros Ea Eb. unfold compareBy. rewrite Ea, Eb. simpl lessThan.
  destruct (String.ltb s t) eqn:L1.
  - apply ltb_true_leb in L1.
    destruct (String.eqb direction "asc"); split; intro H; try lia; exact L1.
  - apply ltb_false_leb in L1. destruct (String.ltb t s) eqn:L2.
    + destruct (String.eqb direction "asc"); split; intro H; try lia; exact L1.
    + apply ltb_false_leb in L2.
      destruct (String.eqb direction "asc"); split; intro H; try lia; assumption.
Qed.

(** X28: [sortTransactions] returns the same records in another order.
    By amount they come in ascending order for the direction 'asc' and in
    descending order for any other direction; likewise by category and by
    description, compared without regard to letter case, and by date when
    every date is valid.  For a column it does not know the order is left
    as it is. *)
Theorem sortTransactions_spec (transactions : list Transaction.t) (direction : string) :
  let ordered (A : Type) (le : A -> A -> Prop) (key : Transaction.t -> A) (column : string) :=
    StronglySorted
      (fun a b => if String.eqb direction "asc" then le (key a) (key b)
                  else le (key b) (key a))
      (sortTransactions transactions column direction) in
  (forall column, Permutation (sortTransactions transactions column direction) transactions) /\
  ordered Q Qle Transaction.amount "amount" /\
  ordered string keyLe (fun t => JS.toLowerCase (Transaction.category t)) "category" /\
  ordered string keyLe (fun t => JS.toLowerCase (Transaction.description t)) "description" /\
  (Forall dated transactions ->
   ordered (option Z)
     (fun x y => match x, y with Some a, Some b => a <= b | _, _ => False end)
     (fun t => getTime (Transaction.date t)) "date") /\
  (forall column,
      column <> "date" -> column <> "description" -> column <> "category" ->
      column <> "amount" ->
      sortTransactions transactions column direction = transactions).
Proof.
  cbv zeta. unfold sortTransactions.
  split; [ intro column; apply sortBy_Permutation | ].
  split; [ | split; [ | split; [ | split ] ] ].
  - apply sortBy_sorted_on with (P := fun _ => True).
    + intros x y _ _ H.
      exact (proj1 (compareBy_numbers "amount" direction x y _ _ eq_refl eq_refl) H).
    + intros x y _ _ H.
      pose proof (proj2 (compareBy_numbers "amount" direction x y _ _ eq_refl eq_refl) H) as G.
      destruct (String.eqb direction "asc"); exact G.
    + intros x y z. destruct (String.eqb direction "asc"); intros H1 H2;
        [ now apply Qle_trans with (Transaction.amount y)
        | now apply Qle_trans with (Transaction.amount y) ].
    + now rewrite Forall_forall.
  - apply sortBy_sorted_on with (P := fun _ => True).
    + intros x y _ _ H.
      exact (proj1 (compareBy_texts "category" direction x y _ _ eq_refl eq_refl) H).
    + intros x y _ _ H.
      pose proof (proj2 (compareBy_texts "category" direction x y _ _ eq_refl eq_refl) H) as G.
      destruct (String.eqb direction "asc"); exact G.
    + intros x y z. destruct (String.eqb direction "asc"); intros H1 H2;
        [ exact (keyLe_trans _ _ _ H1 H2) | exact (keyLe_trans _ _ _ H2 H1) ].
    + now rewrite Forall_forall.
  - assert (key : forall t, sortValue "description" t
                            = Some (SortText (JS.toLowerCase (Transaction.description t)))).
    { intro t. unfold sortValue. cbn [String.eqb Ascii.eqb Bool.eqb andb]. cbv iota.
      unfold JS.orElse. now destruct (Transaction.description t). }
    apply sortBy_sorted_on with (P := fun _ => True).
    + intros x y _ _ H.
      exact (proj1 (compareBy_texts "description" direction x y _ _ (key x) (key y)) H).
    + intros x y _ _ H.
      pose proof (proj2 (compareBy_texts "description" direction x y _ _ (key x) (key y)) H)
        as G.
      destruct (String.eqb direction "asc"); exact G.
    + intros x y z. destruct (String.eqb direction "asc"); intros H1 H2;
        [ exact (keyLe_trans _ _ _ H1 H2) | exact (keyLe_trans _ _ _ H2 H1) ].
    + now rewrite Forall_forall.
  - intro Hdated.
    assert (key : forall t time, getTime (Transaction.date t) = Some time ->
                    sortValue "date" t = Some (SortNumber (Some (inject_Z time)))).
    { intros t time E. unfold sortValue. simpl. now rewrite E. }
    apply sortBy_sorted_on with (P := dated); [ | | | exact Hdated ].
    + intros x y (tx & Ex) (ty & Ey) H. rewrite Ex, Ey.
      pose proof (proj1 (compareBy_numbers "date" direction x y _ _
                           (key x tx Ex) (key y ty Ey)) H) as G.
      destruct (String.eqb direction "asc"); rewrite Zle_Qle; exact G.
    + intros x y (tx & Ex) (ty & Ey) H. rewrite Ex, Ey.
      pose proof (proj2 (compareBy_numbers "date" direction x y _ _
                           (key x tx Ex) (key y ty Ey)) H) as G.
      destruct (String.eqb direction "asc"); rewrite Zle_Qle; exact G.
    + intros x y z. destruct (String.eqb direction "asc");
        destruct (getTime (Transaction.date x)), (getTime (Transaction.date y)),
                 (getTime (Transaction.date z)); intros H1 H2; try contradiction; lia.
  - intros column N1 N2 N3 N4. apply sortBy_constant. intros x y.
    unfold compareBy, sortValue.
    apply String.eqb_neq in N1, N2, N3, N4. now rewrite N1, N2, N3, N4.
Qed.

Lemma sortTransactions_spec_witness :
  Forall dated [expense400; income1000] /\
  sortTransactions [expense400; income1000] "date" "asc" = [income1000; expense400] /\
  sortTransactions [expense400; income1000] "amount" "desc" = [income1000; expense400] /\
  sortTransactions [expense400; income1000] "type" "asc" = [expense400; income1000].
Proof.
  assert (D : Forall dated [expense400; income1000]).
  { constructor; [ eexists; reflexivity | ]. constructor; [ eexists; reflexivity | ].
    constructor. }
  split; [ exact D | ].
  destruct (sortTransactions_spec [expense400; income1000] "asc") as (_ & _ & _ & _ & _ & U).
  split; [ reflexivity | ]. split; [ reflexivity | ].
  apply U; discriminate.
Defined.

(** ** Pages of the table *)

Lemma firstn_add {A : Type} (a b : nat) (l : list A) :
  firstn (a + b) l = (firstn a l ++ firstn b (skipn a l))%list.
Proof.
  revert l. induction a as [ | a IH ]; intro l; simpl; [ reflexivity | ].
  destruct l as [ | x l ]; simpl; [ now destruct b | now rewrite IH ].
Qed.

Lemma arraySlice_from {A : Type} (l : list A) (start count : Z) :
  0 <= start -> 0 <= count ->
  arraySlice l start (start + count)
  = firstn (Z.to_nat count) (skipn (Z.to_nat start) l).
Proof.
  intros Hs Hc. unfold arraySlice.
  replace (start <? 0) with false by (symmetry; apply Z.ltb_ge; lia).
  replace (start + count <? 0) with false by (symmetry; apply Z.ltb_ge; lia).
  set (len := Z.of_nat (length l)).
  destruct (Z.le_gt_cases start len) as [ Hin | Hout ].
  - rewrite (Z.min_l start len) by lia.
    destruct (Z.le_gt_cases (start + count) len) as [ Hall | Hcut ].
    + rewrite Z.min_l by lia. f_equal. f_equal. lia.
    + rewrite Z.min_r by lia.
      assert (L : length (skipn (Z.to_nat start) l) = Z.to_nat (len - start)).
      { rewrite length_skipn. unfold len. lia. }
      rewrite <- L, firstn_all. symmetry. apply firstn_all2. rewrite L. lia.
  - rewrite (Z.min_r start len), (Z.min_r (start + count) len) by lia.
    rewrite Z.sub_diag. simpl firstn.
    rewrite skipn_all2 by (unfold len in Hout; lia). now destruct (Z.to_nat count).
Qed.

Lemma paginated_chunk {A : Type} (sorted : list A) (pageSize : Z) (k : nat) :
  0 < pageSize ->
  paginated sorted (Z.of_nat (S k)) pageSize
  = firstn (Z.to_nat pageSize) (skipn (k * Z.to_nat pageSize) sorted).
Proof.
  intro H. unfold paginated. cbv zeta.
  rewrite arraySlice_from by nia. f_equal. f_equal. nia.
Qed.

Lemma chunks_concat {A : Type} (l : list A) (n m : nat) :
  concat (map (fun k => firstn n (skipn (k * n) l)) (seq 0 m)) = firstn (m * n) l.
Proof.
  induction m as [ | m IH ]; [ reflexivity | ].
  rewrite seq_S, map_app, concat_app, IH. simpl.
  rewrite app_nil_r, <- firstn_add. f_equal. lia.
Qed.

Lemma totalPages_bounds (count pageSize : Z) :
  0 < pageSize -> 0 <= count ->
  let total := totalPages count pageSize in
  0 <= total /\ (0 < total -> (total - 1) * pageSize < count)
  /\ count <= total * pageSize.
Proof.
  intros Hp Hc. unfold totalPages. cbv zeta.
  pose proof (Z.div_mod (- count) pageSize ltac:(lia)) as D.
  pose proof (Z.mod_pos_bound (- count) pageSize Hp) as M.
  set (q := (- count) / pageSize) in *. set (r := (- count) mod pageSize) in *.
  repeat split; nia.
Qed.

(** X29: the pages partition the sorted list: for a positive page size,
    the rows of the pages 1 to [totalPages], one after the other, are the
    whole list in its order; each of these pages holds at least one row and
    at most [pageSize] rows, as many as the caption "start-end of n"
    announces, and every later page is empty. *)
Theorem pages_partition {A : Type} (sorted : list A) (pageSize : Z) :
  0 < pageSize ->
  let count := Z.of_nat (length sorted) in
  let total := totalPages count pageSize in
  concat (map (fun p => paginated sorted (Z.of_nat p) pageSize) (seq 1 (Z.to_nat total)))
  = sorted /\
  (forall p, 1 <= p <= total ->
             paginated sorted p pageSize <> [] /\
             Z.of_nat (length (paginated sorted p pageSize)) <= pageSize /\
             Z.of_nat (length (paginated sorted p pageSize))
             = endItem p pageSize count - startItem p pageSize + 1) /\
  (forall p, total < p -> paginated sorted p pageSize = []).
Proof.
  intros Hp count total.
  destruct (totalPages_bounds count pageSize Hp ltac:(unfold count; lia))
    as (T0 & Tlow & Thigh). fold total in T0, Tlow, Thigh.
  set (n := Z.to_nat pageSize).
  assert (page : forall k : nat,
             paginated sorted (Z.of_nat (S k)) pageSize
             = firstn n (skipn (k * n) sorted))
    by (intro k; now apply paginated_chunk).
  assert (size : forall k : nat,
             Z.of_nat (length (paginated sorted (Z.of_nat (S k)) pageSize))
             = Z.max 0 (Z.min pageSize (count - Z.of_nat k * pageSize))).
  { intro k. rewrite page, length_firstn, length_skipn. unfold count, n. nia. }
  assert (sizeZ : forall p, 1 <= p ->
             Z.of_nat (length (paginated sorted p pageSize))
             = Z.max 0 (Z.min pageSize (count - (p - 1) * pageSize))).
  { intros p Hp1.
    replace p with (Z.of_nat (Datatypes.S (Z.to_nat (p - 1)))) at 1 by lia.
    rewrite size. replace (Z.of_nat (Z.to_nat (p - 1))) with (p - 1) by lia.
    reflexivity. }
  split; [ | split ].
  - rewrite <- seq_shift, map_map.
    rewrite (map_ext _ (fun k => firstn n (skipn (k * n) sorted)) page).
    rewrite chunks_concat. apply firstn_all2. unfold n. unfold count in Thigh. nia.
  - intros p Hrange.
    pose proof (sizeZ p ltac:(lia)) as Hsize.
    assert (below : (p - 1) * pageSize < count).
    { specialize (Tlow ltac:(lia)). nia. }
    split; [ | split ].
    + intro N. rewrite N in Hsize. simpl length in Hsize. lia.
    + lia.
    + rewrite Hsize. unfold endItem, startItem. nia.
  - intros p Hlate.
    pose proof (sizeZ p ltac:(lia)) as Hsize.
    destruct (paginated sorted p pageSize) as [ | x rest ]; [ reflexivity | ].
    simpl length in Hsize. nia.
Qed.

Lemma pages_partition_witness :
  0 < 2 /\
  totalPages (Z.of_nat (length [1; 2; 3; 4; 5])) 2 = 3 /\
  paginated [1; 2; 3; 4; 5] 3 2 = [5] /\
  concat (map (fun p => paginated [1; 2; 3; 4; 5] (Z.of_nat p) 2) (seq 1 3))
  = [1; 2; 3; 4; 5].
Proof.
  assert (H : 0 < 2) by lia.
  split; [ exact H | ]. split; [ reflexivity | ]. split; [ reflexivity | ].
  exact (proj1 (pages_partition [1; 2; 3; 4; 5] 2 H)).
Defined.

(** ** The pager *)

Lemma pageNumbers_app (l r : list (option Z)) :
  pageNumbers (l ++ r) = (pageNumbers l ++ pageNumbers r)%list.
Proof.
  induction l as [ | [ p | ] l IH ]; simpl; [ reflexivity | now rewrite IH | exact IH ].
Qed.

Lemma includesPage_In (pages : list (option Z)) (p : Z) :
  includesPage pages p = true <-> In p (pageNumbers pages).
Proof.
  induction pages as [ | [ q | ] pages IH ]; simpl.
  - split; [ discriminate | tauto ].
  - rewrite orb_true_iff, IH, Z.eqb_eq. tauto.
  - exact IH.
Qed.

Lemma includesPage_below (pages : list (option Z)) (i : Z) :
  Forall (fun q => q < i) (pageNumbers pages) -> includesPage pages i = false.
Proof.
  intro Hlow. destruct (includesPage pages i) eqn:E; [ | reflexivity ].
  apply includesPage_In in E. rewrite Forall_forall in Hlow.
  specialize (Hlow i E). lia.
Qed.

Lemma StronglySorted_snoc (l : list Z) (i : Z) :
  StronglySorted Z.lt l -> Forall (fun q => q < i) l ->
  StronglySorted Z.lt (l ++ [i]).
Proof.
  induction 1 as [ | x l Hs IH Hx ]; intro Hlow; simpl.
  - repeat constructor.
  - inversion Hlow as [ | ? ? Hxi Hrest ]; subst. constructor; [ now apply IH | ].
    apply Forall_app. split; [ exact Hx | now constructor ].
Qed.

(** A page above all the pages shown so far is appended, after an
    ellipsis or not. *)
Lemma pushPage_numbers (pages : list (option Z)) (i : Z) :
  Forall (fun q => q < i) (pageNumbers pages) ->
  pageNumbers (pushPage pages i) = (pageNumbers pages ++ [i])%list.
Proof.
  intro Hlow. unfold pushPage. rewrite (includesPage_below _ _ Hlow). simpl negb.
  cbv iota zeta. destruct (negb (lastIs pages (i - 1)));
    rewrite !pageNumbers_app; simpl; now rewrite ?app_nil_r.
Qed.

Lemma pagesLoop_numbers (rounds : nat) :
  forall (i : Z) (pages : list (option Z)),
    StronglySorted Z.lt (pageNumbers pages) ->
    Forall (fun q => q < i) (pageNumbers pages) ->
    let shown := pageNumbers (pagesLoop rounds i pages) in
    StronglySorted Z.lt shown /\
    Forall (fun q => q < i + Z.of_nat rounds) shown /\
    (forall p, In p shown <->
               In p (pageNumbers pages) \/ i <= p < i + Z.of_nat rounds).
Proof.
  induction rounds as [ | rounds IH ]; intros i pages Hs Hlow; cbv zeta.
  - cbn [pagesLoop]. split; [ exact Hs | ]. split.
    + eapply Forall_impl; [ | exact Hlow ]. cbv beta. intros; lia.
    + intro p. split; [ tauto | intros [ H | H ]; [ exact H | lia ] ].
  - cbn [pagesLoop].
    pose proof (pushPage_numbers pages i Hlow) as E.
    destruct (IH (i + 1) (pushPage pages i)) as (S1 & S2 & S3).
    + rewrite E. now apply StronglySorted_snoc.
    + rewrite E. apply Forall_app. split.
      * eapply Forall_impl; [ | exact Hlow ]. cbv beta. intros; lia.
      * constructor; [ lia | constructor ].
    + split; [ exact S1 | ]. split.
      * eapply Forall_impl; [ | exact S2 ]. cbv beta. intros; lia.
      * intro p. rewrite S3, E, in_app_iff. cbn [In].
        rewrite Nat2Z.inj_succ. split.
        -- intros [ [ H | [ H | [] ] ] | H ]; [ now left | right; lia | right; lia ].
        -- intros [ H | H ]; [ now left; left | ].
           destruct (Z.eq_dec i p) as [ e | ne ];
             [ left; right; now left | right; lia ].
Qed.

(** X30: the pager of a table with [total] pages, on page [current]: the
    page numbers it shows are strictly increasing, and they are exactly
    the first page, the last page and the pages next to the current one
    that exist; so the current page is among them, and a click on any of
    its buttons leaves the current page between 1 and [total]. *)
Theorem pagerPages_spec (current total : Z) :
  1 <= current <= total ->
  let shown := pageNumbers (pagerPages current total) in
  StronglySorted Z.lt shown /\
  (forall p, In p shown <->
             1 <= p <= total /\
             (p = 1 \/ p = total \/ current - 1 <= p <= current + 1)) /\
  In current shown /\
  (forall button,
      match button with PageNumber p => In p shown | _ => True end ->
      1 <= clickPage button current total <= total).
Proof.
  intros Hrange shown.
  assert (core : StronglySorted Z.lt shown /\
                 (forall p, In p shown <->
                            1 <= p <= total /\
                            (p = 1 \/ p = total \/ current - 1 <= p <= current + 1))).
  { unfold shown, pagerPages. cbv zeta.
    set (lower := Z.max 2 (current - 1)).
    set (upper := Z.min (total - 1) (current + 1)).
    set (rounds := Z.to_nat (upper - lower + 1)).
    destruct (pagesLoop_numbers rounds lower [Some 1]) as (S1 & S2 & S3).
    { simpl. repeat constructor. }
    { simpl. constructor; [ unfold lower; lia | constructor ]. }
    set (pages := pagesLoop rounds lower [Some 1]) in *.
    assert (Hin : forall p, In p (pageNumbers pages) <-> p = 1 \/ lower <= p <= upper).
    { intro p. rewrite S3. simpl. unfold rounds. split.
      - intros [ [ H | [] ] | H ]; [ now left | right; lia ].
      - intros [ H | H ]; [ left; now left | right; lia ]. }
    destruct (1 <? total) eqn:Many;
      [ apply Z.ltb_lt in Many | apply Z.ltb_ge in Many ].
    - assert (Hlow : Forall (fun q => q < total) (pageNumbers pages)).
      { apply Forall_forall. intros q Hq. apply Hin in Hq. unfold lower, upper in Hq. lia. }
      assert (E : pageNumbers
                    (if negb (lastIs pages (total - 1)) && negb (lastIs pages total)
                     then (pages ++ [None])%list else pages)
                  = pageNumbers pages).
      { destruct (negb (lastIs pages (total - 1)) && negb (lastIs pages total));
          [ | reflexivity ].
        rewrite pageNumbers_app. simpl. now rewrite app_nil_r. }
      rewrite includesPage_below by (now rewrite E). simpl negb. cbv iota.
      rewrite pageNumbers_app, E. simpl pageNumbers. split.
      + now apply StronglySorted_snoc.
      + intro p. rewrite in_app_iff, Hin. simpl. unfold lower, upper. lia.
    - split; [ exact S1 | ].
      intro p. rewrite Hin. unfold lower, upper. lia. }
  destruct core as (Hsorted & Hin).
  split; [ exact Hsorted | ]. split; [ exact Hin | ]. split.
  - apply Hin. lia.
  - intros [ | | p ] Hbutton; unfold clickPage.
    + destruct (1 <? current) eqn:E;
        [ apply Z.ltb_lt in E | apply Z.ltb_ge in E ]; lia.
    + destruct (current <? total) eqn:E;
        [ apply Z.ltb_lt in E | apply Z.ltb_ge in E ]; lia.
    + apply Hin in Hbutton. lia.
Qed.

Lemma pagerPages_spec_witness :
  1 <= 5 <= 9 /\
  pagerPages 5 9 = [Some 1; None; Some 4; Some 5; Some 6; None; Some 9] /\
  In 5 (pageNumbers (pagerPages 5 9)).
Proof.
  assert (H : 1 <= 5 <= 9) by lia.
  split; [ exact H | ]. split; [ reflexivity | ].
  exact (proj1 (proj2 (proj2 (pagerPages_spec 5 9 H)))).
Defined.
